(** * Authorization core of the educational SaaS API

    A shallow embedding of the authentication, tenant and ABAC pipeline
    (src/shared/middleware, src/shared/utils and the auth service) together
    with the properties the specification states about it.

    Conventions of the embedding:
    - identifiers, e-mails, messages and header values are [string];
    - a password is a list of UTF-16 code units, because the validator
      depends on [String.prototype.length] and on regular-expression
      character classes;
    - Prisma [Int] columns and counts are [Z];
    - an Express middleware [(req, res, next) => void] becomes a function
      returning what happened: the next handler was called with the
      (possibly extended) request, or a response was sent;
    - a rejected promise / thrown error is the [Thrown] result;
    - the database answers every well-formed query: a lost connection is
      outside the model, a query that Prisma refuses for the schema is not. *)

From Stdlib Require Import ZArith String Ascii List Bool Lia.
From stdpp Require Import base option list strings gmap pretty.

Local Open Scope string_scope.
Local Open Scope Z_scope.

(** ** HTTP status codes (shared/utils/response.ts) *)

Module HTTP_STATUS.
Definition OK : Z := 200.
Definition CREATED : Z := 201.
Definition BAD_REQUEST : Z := 400.
Definition UNAUTHORIZED : Z := 401.
Definition FORBIDDEN : Z := 403.
Definition NOT_FOUND : Z := 404.
Definition CONFLICT : Z := 409.
Definition INTERNAL_SERVER_ERROR : Z := 500.
End HTTP_STATUS.

(** An entry of the [errors] array of a response. *)
Record ValidationError := {
  ve_field : string;
  ve_message : string;
  ve_code : option string
}.

(** The envelope written by [createResponse]: the status code, the message
    and the [errors] array, which the body carries only when it is not
    empty, so that a missing array and an empty one are the same response. *)
Record Response := mkResponse {
  res_status : Z;
  res_message : string;
  res_errors : list ValidationError
}.

Definition badRequestResponse (message : string) : Response :=
  mkResponse HTTP_STATUS.BAD_REQUEST message [].
Definition unauthorizedResponse (message : string) : Response :=
  mkResponse HTTP_STATUS.UNAUTHORIZED message [].
Definition forbiddenResponse (message : string) : Response :=
  mkResponse HTTP_STATUS.FORBIDDEN message [].

(** ** Bearer extraction (shared/utils/jwt.ts) *)

Module Jwt.

(** [String.prototype.split(' ')]: the pieces between single spaces; the
    empty string splits into one empty piece. *)
Fixpoint split_space (s : string) : list string :=
  match s with
  | EmptyString => [EmptyString]
  | String c s' =>
      if Ascii.eqb c " "%char then EmptyString :: split_space s'
      else match split_space s' with
           | p :: ps => String c p :: ps
           | [] => [String c EmptyString]
           end
  end.

(** The pieces joined again with single spaces ([Array.prototype.join]). *)
Fixpoint join_space (parts : list string) : string :=
  match parts with
  | [] => ""
  | [p] => p
  | p :: ps => p +:+ " " +:+ join_space ps
  end.

(** [!authHeader] for [authHeader?: string]: undefined or the empty string. *)
Definition falsy_string (o : option string) : bool :=
  match o with
  | None => true
  | Some s => String.eqb s ""
  end.

Definition extractTokenFromHeader (authHeader : option string) : option string :=
  if falsy_string authHeader then None
  else
    let parts := split_space (default "" authHeader) in
    if negb (Nat.eqb (length parts) 2)
       || negb (bool_decide (parts !! 0%nat = Some "Bearer"))
    then None
    else parts !! 1%nat.

(** A token without any space character. *)
Fixpoint no_space (s : string) : bool :=
  match s with
  | EmptyString => true
  | String c s' => negb (Ascii.eqb c " "%char) && no_space s'
  end.

End Jwt.

(** ** Password validation (shared/utils/password.ts) *)

Module Password.

Definition jsstring := list Z.

(** A Latin-1 literal as code units. *)
Definition lit (s : string) : jsstring :=
  map (fun a => Z.of_N (N_of_ascii a)) (list_ascii_of_string s).

Module HASH_CONFIG.
Definition minPasswordLength : Z := 8.
Definition maxPasswordLength : Z := 128.
End HASH_CONFIG.

Inductive PasswordStrength := WEAK | MEDIUM | STRONG | VERY_STRONG.

Record PasswordValidationResult := {
  isValid : bool;
  strength : PasswordStrength;
  errors : list string;
  suggestions : list string
}.

Definition js_length (s : jsstring) : Z := Z.of_nat (length s).

(** Character classes of the regular expressions. *)
Definition is_upper (c : Z) : bool := (65 <=? c) && (c <=? 90).     (* [A-Z] *)
Definition is_lower (c : Z) : bool := (97 <=? c) && (c <=? 122).    (* [a-z] *)
Definition is_digit (c : Z) : bool := (48 <=? c) && (c <=? 57).     (* \d *)
Definition is_special (c : Z) : bool :=                             (* [@$!%*?&] *)
  existsb (Z.eqb c) (lit "@$!%*?&").

(** [/[class]/.test(s)] *)
Definition test_class (cls : Z -> bool) (s : jsstring) : bool := existsb cls s.

(** Canonicalize of a non-unicode, ignore-case regular expression, on the
    code units that can meet an ASCII pattern character: ASCII lower-case
    letters fold to upper case.  A code unit of 128 or more never folds
    into ASCII, so leaving it unchanged does not alter any comparison with
    the ASCII patterns used here. *)
Definition canonicalize (ignoreCase : bool) (c : Z) : Z :=
  if ignoreCase && is_lower c then c - 32 else c.

(** Does the literal pattern match at the start of [s]? *)
Fixpoint match_here (ignoreCase : bool) (pat s : jsstring) : bool :=
  match pat, s with
  | [], _ => true
  | _ :: _, [] => false
  | p :: pat', c :: s' =>
      (canonicalize ignoreCase p =? canonicalize ignoreCase c)
      && match_here ignoreCase pat' s'
  end.

(** [/literal/.test(s)] and [/literal/i.test(s)]: a match at some offset. *)
Fixpoint test_literal (ignoreCase : bool) (pat s : jsstring) : bool :=
  match_here ignoreCase pat s
  || match s with
     | [] => false
     | _ :: s' => test_literal ignoreCase pat s'
     end.

(** PASSWORD_PATTERNS: the look-aheads ask for one character of a class, the
    body for eight or more characters of the allowed alphabet. *)
Definition allowed_char (c : Z) : bool :=
  is_lower c || is_upper c || is_digit c || is_special c.

Definition PASSWORD_PATTERNS_strong (s : jsstring) : bool :=
  test_class is_lower s && test_class is_upper s && test_class is_digit s
  && forallb allowed_char s && (8 <=? js_length s).

Definition PASSWORD_PATTERNS_veryStrong (s : jsstring) : bool :=
  test_class is_lower s && test_class is_upper s && test_class is_digit s
  && test_class is_special s
  && forallb allowed_char s && (8 <=? js_length s).

Definition evaluatePasswordStrength (password : jsstring) : PasswordStrength :=
  match password with
  | [] => WEAK
  | _ =>
    if PASSWORD_PATTERNS_veryStrong password then VERY_STRONG
    else if PASSWORD_PATTERNS_strong password then STRONG
    else
      let hasMinLength := HASH_CONFIG.minPasswordLength <=? js_length password in
      let hasUpperCase := test_class is_upper password in
      let hasLowerCase := test_class is_lower password in
      let hasNumbers := test_class is_digit password in
      if hasMinLength && hasUpperCase && hasLowerCase && hasNumbers
      then MEDIUM else WEAK
  end.

(** The array [commonPatterns], each entry with its [i] flag. *)
Definition commonPatterns : list (bool * jsstring) :=
  [ (false, lit "123456");
    (true, lit "password");
    (true, lit "qwerty");
    (true, lit "admin");
    (true, lit "letmein") ].

(** [if (cond) { errors.push(e); suggestions.push(s) }] on the pair of arrays. *)
Definition push_if (cond : bool) (e : list string) (s : list string)
    (acc : list string * list string) : list string * list string :=
  if cond then ((acc.1 ++ e)%list, (acc.2 ++ s)%list) else acc.

Definition validatePassword (password : jsstring) (requireStrong : bool)
    : PasswordValidationResult :=
  match password with
  | [] =>
      {| isValid := false; strength := WEAK;
         errors := ["La contraseña es requerida"];
         suggestions := ["Proporciona una contraseña válida"] |}
  | _ =>
    let acc0 : list string * list string := ([], []) in
    let acc1 := push_if (js_length password <? HASH_CONFIG.minPasswordLength)
                  ["La contraseña debe tener al menos 8 caracteres"] [] acc0 in
    let acc2 := push_if (HASH_CONFIG.maxPasswordLength <? js_length password)
                  ["La contraseña no puede tener más de 128 caracteres"] [] acc1 in
    let hasUpperCase := test_class is_upper password in
    let hasLowerCase := test_class is_lower password in
    let hasNumbers := test_class is_digit password in
    let hasSpecialChars := test_class is_special password in
    let acc3 := push_if (negb hasUpperCase)
                  ["La contraseña debe contener al menos una letra mayúscula"]
                  ["Agrega al menos una letra mayúscula (A-Z)"] acc2 in
    let acc4 := push_if (negb hasLowerCase)
                  ["La contraseña debe contener al menos una letra minúscula"]
                  ["Agrega al menos una letra minúscula (a-z)"] acc3 in
    let acc5 := push_if (negb hasNumbers)
                  ["La contraseña debe contener al menos un número"]
                  ["Agrega al menos un número (0-9)"] acc4 in
    let acc6 := push_if (requireStrong && negb hasSpecialChars)
                  ["La contraseña debe contener al menos un carácter especial"]
                  ["Agrega al menos un carácter especial (@$!%*?&)"] acc5 in
    (* the loop pushes once, at the first pattern that matches, and breaks;
       the quotation marks inside the suggestion text are left out *)
    let acc7 := push_if
                  (existsb (fun p => test_literal p.1 p.2 password) commonPatterns)
                  ["La contraseña contiene patrones comunes inseguros"]
                  ["Evita usar patrones comunes como 123456, password, etc."] acc6 in
    {| isValid := Nat.eqb (length acc7.1) 0;
       strength := evaluatePasswordStrength password;
       errors := acc7.1;
       suggestions := acc7.2 |}
  end.

End Password.

(** ** Data model (prisma/migrations/20250814153841_init) *)

(** The columns the authorization core reads.  Nullable columns are
    [option]; [Teacher], [Course], [Subject] and [VirtualClassroom] reach
    their institution only through a relation, they have no
    [institutionId] column of their own. *)

Record Plan := {
  plan_id : string;
  plan_slug : string;
  plan_features : string -> bool;
  studentLimit : Z;
  teacherLimit : Z;
  adminLimit : Z;
  courseLimit : Z;
  aiTeacherCallsMonthly : Z;
  aiStudentMinutesMonthly : Z;
  certificateMonthly : Z;
  virtualClassroomLimit : Z;
  storageMB : Z
}.

Record Institution := {
  inst_id : string;
  inst_name : string;
  inst_slug : string;
  inst_status : option string;
  inst_planId : option string
}.

Record User := {
  user_id : string;
  user_institutionId : option string;
  user_email : string;
  user_password : option string;
  user_fullName : string;
  user_isActive : bool;
  user_attributes : option (gmap string string);
  user_lastLogin : option Z
}.

Record Role := { role_id : string; role_name : string }.

Record UserRole := {
  ur_userId : string;
  ur_roleId : string;
  ur_isPrimary : bool
}.

Record Career := { career_id : string; career_institutionId : string }.
Record Course := { course_id : string; course_careerId : string }.
Record Subject := { subject_id : string; subject_courseId : string }.
Record VirtualClassroom := { vc_id : string; vc_subjectId : string }.
Record Student := {
  student_id : string;
  student_userId : string;
  student_institutionId : string
}.
Record Teacher := { teacher_id : string; teacher_userId : string }.
Record Certificate := {
  cert_id : string;
  cert_studentId : string;
  cert_issuedAt : Z
}.

(** The tables, each in storage order. *)
Record Db := {
  plans : list Plan;
  institutions : list Institution;
  users : list User;
  roles : list Role;
  userRoles : list UserRole;
  careers : list Career;
  courses : list Course;
  subjects : list Subject;
  virtualClassrooms : list VirtualClassroom;
  students : list Student;
  teachers : list Teacher;
  certificates : list Certificate
}.

(** ** Errors, the world and the effect monad *)

(** A JavaScript [Error]; [createAppError] adds a status code. *)
Record AppError := { err_message : string; err_statusCode : option Z }.

Definition createAppError (message : string) (statusCode : Z) : AppError :=
  {| err_message := message; err_statusCode := Some statusCode |}.

Definition plainError (message : string) : AppError :=
  {| err_message := message; err_statusCode := None |}.

Inductive Result (A : Type) :=
  | Ok (a : A)
  | Thrown (e : AppError).
Arguments Ok {A} a.
Arguments Thrown {A} e.

(** [logAuthEvent(event, userId, ip, userAgent, details)]: the event name
    and the principal; address, user agent and detail object are left out. *)
Record AuditEvent := { ev_name : string; ev_userId : option string }.

(** What the code reads and writes besides its arguments: the database, the
    clock ([Date.now()], in milliseconds), the source of random bytes with
    the number of bytes drawn so far, the audit log and the delays awaited
    through [setTimeout]. *)
Record World := {
  w_db : Db;
  w_now : Z;
  w_entropy : nat -> Z;
  w_drawn : nat;
  w_audit : list AuditEvent;
  w_timers : list Z
}.

Definition M (A : Type) : Type := World -> Result A * World.

Definition ret {A} (a : A) : M A := fun w => (Ok a, w).

Definition bind {A B} (m : M A) (k : A -> M B) : M B :=
  fun w => match m w with
           | (Ok a, w') => k a w'
           | (Thrown e, w') => (Thrown e, w')
           end.

Definition throw {A} (e : AppError) : M A := fun w => (Thrown e, w).

(** [try { m } catch (error) { h error }] *)
Definition try_catch {A} (m : M A) (h : AppError -> M A) : M A :=
  fun w => match m w with
           | (Ok a, w') => (Ok a, w')
           | (Thrown e, w') => h e w'
           end.

Declare Scope monad_scope.
Delimit Scope monad_scope with monad.
Notation "'let*' x ':=' m 'in' k" := (bind m (fun x => k))
  (at level 10, x name, m at level 100, k at level 200) : monad_scope.
Notation "m ';;' k" := (bind m (fun _ => k))
  (at level 100, k at level 200, right associativity) : monad_scope.
Local Open Scope monad_scope.

Definition getDb : M Db := fun w => (Ok (w_db w), w).

Definition putDb (db : Db) : M unit :=
  fun w => (Ok tt, {| w_db := db; w_now := w_now w; w_entropy := w_entropy w;
                     w_drawn := w_drawn w; w_audit := w_audit w;
                     w_timers := w_timers w |}).

Definition Date_now : M Z := fun w => (Ok (w_now w), w).

Definition logAuthEvent (event : string) (userId : option string) : M unit :=
  fun w => (Ok tt, {| w_db := w_db w; w_now := w_now w; w_entropy := w_entropy w;
                     w_drawn := w_drawn w;
                     w_audit := (w_audit w ++ [{| ev_name := event; ev_userId := userId |}])%list;
                     w_timers := w_timers w |}).

(** [await new Promise(resolve => setTimeout(resolve, ms))]: the delay is
    recorded and the clock has advanced by it when the promise resolves. *)
Definition sleep (ms : Z) : M unit :=
  fun w => (Ok tt, {| w_db := w_db w; w_now := w_now w + ms; w_entropy := w_entropy w;
                     w_drawn := w_drawn w; w_audit := w_audit w;
                     w_timers := (w_timers w ++ [ms])%list |}).

(** [crypto.randomBytes(n)] *)
Definition crypto_randomBytes (n : nat) : M (list Z) :=
  fun w => (Ok (map (fun i => w_entropy w (w_drawn w + i)%nat mod 256) (seq 0 n)),
            {| w_db := w_db w; w_now := w_now w; w_entropy := w_entropy w;
               w_drawn := (w_drawn w + n)%nat; w_audit := w_audit w;
               w_timers := w_timers w |}).

(** [Buffer.toString('hex')] *)
Definition hex_digit (d : Z) : ascii :=
  nth (Z.to_nat d) (list_ascii_of_string "0123456789abcdef") "0"%char.

Fixpoint toString_hex (bytes : list Z) : string :=
  match bytes with
  | [] => ""
  | b :: bs => String (hex_digit (b / 16)) (String (hex_digit (b mod 16)) (toString_hex bs))
  end.

(** [generatePasswordResetToken] (shared/utils/password.ts) *)
Definition generatePasswordResetToken : M string :=
  let* bytes := crypto_randomBytes 32 in
  ret (toString_hex bytes).

(** ** The platform: configuration and the libraries behind the code *)

(** [env] (config/environment) *)
Record Env := {
  JWT_SECRET : string;
  JWT_EXPIRES_IN : string;
  JWT_REFRESH_SECRET : string;
  JWT_REFRESH_EXPIRES_IN : string
}.

Record JwtPayload := {
  jp_userId : string;
  jp_institutionId : option string;
  jp_roleId : string;
  jp_roleName : string;
  jp_email : string
}.

Record RefreshTokenPayload := {
  rp_userId : string;
  rp_institutionId : option string
}.

(** What [jwt.sign] is given and [jwt.verify] gives back. *)
Inductive Claims :=
  | AccessClaims (p : JwtPayload)
  | RefreshClaims (p : RefreshTokenPayload).

Definition claims_userId (c : Claims) : string :=
  match c with
  | AccessClaims p => jp_userId p
  | RefreshClaims p => rp_userId p
  end.

Record SignOptions := {
  so_expiresIn : string;
  so_issuer : string;
  so_audience : string
}.

Inductive VerifyResult :=
  | Verified (c : Claims)
  | TokenExpiredError
  | JsonWebTokenError
  | OtherVerifyError.

(** jsonwebtoken, bcryptjs and the [Date] arithmetic are libraries outside
    the repository; the code is embedded over their interface. *)
Class Platform := {
  env : Env;
  (** [jwt.sign(payload, secret, options)] *)
  jwt_sign : Claims -> string -> SignOptions -> string;
  (** [jwt.verify(token, secret, { issuer, audience })] at a given instant *)
  jwt_verify : string -> string -> string -> string -> Z -> VerifyResult;
  (** [bcrypt.compare(password, hash)] *)
  bcrypt_compare : string -> string -> bool;
  (** first instant of the local calendar month of an instant
      ([setDate(1)], [setHours(0, 0, 0, 0)]) *)
  startOfMonth : Z -> Z;
  (** [Date.prototype.toISOString] *)
  toISOString : Z -> string
}.

Definition issuer : string := "educational-saas-api".
Definition audience : string := "educational-saas-client".

Record TokenPair := {
  accessToken : string;
  refreshToken : string;
  expiresIn : string;
  tokenType : string
}.

Section Core.
Context `{P : Platform}.

(** *** shared/utils/jwt.ts *)

Definition generateAccessToken (payload : JwtPayload) : string :=
  jwt_sign (AccessClaims payload) (JWT_SECRET env)
    {| so_expiresIn := JWT_EXPIRES_IN env; so_issuer := issuer; so_audience := audience |}.

Definition generateRefreshToken (payload : RefreshTokenPayload) : string :=
  jwt_sign (RefreshClaims payload) (JWT_REFRESH_SECRET env)
    {| so_expiresIn := JWT_REFRESH_EXPIRES_IN env; so_issuer := issuer;
       so_audience := audience |}.

Definition generateTokenPair (userPayload : JwtPayload) : TokenPair :=
  let accessToken := generateAccessToken userPayload in
  let refreshToken := generateRefreshToken
    {| rp_userId := jp_userId userPayload;
       rp_institutionId := jp_institutionId userPayload |} in
  {| accessToken := accessToken; refreshToken := refreshToken;
     expiresIn := JWT_EXPIRES_IN env; tokenType := "Bearer" |}.

Definition verifyAccessToken (token : string) : M Claims :=
  let* now := Date_now in
  match jwt_verify token (JWT_SECRET env) issuer audience now with
  | Verified decoded => ret decoded
  | TokenExpiredError => throw (plainError "Token expirado")
  | JsonWebTokenError => throw (plainError "Token inválido")
  | OtherVerifyError => throw (plainError "Error al verificar token")
  end.

Definition verifyRefreshToken (token : string) : M Claims :=
  let* now := Date_now in
  match jwt_verify token (JWT_REFRESH_SECRET env) issuer audience now with
  | Verified decoded => ret decoded
  | TokenExpiredError => throw (plainError "Refresh token expirado")
  | JsonWebTokenError => throw (plainError "Refresh token inválido")
  | OtherVerifyError => throw (plainError "Error al verificar refresh token")
  end.

(** [verifyPassword] (shared/utils/password.ts): false for an empty
    password or hash, otherwise the bcrypt comparison. *)
Definition verifyPassword (password hash : string) : bool :=
  if String.eqb password "" || String.eqb hash "" then false
  else bcrypt_compare password hash.

(** *** Prisma queries *)

Definition eqb_opt (a : option string) (b : string) : bool :=
  bool_decide (a = Some b).

(** The row of a table with the given primary key. *)
Definition find_by {A} (key : A -> string) (id : string) (rows : list A) : option A :=
  List.find (fun r => String.eqb (key r) id) rows.

(** A role assignment with [include: { role: true }]. *)
Record UserRoleWithRole := {
  urr_roleId : string;
  urr_isPrimary : bool;
  urr_role : Role
}.

(** A user with [include: { userRoles: { include: { role: true } },
    institution: { select: ... } }]. *)
Record UserWithRelations := {
  uwr_user : User;
  uwr_userRoles : list UserRoleWithRole;
  uwr_institution : option Institution
}.

(** The assignments of a user joined with their role (the foreign key
    makes the role lookup succeed on a consistent database). *)
Definition userRoles_of (db : Db) (userId : string) : list UserRoleWithRole :=
  omap (fun ur =>
          if String.eqb (ur_userId ur) userId then
            match find_by role_id (ur_roleId ur) (roles db) with
            | Some r => Some {| urr_roleId := ur_roleId ur;
                                urr_isPrimary := ur_isPrimary ur;
                                urr_role := r |}
            | None => None
            end
          else None)
       (userRoles db).

Definition institution_of (db : Db) (u : User) : option Institution :=
  match user_institutionId u with
  | Some i => find_by inst_id i (institutions db)
  | None => None
  end.

Definition with_relations (db : Db) (u : User) : UserWithRelations :=
  {| uwr_user := u;
     uwr_userRoles := userRoles_of db (user_id u);
     uwr_institution := institution_of db u |}.

(** [prisma.user.findUnique({ where: { id }, include })] *)
Definition prisma_user_findUnique_id (id : string) : M (option UserWithRelations) :=
  let* db := getDb in
  ret (with_relations db <$> find_by user_id id (users db)).

(** [prisma.user.findUnique({ where: { email }, include })] *)
Definition prisma_user_findUnique_email (email : string) : M (option UserWithRelations) :=
  let* db := getDb in
  ret (with_relations db <$> find_by user_email email (users db)).

(** [prisma.user.update({ where: { id }, data })] with the new row given
    by a function of the old one. *)
Definition prisma_user_update (id : string) (data : User -> User) : M unit :=
  let* db := getDb in
  putDb {| plans := plans db; institutions := institutions db;
           users := map (fun u => if String.eqb (user_id u) id then data u else u) (users db);
           roles := roles db; userRoles := userRoles db; careers := careers db;
           courses := courses db; subjects := subjects db;
           virtualClassrooms := virtualClassrooms db; students := students db;
           teachers := teachers db; certificates := certificates db |}.

(** [userRoles.find(ur => ur.isPrimary) || userRoles[0]] *)
Definition primaryRole_of (userRoles : list UserRoleWithRole) : option UserRoleWithRole :=
  match List.find urr_isPrimary userRoles with
  | Some ur => Some ur
  | None => head userRoles
  end.

(** [institution?.status !== 'active'] *)
Definition institution_not_active (i : option Institution) : bool :=
  negb (bool_decide (i ≫= inst_status = Some "active")).

(** *** Requests *)

(** [req.user] set by [authenticate]. *)
Record AuthUser := {
  au_id : string;
  au_email : string;
  au_institutionId : option string;
  au_roleId : string;
  au_roleName : string;
  au_isActive : bool;
  au_attributes : option (gmap string string)
}.

(** [req.tenant] set by [validateTenantAccess]. *)
Record Tenant := {
  tn_id : string;
  tn_name : string;
  tn_slug : string;
  tn_status : string;
  tn_planId : option string
}.

Record ABACUser := {
  abu_id : string;
  abu_roleId : string;
  abu_roleName : string;
  abu_institutionId : option string;
  abu_attributes : gmap string string
}.

Record ABACInstitution := {
  abi_id : string;
  abi_planId : option string;
  abi_status : string
}.

Record ABACContext := {
  abac_user : ABACUser;
  abac_institution : ABACInstitution;
  abac_plan : option Plan
}.

(** The Express request as the middleware chain extends it. *)
Record Request := {
  req_authorization : option string;
  req_params : gmap string string;
  req_user : option AuthUser;
  req_token : option string;
  req_institutionId : option string;
  req_tenant : option Tenant;
  req_abac : option ABACContext
}.

(** How a middleware ends: it called [next()] on the request, or it sent
    a response. *)
Inductive Handled :=
  | CallNext (req : Request)
  | Send (res : Response).

Definition set_auth (req : Request) (u : AuthUser) (token : string) : Request :=
  {| req_authorization := req_authorization req; req_params := req_params req;
     req_user := Some u; req_token := Some token;
     req_institutionId := req_institutionId req; req_tenant := req_tenant req;
     req_abac := req_abac req |}.

Definition set_abac (req : Request) (c : ABACContext) : Request :=
  {| req_authorization := req_authorization req; req_params := req_params req;
     req_user := req_user req; req_token := req_token req;
     req_institutionId := req_institutionId req; req_tenant := req_tenant req;
     req_abac := Some c |}.

(** *** shared/middleware/auth.middleware.ts *)

Definition authenticate (req : Request) : M Handled :=
  try_catch
    (let authHeader := req_authorization req in
     let token := Jwt.extractTokenFromHeader authHeader in
     if Jwt.falsy_string token then
       logAuthEvent "missing_token" None ;;
       ret (Send (unauthorizedResponse "Token de acceso requerido"))
     else
       let token := default "" token in
       let* verified :=
         try_catch (let* decoded := verifyAccessToken token in ret (inl decoded))
                   (fun error => ret (inr (err_message error))) in
       match verified with
       | inr errorMessage =>
           logAuthEvent "invalid_token" None ;;
           ret (Send (unauthorizedResponse errorMessage))
       | inl decoded =>
           let* user := prisma_user_findUnique_id (claims_userId decoded) in
           match user with
           | None =>
               logAuthEvent "user_not_found" (Some (claims_userId decoded)) ;;
               ret (Send (unauthorizedResponse "Usuario no encontrado"))
           | Some user =>
               let u := uwr_user user in
               if negb (user_isActive u) then
                 logAuthEvent "user_inactive" (Some (user_id u)) ;;
                 ret (Send (unauthorizedResponse "Usuario inactivo"))
               else if institution_not_active (uwr_institution user) then
                 logAuthEvent "institution_inactive" (Some (user_id u)) ;;
                 ret (Send (forbiddenResponse "Institución inactiva"))
               else
                 match primaryRole_of (uwr_userRoles user) with
                 | None =>
                     logAuthEvent "no_active_role" (Some (user_id u)) ;;
                     ret (Send (forbiddenResponse "Usuario sin roles activos"))
                 | Some activeRole =>
                     let req' := set_auth req
                       {| au_id := user_id u;
                          au_email := user_email u;
                          au_institutionId := user_institutionId u;
                          au_roleId := urr_roleId activeRole;
                          au_roleName := role_name (urr_role activeRole);
                          au_isActive := user_isActive u;
                          au_attributes := user_attributes u |} token in
                     logAuthEvent "auth_success" (Some (user_id u)) ;;
                     ret (CallNext req')
                 end
           end
       end)
    (fun error =>
       logAuthEvent "auth_error" None ;;
       ret (Send (unauthorizedResponse "Error de autenticación"))).

Definition optionalAuthenticate (req : Request) : M Handled :=
  try_catch
    (let authHeader := req_authorization req in
     let token := Jwt.extractTokenFromHeader authHeader in
     if Jwt.falsy_string token then ret (CallNext req)
     else authenticate req)
    (fun error => ret (CallNext req)).

(** *** shared/middleware/tenant.middleware.ts *)

(** The keys of [modelMap]. *)
Inductive PrismaModel :=
  | student_model | teacher_model | course_model
  | career_model | virtualClassroom_model | subject_model.

Definition modelMap (resourceModel : string) : option PrismaModel :=
  if String.eqb resourceModel "student" then Some student_model
  else if String.eqb resourceModel "teacher" then Some teacher_model
  else if String.eqb resourceModel "course" then Some course_model
  else if String.eqb resourceModel "career" then Some career_model
  else if String.eqb resourceModel "virtualClassroom" then Some virtualClassroom_model
  else if String.eqb resourceModel "subject" then Some subject_model
  else None.

(** The result of [select: { id: true, institutionId: true }]. *)
Record OwnershipRow := { row_id : string; row_institutionId : string }.

(** [model.findUnique({ where: { id }, select: { id: true, institutionId:
    true } })].  Prisma validates the selection against the model before it
    queries: on a model without an [institutionId] column the call rejects
    with a PrismaClientValidationError. *)
Definition model_findUnique (model : PrismaModel) (id : string) : M (option OwnershipRow) :=
  let* db := getDb in
  match model with
  | student_model =>
      ret ((fun s => {| row_id := student_id s;
                        row_institutionId := student_institutionId s |})
           <$> find_by student_id id (students db))
  | career_model =>
      ret ((fun c => {| row_id := career_id c;
                        row_institutionId := career_institutionId c |})
           <$> find_by career_id id (careers db))
  | teacher_model | course_model | virtualClassroom_model | subject_model =>
      throw (plainError "Unknown field institutionId for select statement")
  end.

Definition validateResourceOwnership (resourceModel resourceIdParam : string)
    (req : Request) : M Handled :=
  try_catch
    (if bool_decide (req_user req = None) || Jwt.falsy_string (req_institutionId req) then
       ret (Send (badRequestResponse "Contexto de autenticación/tenant requerido"))
     else
       let resourceId := req_params req !! resourceIdParam in
       if Jwt.falsy_string resourceId then
         ret (Send (badRequestResponse ("Parámetro " +:+ resourceIdParam +:+ " requerido")))
       else
         match modelMap resourceModel with
         | None =>
             ret (Send (badRequestResponse ("Modelo " +:+ resourceModel +:+ " no soportado")))
         | Some model =>
             let* resource := model_findUnique model (default "" resourceId) in
             match resource with
             | None => ret (Send (badRequestResponse "Recurso no encontrado"))
             | Some resource =>
                 if negb (eqb_opt (req_institutionId req) (row_institutionId resource)) then
                   logAuthEvent "resource_access_denied" (au_id <$> req_user req) ;;
                   ret (Send (forbiddenResponse "Acceso denegado a este recurso"))
                 else ret (CallNext req)
             end
         end)
    (fun error =>
       logAuthEvent "resource_validation_error" (au_id <$> req_user req) ;;
       ret (Send (forbiddenResponse "Error validando propiedad del recurso"))).

(** *** shared/middleware/abac.middleware.ts *)

(** Relation filters of the count queries: does the row reached through
    the relation belong to the institution? *)
Definition user_in (db : Db) (institutionId userId : string) : bool :=
  match find_by user_id userId (users db) with
  | Some u => eqb_opt (user_institutionId u) institutionId
  | None => false
  end.

Definition career_in (db : Db) (institutionId careerId : string) : bool :=
  match find_by career_id careerId (careers db) with
  | Some c => String.eqb (career_institutionId c) institutionId
  | None => false
  end.

Definition course_in (db : Db) (institutionId courseId : string) : bool :=
  match find_by course_id courseId (courses db) with
  | Some c => career_in db institutionId (course_careerId c)
  | None => false
  end.

Definition subject_in (db : Db) (institutionId subjectId : string) : bool :=
  match find_by subject_id subjectId (subjects db) with
  | Some s => course_in db institutionId (subject_courseId s)
  | None => false
  end.

Definition student_in (db : Db) (institutionId studentId : string) : bool :=
  match find_by student_id studentId (students db) with
  | Some s => String.eqb (student_institutionId s) institutionId
  | None => false
  end.

Definition count {A} (where_ : A -> bool) (rows : list A) : Z :=
  Z.of_nat (length (List.filter where_ rows)).

Definition prisma_student_count (institutionId : string) : M Z :=
  let* db := getDb in
  ret (count (fun s => String.eqb (student_institutionId s) institutionId) (students db)).

Definition prisma_teacher_count (institutionId : string) : M Z :=
  let* db := getDb in
  ret (count (fun t => user_in db institutionId (teacher_userId t)) (teachers db)).

Definition prisma_course_count (institutionId : string) : M Z :=
  let* db := getDb in
  ret (count (fun c => career_in db institutionId (course_careerId c)) (courses db)).

Definition prisma_virtualClassroom_count (institutionId : string) : M Z :=
  let* db := getDb in
  ret (count (fun v => subject_in db institutionId (vc_subjectId v)) (virtualClassrooms db)).

Definition prisma_certificate_count (institutionId : string) (gte : Z) : M Z :=
  let* db := getDb in
  ret (count (fun c => student_in db institutionId (cert_studentId c)
                       && (gte <=? cert_issuedAt c))
             (certificates db)).

(** [prisma.plan.findUnique({ where: { id }, select })] *)
Definition prisma_plan_findUnique (id : string) : M (option Plan) :=
  let* db := getDb in
  ret (find_by plan_id id (plans db)).

Definition setupABACContext (req : Request) : M Handled :=
  try_catch
    (match req_user req, req_tenant req with
     | Some user, Some tenant =>
         let* plan :=
           (if Jwt.falsy_string (tn_planId tenant) then ret None
            else prisma_plan_findUnique (default "" (tn_planId tenant))) in
         ret (CallNext (set_abac req
           {| abac_user := {| abu_id := au_id user;
                              abu_roleId := au_roleId user;
                              abu_roleName := au_roleName user;
                              abu_institutionId := au_institutionId user;
                              abu_attributes := default ∅ (au_attributes user) |};
              abac_institution := {| abi_id := tn_id tenant;
                                     abi_planId := tn_planId tenant;
                                     abi_status := tn_status tenant |};
              abac_plan := plan |}))
     | _, _ =>
         ret (Send (badRequestResponse "Contexto de usuario/tenant requerido para ABAC"))
     end)
    (fun error =>
       logAuthEvent "abac_context_error" (au_id <$> req_user req) ;;
       ret (Send (badRequestResponse "Error estableciendo contexto ABAC"))).

(** The five quota-gated resource types of the [switch]. *)
Inductive QuotaKind :=
  | student_kind | teacher_kind | course_kind
  | virtualClassroom_kind | certificate_kind.

Definition quota_kind (resourceType : string) : option QuotaKind :=
  if String.eqb resourceType "student" then Some student_kind
  else if String.eqb resourceType "teacher" then Some teacher_kind
  else if String.eqb resourceType "course" then Some course_kind
  else if String.eqb resourceType "virtualClassroom" then Some virtualClassroom_kind
  else if String.eqb resourceType "certificate" then Some certificate_kind
  else None.

(** The body of each [case]: the count query and the limit it is compared with. *)
Definition currentCount_of (k : QuotaKind) (institutionId : string) : M Z :=
  match k with
  | student_kind => prisma_student_count institutionId
  | teacher_kind => prisma_teacher_count institutionId
  | course_kind => prisma_course_count institutionId
  | virtualClassroom_kind => prisma_virtualClassroom_count institutionId
  | certificate_kind =>
      let* now := Date_now in
      prisma_certificate_count institutionId (startOfMonth now)
  end.

Definition limit_of (k : QuotaKind) (plan : Plan) : Z :=
  match k with
  | student_kind => studentLimit plan
  | teacher_kind => teacherLimit plan
  | course_kind => courseLimit plan
  | virtualClassroom_kind => virtualClassroomLimit plan
  | certificate_kind => certificateMonthly plan
  end.

(** The current count of a kind scoped to an institution: the rows that
    belong to it and, for certificates, were issued in the running month. *)
Definition scoped_count (k : QuotaKind) (db : Db) (institutionId : string) (now : Z) : Z :=
  match k with
  | student_kind =>
      count (fun s => String.eqb (student_institutionId s) institutionId) (students db)
  | teacher_kind =>
      count (fun t => user_in db institutionId (teacher_userId t)) (teachers db)
  | course_kind =>
      count (fun c => career_in db institutionId (course_careerId c)) (courses db)
  | virtualClassroom_kind =>
      count (fun v => subject_in db institutionId (vc_subjectId v)) (virtualClassrooms db)
  | certificate_kind =>
      count (fun c => student_in db institutionId (cert_studentId c)
                      && (startOfMonth now <=? cert_issuedAt c))
            (certificates db)
  end.

(** [checkPlanLimits(resourceType, action = 'create')] *)
Definition checkPlanLimits (resourceType action : string) (req : Request) : M Handled :=
  try_catch
    (if negb (String.eqb action "create") then ret (CallNext req)
     else
       match req_abac req ≫= (fun abac => pair abac <$> abac_plan abac) with
       | None => ret (Send (forbiddenResponse "Plan requerido para esta operación"))
       | Some (abac, plan) =>
           let institution := abac_institution abac in
           match quota_kind resourceType with
           | None => ret (CallNext req)
           | Some k =>
               let* currentCount := currentCount_of k (abi_id institution) in
               let limit := limit_of k plan in
               if negb (limit =? -1) && (limit <=? currentCount) then
                 logAuthEvent "plan_limit_exceeded" (au_id <$> req_user req) ;;
                 ret (Send (forbiddenResponse
                   ("Límite del plan excedido para " +:+ resourceType +:+ " ("
                    +:+ pretty currentCount +:+ "/" +:+ pretty limit +:+ ")")))
               else ret (CallNext req)
           end
       end)
    (fun error =>
       logAuthEvent "plan_limit_check_error" (au_id <$> req_user req) ;;
       ret (Send (badRequestResponse "Error verificando límites del plan"))).

(** [!!features[feature]] with [features = plan.features || {}]: the column
    is JSON of any shape (the seeds store an array of strings) and the code
    reads one property of it for its truthiness, so [plan_features] gives,
    for each property name, whether the property read is truthy; that covers
    own keys with values that are not booleans and the names a value
    inherits from its prototype. *)
Definition feature_enabled (features : string -> bool) (feature : string) : bool :=
  features feature.

Definition checkPlanFeature (feature : string) (req : Request) : Handled :=
  match req_abac req ≫= abac_plan with
  | None => Send (forbiddenResponse "Plan requerido para esta funcionalidad")
  | Some plan =>
      let features := plan_features plan in
      if String.eqb feature "ai_teacher" then
        if aiTeacherCallsMonthly plan <=? 0 then
          Send (forbiddenResponse "Funcionalidad de IA para docentes no disponible en su plan")
        else CallNext req
      else if String.eqb feature "ai_student" then
        if aiStudentMinutesMonthly plan <=? 0 then
          Send (forbiddenResponse "Funcionalidad de IA para estudiantes no disponible en su plan")
        else CallNext req
      else if String.eqb feature "certificates" then
        if certificateMonthly plan <=? 0 then
          Send (forbiddenResponse "Generación de certificados no disponible en su plan")
        else CallNext req
      else
        if negb (feature_enabled features feature) then
          Send (forbiddenResponse ("Funcionalidad " +:+ feature +:+ " no disponible en su plan"))
        else CallNext req
  end.

(** *** The auth service *)

Record LoginData := { ld_email : string; ld_password : string }.

Record AuthResponseUser := {
  aru_id : string;
  aru_email : string;
  aru_fullName : string;
  aru_institutionId : option string;
  aru_roleName : string;
  aru_isActive : bool
}.

Record AuthResponse := { ar_user : AuthResponseUser; ar_tokens : TokenPair }.

(** [error.statusCode] is set and not zero. *)
Definition has_statusCode (error : AppError) : bool :=
  match err_statusCode error with
  | Some c => negb (c =? 0)
  | None => false
  end.

(** The [catch] block of the service functions: an error that carries a
    status code is thrown again, any other becomes a 500. *)
Definition rethrow_or {A} (message : string) (error : AppError) : M A :=
  if has_statusCode error then throw error
  else throw (createAppError message 500).

Definition set_lastLogin (now : Z) (u : User) : User :=
  {| user_id := user_id u; user_institutionId := user_institutionId u;
     user_email := user_email u; user_password := user_password u;
     user_fullName := user_fullName u; user_isActive := user_isActive u;
     user_attributes := user_attributes u; user_lastLogin := Some now |}.

Definition set_attributes (a : gmap string string) (u : User) : User :=
  {| user_id := user_id u; user_institutionId := user_institutionId u;
     user_email := user_email u; user_password := user_password u;
     user_fullName := user_fullName u; user_isActive := user_isActive u;
     user_attributes := Some a; user_lastLogin := user_lastLogin u |}.

Definition loginUser (data : LoginData) : M AuthResponse :=
  try_catch
    (let* user := prisma_user_findUnique_email (ld_email data) in
     match user with
     | None =>
         logAuthEvent "login_failed" None ;;
         throw (createAppError "Credenciales inválidas" 401)
     | Some user =>
         let u := uwr_user user in
         if negb (user_isActive u) then
           logAuthEvent "login_failed" (Some (user_id u)) ;;
           throw (createAppError "Usuario inactivo" 401)
         else if bool_decide (uwr_institution user = None)
                 || institution_not_active (uwr_institution user) then
           logAuthEvent "login_failed" (Some (user_id u)) ;;
           throw (createAppError "Institución inactiva" 403)
         else if Jwt.falsy_string (user_password u) then
           logAuthEvent "login_failed" (Some (user_id u)) ;;
           throw (createAppError "Credenciales inválidas" 401)
         else
           let isPasswordValid :=
             verifyPassword (ld_password data) (default "" (user_password u)) in
           if negb isPasswordValid then
             logAuthEvent "login_failed" (Some (user_id u)) ;;
             throw (createAppError "Credenciales inválidas" 401)
           else
             match primaryRole_of (uwr_userRoles user) with
             | None =>
                 logAuthEvent "login_failed" (Some (user_id u)) ;;
                 throw (createAppError "Usuario sin roles asignados" 403)
             | Some primaryRole =>
                 let* now := Date_now in
                 prisma_user_update (user_id u) (set_lastLogin now) ;;
                 let tokenPayload :=
                   {| jp_userId := user_id u;
                      jp_institutionId := user_institutionId u;
                      jp_roleId := urr_roleId primaryRole;
                      jp_roleName := role_name (urr_role primaryRole);
                      jp_email := user_email u |} in
                 let tokens := generateTokenPair tokenPayload in
                 logAuthEvent "login_success" (Some (user_id u)) ;;
                 ret {| ar_user :=
                          {| aru_id := user_id u;
                             aru_email := user_email u;
                             aru_fullName := user_fullName u;
                             aru_institutionId := user_institutionId u;
                             aru_roleName := role_name (urr_role primaryRole);
                             aru_isActive := user_isActive u |};
                        ar_tokens := tokens |}
             end
     end)
    (rethrow_or "Error interno durante el login").

Definition refreshTokens (refreshToken : string) : M TokenPair :=
  try_catch
    (let* decoded := verifyRefreshToken refreshToken in
     let* user := prisma_user_findUnique_id (claims_userId decoded) in
     match user with
     | Some user =>
         let u := uwr_user user in
         if negb (user_isActive u) || institution_not_active (uwr_institution user) then
           logAuthEvent "refresh_failed" (Some (claims_userId decoded)) ;;
           throw (createAppError "Token de refresh inválido" 401)
         else
           match primaryRole_of (uwr_userRoles user) with
           | None => throw (createAppError "Usuario sin roles asignados" 403)
           | Some primaryRole =>
               let tokenPayload :=
                 {| jp_userId := user_id u;
                    jp_institutionId := user_institutionId u;
                    jp_roleId := urr_roleId primaryRole;
                    jp_roleName := role_name (urr_role primaryRole);
                    jp_email := user_email u |} in
               let tokens := generateTokenPair tokenPayload in
               logAuthEvent "token_refreshed" (Some (user_id u)) ;;
               ret tokens
           end
     | None =>
         logAuthEvent "refresh_failed" (Some (claims_userId decoded)) ;;
         throw (createAppError "Token de refresh inválido" 401)
     end)
    (rethrow_or "Error refrescando tokens").

Record PasswordReset := { resetToken : string; expiresAt : Z }.

(** [15 * 60 * 1000] milliseconds *)
Definition reset_lifetime : Z := 15 * 60 * 1000.

(** The user is selected with [id], [email] and [isActive] only, so the
    spread of its [attributes] contributes nothing: the stored object has
    exactly the two reset keys. *)
Definition requestPasswordReset (email : string) : M PasswordReset :=
  try_catch
    (let* db := getDb in
     match find_by user_email email (users db) with
     | Some user =>
         if negb (user_isActive user) then
           logAuthEvent "password_reset_requested" None ;;
           sleep 1000 ;;
           let* now := Date_now in
           ret {| resetToken := "dummy-token"; expiresAt := now + reset_lifetime |}
         else
           let* resetToken := generatePasswordResetToken in
           let* now := Date_now in
           let expiresAt := now + reset_lifetime in
           prisma_user_update (user_id user)
             (set_attributes
                (<["passwordResetToken" := resetToken]>
                   (<["passwordResetExpires" := toISOString expiresAt]> ∅))) ;;
           logAuthEvent "password_reset_requested" (Some (user_id user)) ;;
           ret {| resetToken := resetToken; expiresAt := expiresAt |}
     | None =>
         logAuthEvent "password_reset_requested" None ;;
         sleep 1000 ;;
         let* now := Date_now in
         ret {| resetToken := "dummy-token"; expiresAt := now + reset_lifetime |}
     end)
    (fun error => throw (createAppError "Error procesando solicitud de reset" 500)).

End Core.

(** ** The strength rule as the specification words it *)

Module PasswordSpec.
Import Password.

(** ASCII lower-casing, for the case-insensitive deny-list. *)
Definition to_lower (c : Z) : Z := if is_upper c then c + 32 else c.

Definition deny_list : list jsstring :=
  [lit "123456"; lit "password"; lit "qwerty"; lit "admin"; lit "letmein"].

(** [sub] occurs in [s] when case is ignored. *)
Definition contains_ci (sub s : jsstring) : Prop :=
  exists pre mid post, s = (pre ++ mid ++ post)%list /\ map to_lower mid = sub.

Definition has (cls : Z -> bool) (s : jsstring) : Prop :=
  exists c, In c s /\ cls c = true.

(** Length within [8,128]; an upper-case letter, a lower-case letter and a
    digit; a special character (one of [@$!%*?&]) in strong mode; no
    deny-listed substring. *)
Definition valid_password (password : jsstring) (requireStrong : bool) : Prop :=
  8 <= js_length password <= 128
  /\ has is_upper password
  /\ has is_lower password
  /\ has is_digit password
  /\ (requireStrong = true -> has is_special password)
  /\ (forall d, In d deny_list -> ~ contains_ci d password).

(** The characters the patterns of [commonPatterns] are written with:
    lower-case letters and digits under the [i] flag, digits without it. *)
Definition pattern_char (ignoreCase : bool) (p : Z) : bool :=
  if ignoreCase then is_lower p || is_digit p else is_digit p.

End PasswordSpec.

(** ** A test double of the platform and sample data *)

Module Sample.

Definition sample_env : Env :=
  {| JWT_SECRET := "access-secret-of-at-least-32-characters";
     JWT_EXPIRES_IN := "24h";
     JWT_REFRESH_SECRET := "refresh-secret-of-at-least-32-characters";
     JWT_REFRESH_EXPIRES_IN := "7d" |}.

(** Tokens of the double are readable: the secret, then the user id and
    (for access tokens) the role name. *)
Definition sign (c : Claims) (secret : string) (o : SignOptions) : string :=
  match c with
  | AccessClaims p => secret +:+ "|access|" +:+ jp_userId p +:+ "|" +:+ jp_roleName p
  | RefreshClaims p => secret +:+ "|refresh|" +:+ rp_userId p
  end.

(** The double knows an expired token, the refresh tokens of [u-teacher]
    and of [u-norole], and the access tokens of [u-inactive] and of a user
    that was deleted; every other token is malformed. *)
Definition verify (token secret iss aud : string) (now : Z) : VerifyResult :=
  let refresh := String.eqb secret (JWT_REFRESH_SECRET sample_env) in
  let access := String.eqb secret (JWT_SECRET sample_env) in
  if String.eqb token "expired-token" then TokenExpiredError
  else if String.eqb token "refresh-of-u-teacher" && refresh
  then Verified (RefreshClaims {| rp_userId := "u-teacher"; rp_institutionId := Some "inst-A" |})
  else if String.eqb token "refresh-of-u-norole" && refresh
  then Verified (RefreshClaims {| rp_userId := "u-norole"; rp_institutionId := Some "inst-A" |})
  else if String.eqb token "access-of-u-inactive" && access
  then Verified (AccessClaims {| jp_userId := "u-inactive"; jp_institutionId := Some "inst-A";
                                 jp_roleId := "r-teacher"; jp_roleName := "TEACHER";
                                 jp_email := "inactive@a.edu" |})
  else if String.eqb token "access-of-u-deleted" && access
  then Verified (AccessClaims {| jp_userId := "u-deleted"; jp_institutionId := Some "inst-A";
                                 jp_roleId := "r-teacher"; jp_roleName := "TEACHER";
                                 jp_email := "deleted@a.edu" |})
  else JsonWebTokenError.

#[export] Instance platform : Platform :=
  {| env := sample_env;
     jwt_sign := sign;
     jwt_verify := verify;
     bcrypt_compare := fun password hash => String.eqb ("bcrypt:" +:+ password) hash;
     startOfMonth := fun now => now - now mod 2592000000;
     toISOString := fun ms => pretty ms |}.

(** The names an object without own keys still answers to. *)
Definition Object_prototype : list string :=
  ["constructor"; "hasOwnProperty"; "isPrototypeOf"; "propertyIsEnumerable";
   "toLocaleString"; "toString"; "valueOf"; "__proto__";
   "__defineGetter__"; "__defineSetter__"; "__lookupGetter__"; "__lookupSetter__"].

(** The column value [{}]. *)
Definition no_features (feature : string) : bool :=
  existsb (String.eqb feature) Object_prototype.

Definition plan_basic : Plan :=
  {| plan_id := "plan-basic"; plan_slug := "basic"; plan_features := no_features;
     studentLimit := 5; teacherLimit := 2; adminLimit := 1; courseLimit := 3;
     aiTeacherCallsMonthly := 0; aiStudentMinutesMonthly := 0;
     certificateMonthly := 10; virtualClassroomLimit := 1; storageMB := 1024 |}.

(** The enterprise plan of prisma/seeds/plans.seed.ts: every limit is -1. *)
Definition plan_enterprise : Plan :=
  {| plan_id := "plan-enterprise"; plan_slug := "enterprise"; plan_features := no_features;
     studentLimit := -1; teacherLimit := -1; adminLimit := -1; courseLimit := -1;
     aiTeacherCallsMonthly := -1; aiStudentMinutesMonthly := -1;
     certificateMonthly := -1; virtualClassroomLimit := -1; storageMB := -1 |}.

Definition mkUser (id email : string) (password : option string) (active : bool) : User :=
  {| user_id := id; user_institutionId := Some "inst-A"; user_email := email;
     user_password := password; user_fullName := id; user_isActive := active;
     user_attributes := None; user_lastLogin := None |}.

Definition mkStudent (n : string) : Student :=
  {| student_id := "s" +:+ n; student_userId := "us" +:+ n;
     student_institutionId := "inst-A" |}.

(** Institution A is active, institution B is suspended.  [u-teacher]
    holds the TEACHER and DIRECTOR roles; which one is primary is decided
    by the argument. *)
Definition db (nStudents : list string) (directorPrimary : bool) : Db :=
  {| plans := [plan_basic; plan_enterprise];
     institutions :=
       [ {| inst_id := "inst-A"; inst_name := "A"; inst_slug := "a";
            inst_status := Some "active"; inst_planId := Some "plan-basic" |};
         {| inst_id := "inst-B"; inst_name := "B"; inst_slug := "b";
            inst_status := Some "suspended"; inst_planId := None |} ];
     users :=
       [ mkUser "u-teacher" "teacher@a.edu" (Some "bcrypt:Secret1!") true;
         mkUser "u-inactive" "inactive@a.edu" None false;
         mkUser "u-nopass" "nopass@a.edu" None true;
         mkUser "u-norole" "norole@a.edu" (Some "bcrypt:Secret1!") true;
         {| user_id := "u-b"; user_institutionId := Some "inst-B";
            user_email := "b@b.edu"; user_password := Some "bcrypt:Secret1!";
            user_fullName := "u-b"; user_isActive := true;
            user_attributes := None; user_lastLogin := None |} ];
     roles := [ {| role_id := "r-teacher"; role_name := "TEACHER" |};
                {| role_id := "r-director"; role_name := "DIRECTOR" |} ];
     userRoles :=
       [ {| ur_userId := "u-teacher"; ur_roleId := "r-teacher";
            ur_isPrimary := negb directorPrimary |};
         {| ur_userId := "u-teacher"; ur_roleId := "r-director";
            ur_isPrimary := directorPrimary |} ];
     careers := [ {| career_id := "car-1"; career_institutionId := "inst-A" |} ];
     courses := [];
     subjects := [];
     virtualClassrooms := [];
     students := map mkStudent nStudents;
     teachers := [ {| teacher_id := "t-1"; teacher_userId := "u-teacher" |} ];
     certificates := [] |}.

Definition world (d : Db) : World :=
  {| w_db := d; w_now := 1700000000000; w_entropy := fun i => Z.of_nat i * 37 + 11;
     w_drawn := 0; w_audit := []; w_timers := [] |}.

Definition bare_request : Request :=
  {| req_authorization := None; req_params := ∅; req_user := None;
     req_token := None; req_institutionId := None; req_tenant := None;
     req_abac := None |}.

Definition principal : AuthUser :=
  {| au_id := "u-teacher"; au_email := "teacher@a.edu";
     au_institutionId := Some "inst-A"; au_roleId := "r-teacher";
     au_roleName := "TEACHER"; au_isActive := true; au_attributes := None |}.

Definition context (plan : option Plan) : ABACContext :=
  {| abac_user := {| abu_id := "u-teacher"; abu_roleId := "r-teacher";
                     abu_roleName := "TEACHER";
                     abu_institutionId := Some "inst-A";
                     abu_attributes := ∅ |};
     abac_institution := {| abi_id := "inst-A"; abi_planId := plan_id <$> plan;
                            abi_status := "active" |};
     abac_plan := plan |}.

(** A request of [u-teacher] after the tenant stage, with the given path
    parameters and plan. *)
Definition request (params : gmap string string) (plan : option Plan) : Request :=
  {| req_authorization := None; req_params := params; req_user := Some principal;
     req_token := None; req_institutionId := Some "inst-A"; req_tenant := None;
     req_abac := Some (context plan) |}.

Definition five : list string := ["1"; "2"; "3"; "4"; "5"].
Definition four : list string := ["1"; "2"; "3"; "4"].




Definition with_header (h : string) : Request :=
  {| req_authorization := Some h; req_params := ∅; req_user := None;
     req_token := None; req_institutionId := None; req_tenant := None;
     req_abac := None |}.

End Sample.

(** * The rest of the pipeline

    The functions around the ones above: the role guards of the auth
    middleware, the tenant stages, the composite ABAC guard, the error
    handler with the controllers that end in it, and the password
    utilities of the service. *)

(** The world after one more audit event. *)
Definition add_event (w : World) (event : AuditEvent) : World :=
  {| w_db := w_db w; w_now := w_now w; w_entropy := w_entropy w;
     w_drawn := w_drawn w; w_audit := (w_audit w ++ [event])%list;
     w_timers := w_timers w |}.

(** More of shared/utils/response.ts. *)
Definition successResponse (message : string) : Response :=
  mkResponse HTTP_STATUS.OK message [].
Definition validationErrorResponse (errors : list ValidationError) (message : string)
    : Response :=
  mkResponse 422 message errors.
Definition notFoundResponse (message : string) : Response :=
  mkResponse HTTP_STATUS.NOT_FOUND message [].
Definition conflictResponse (message : string) : Response :=
  mkResponse HTTP_STATUS.CONFLICT message [].
Definition internalServerErrorResponse (message : string) : Response :=
  mkResponse HTTP_STATUS.INTERNAL_SERVER_ERROR message [].

(** An issue of a [ZodError]; the segments of [path] as [join] renders them. *)
Record ZodIssue := {
  zi_path : list string;
  zi_message : string;
  zi_code : string
}.

(** [Array.prototype.join('.')] *)
Fixpoint join_dot (l : list string) : string :=
  match l with
  | [] => ""
  | [x] => x
  | x :: rest => x +:+ "." +:+ join_dot rest
  end.

(** [formatZodErrors(zodError)] *)
Definition formatZodErrors (issues : list ZodIssue) : list ValidationError :=
  map (fun issue => {| ve_field := join_dot (zi_path issue);
                       ve_message := zi_message issue;
                       ve_code := Some (zi_code issue) |})
      issues.

(** [a || b] on optional strings: [b] when [a] is undefined or empty. *)
Definition js_or (a b : option string) : option string :=
  if Jwt.falsy_string a then b else a.

(** [Array.prototype.includes] on an array of strings. *)
Definition includes (l : list string) (x : string) : bool :=
  existsb (String.eqb x) l.

(** Express runs the handlers of a route in order: each one either sends
    the response or hands the request to the next. *)
Fixpoint run_chain (handlers : list (Request -> M Handled)) (req : Request) : M Handled :=
  match handlers with
  | [] => ret (CallNext req)
  | h :: rest =>
      let* r := h req in
      match r with
      | CallNext req' => run_chain rest req'
      | Send res => ret (Send res)
      end
  end.

Definition set_institutionId (req : Request) (i : option string) : Request :=
  {| req_authorization := req_authorization req; req_params := req_params req;
     req_user := req_user req; req_token := req_token req;
     req_institutionId := i; req_tenant := req_tenant req;
     req_abac := req_abac req |}.

Definition set_tenant (req : Request) (i : option string) (t : Tenant) : Request :=
  {| req_authorization := req_authorization req; req_params := req_params req;
     req_user := req_user req; req_token := req_token req;
     req_institutionId := i; req_tenant := Some t;
     req_abac := req_abac req |}.

(** ** shared/middleware/auth.middleware.ts: the guards *)

Definition requireRole (allowedRoles : list string) (req : Request) : M Handled :=
  match req_user req with
  | None => ret (Send (unauthorizedResponse "Autenticación requerida"))
  | Some user =>
      if negb (includes allowedRoles (au_roleName user)) then
        logAuthEvent "insufficient_role" (Some (au_id user)) ;;
        ret (Send (forbiddenResponse "Permisos insuficientes"))
      else ret (CallNext req)
  end.

Definition requireInstitution (institutionId : option string) (req : Request) : M Handled :=
  match req_user req with
  | None => ret (Send (unauthorizedResponse "Autenticación requerida"))
  | Some user =>
      let requiredInstitutionId := js_or institutionId (req_params req !! "institutionId") in
      if negb (Jwt.falsy_string requiredInstitutionId)
         && negb (bool_decide (au_institutionId user = requiredInstitutionId)) then
        logAuthEvent "institution_mismatch" (Some (au_id user)) ;;
        ret (Send (forbiddenResponse "Acceso denegado a esta institución"))
      else ret (CallNext req)
  end.

Definition requireSelfOrRole (allowedRoles : list string) (userIdParam : string)
    (req : Request) : M Handled :=
  match req_user req with
  | None => ret (Send (unauthorizedResponse "Autenticación requerida"))
  | Some user =>
      let targetUserId := req_params req !! userIdParam in
      if bool_decide (Some (au_id user) = targetUserId)
         || includes allowedRoles (au_roleName user) then
        ret (CallNext req)
      else
        logAuthEvent "access_denied" (Some (au_id user)) ;;
        ret (Send (forbiddenResponse "Acceso denegado"))
  end.

Definition requireSystemAdmin : Request -> M Handled := requireRole ["ADMIN"].
Definition requireAdminOrDirector : Request -> M Handled := requireRole ["ADMIN"; "DIRECTOR"].
Definition requireTeacherOrAbove : Request -> M Handled :=
  requireRole ["ADMIN"; "DIRECTOR"; "TEACHER"].

(** ** shared/middleware/tenant.middleware.ts: the tenant stages *)

Definition setTenantContext (req : Request) : M Handled :=
  match req_user req with
  | None =>
      ret (Send (badRequestResponse
                   "Usuario no autenticado para establecer contexto de tenant"))
  | Some user => ret (CallNext (set_institutionId req (au_institutionId user)))
  end.

(** [prisma.institution.findUnique({ where: { id }, select })] *)
Definition prisma_institution_findUnique (id : string) : M (option Institution) :=
  let* db := getDb in
  ret (find_by inst_id id (institutions db)).

Definition validateTenantAccess (req : Request) : M Handled :=
  try_catch
    (match req_user req with
     | None => ret (Send (badRequestResponse "Usuario no autenticado"))
     | Some user =>
         let requestedInstitutionId :=
           js_or (req_params req !! "institutionId") (au_institutionId user) in
         if Jwt.falsy_string requestedInstitutionId then
           ret (Send (badRequestResponse "ID de institución requerido"))
         else if negb (bool_decide (au_institutionId user = requestedInstitutionId)) then
           logAuthEvent "tenant_access_denied" (Some (au_id user)) ;;
           ret (Send (forbiddenResponse "Acceso denegado a esta institución"))
         else
           let* institution :=
             prisma_institution_findUnique (default "" requestedInstitutionId) in
           match institution with
           | None => ret (Send (badRequestResponse "Institución no encontrada"))
           | Some institution =>
               if negb (bool_decide (inst_status institution = Some "active")) then
                 ret (Send (forbiddenResponse "Institución no activa"))
               else
                 ret (CallNext (set_tenant req (Some (inst_id institution))
                   {| tn_id := inst_id institution;
                      tn_name := inst_name institution;
                      tn_slug := inst_slug institution;
                      tn_status := default "inactive" (inst_status institution);
                      tn_planId := inst_planId institution |}))
           end
     end)
    (fun error =>
       logAuthEvent "tenant_validation_error" (au_id <$> req_user req) ;;
       ret (Send (forbiddenResponse "Error validando acceso a institución"))).

(** [applyTenantFilter] works on [req.query], here the string-valued
    parameters of the parsed query string next to the request: the
    institution of the context is filled in only where the client sent no
    (or an empty) [institutionId]. *)
Definition applyTenantFilter (req : Request) (query : gmap string string)
    : Handled * gmap string string :=
  if Jwt.falsy_string (req_institutionId req) then
    (Send (badRequestResponse "Contexto de tenant no establecido"), query)
  else if Jwt.falsy_string (query !! "institutionId") then
    (CallNext req, <["institutionId" := default "" (req_institutionId req)]> query)
  else (CallNext req, query).

(** [model.count({ where: { id: { in: ids }, institutionId } })]: like the
    selection in [model_findUnique], the filter on [institutionId] is
    refused for a model without that column. *)
Definition model_count_owned (model : PrismaModel) (ids : list string)
    (institutionId : string) : M Z :=
  let* db := getDb in
  match model with
  | student_model =>
      ret (count (fun s => includes ids (student_id s)
                           && String.eqb (student_institutionId s) institutionId)
                 (students db))
  | career_model =>
      ret (count (fun c => includes ids (career_id c)
                           && String.eqb (career_institutionId c) institutionId)
                 (careers db))
  | teacher_model | course_model | virtualClassroom_model | subject_model =>
      throw (plainError "Unknown argument institutionId")
  end.

Definition validateBulkOwnership (model : PrismaModel) (ids : list string)
    (institutionId : string) : M bool :=
  try_catch
    (let* n := model_count_owned model ids institutionId in
     ret (n =? Z.of_nat (length ids)))
    (fun error => ret false).

(** ** shared/middleware/abac.middleware.ts: roles and the composite guard *)

Definition checkRolePermissions (allowedRoles : list string) (req : Request) : M Handled :=
  match req_abac req with
  | None => ret (Send (badRequestResponse "Contexto ABAC requerido"))
  | Some abac =>
      let userRole := abu_roleName (abac_user abac) in
      if negb (includes allowedRoles userRole) then
        logAuthEvent "role_permission_denied" (au_id <$> req_user req) ;;
        ret (Send (forbiddenResponse "Permisos de rol insuficientes"))
      else ret (CallNext req)
  end.

Definition evaluateAccess (context : ABACContext) (resourceType action : string) : bool :=
  let user := abac_user context in
  let plan := abac_plan context in
  if String.eqb (abu_roleName user) "ADMIN" then true
  else if String.eqb action "create" && bool_decide (plan <> None) then true
  else if String.eqb resourceType "student" then
    includes ["ADMIN"; "SECRETARY"; "DIRECTOR"] (abu_roleName user)
  else if String.eqb resourceType "teacher" then
    includes ["ADMIN"; "DIRECTOR"] (abu_roleName user)
  else if String.eqb resourceType "grade" then
    includes ["ADMIN"; "DIRECTOR"; "TEACHER"] (abu_roleName user)
  else false.

(** ** shared/utils/jwt.ts: expiry look-ahead *)

(** What [jwt.decode] reads from a token without verifying it; [dt_exp]
    is the [exp] claim, in seconds. *)
Record DecodedToken := { dt_userId : string; dt_exp : option Z }.

(** [isTokenExpiringSoon(token, thresholdMinutes = 15)] over [jwt.decode]. *)
Definition isTokenExpiringSoon (jwt_decode : string -> option DecodedToken)
    (token : string) (thresholdMinutes : Z) : M bool :=
  match jwt_decode token with
  | None => ret true
  | Some decoded =>
      match dt_exp decoded with
      | None => ret true
      | Some exp =>
          if exp =? 0 then ret true
          else
            let* ms := Date_now in
            let now := ms / 1000 in
            let threshold := thresholdMinutes * 60 in
            ret (exp - now <=? threshold)
      end
  end.

(** ** shared/middleware/error-handler.middleware.ts *)

(** The classes the handler tells apart with [instanceof]; a [ZodError]
    comes with its issues. *)
Inductive ErrorClass :=
  | GenericError
  | ZodError (issues : list ZodIssue)
  | PrismaClientKnownRequestError (code : string)
  | PrismaClientValidationError.

(** An error as the handler sees it: message, the optional [statusCode]
    and [isOperational] of an [AppError], and its class. *)
Record JsError := {
  je_message : string;
  je_statusCode : option Z;
  je_isOperational : bool;
  je_class : ErrorClass
}.

(** [createAppError(message, statusCode, isOperational)] *)
Definition createAppError3 (message : string) (statusCode : Z) (isOperational : bool)
    : JsError :=
  {| je_message := message; je_statusCode := Some statusCode;
     je_isOperational := isOperational; je_class := GenericError |}.

(** An error thrown by the services: [createAppError] marks it operational,
    a plain [Error] has neither field. *)
Definition thrown_error (e : AppError) : JsError :=
  {| je_message := err_message e; je_statusCode := err_statusCode e;
     je_isOperational := bool_decide (err_statusCode e <> None);
     je_class := GenericError |}.

Definition je_has_statusCode (error : JsError) : bool :=
  match je_statusCode error with
  | Some c => negb (c =? 0)
  | None => false
  end.

Definition handlePrismaError (isDevelopment : bool) (code message : string) : JsError :=
  if String.eqb code "P2002" then
    createAppError3 "El recurso ya existe" HTTP_STATUS.CONFLICT true
  else if String.eqb code "P2025" then
    createAppError3 "Recurso no encontrado" HTTP_STATUS.NOT_FOUND true
  else if String.eqb code "P2003" then
    createAppError3 "Referencia inválida a otro recurso" HTTP_STATUS.BAD_REQUEST true
  else if String.eqb code "P2014" then
    createAppError3 "La operación violaría una relación requerida"
      HTTP_STATUS.BAD_REQUEST true
  else
    createAppError3 (if isDevelopment then message else "Error de base de datos")
      HTTP_STATUS.INTERNAL_SERVER_ERROR true.

Definition handlePrismaValidationError (isDevelopment : bool) (message : string) : JsError :=
  createAppError3
    (if isDevelopment then "Error de validación: " +:+ message
     else "Datos inválidos proporcionados")
    HTTP_STATUS.BAD_REQUEST true.

Definition shouldLogError (error : JsError) : bool :=
  if je_isOperational error && je_has_statusCode error
     && (default 0 (je_statusCode error) <? 500)
  then false else true.

(** What the handler did: the level it logged at, if it logged, and the
    response it sent. *)
Record ErrorOutcome := { eo_logged : option string; eo_response : Response }.

(** The level chosen by [logError]. *)
Definition logError_level (error : JsError) : string :=
  if je_has_statusCode error && (500 <=? default 0 (je_statusCode error))
  then "error" else "warn".

Definition errorHandler (isDevelopment : bool) (error : JsError) : ErrorOutcome :=
  let respond (appError : JsError) : ErrorOutcome :=
    let logged := if shouldLogError appError then Some (logError_level appError) else None in
    let statusCode :=
      if je_has_statusCode appError then default 0 (je_statusCode appError)
      else HTTP_STATUS.INTERNAL_SERVER_ERROR in
    let message :=
      if String.eqb (je_message appError) "" then "Error interno del servidor"
      else je_message appError in
    {| eo_logged := logged;
       eo_response :=
         if statusCode =? HTTP_STATUS.BAD_REQUEST then badRequestResponse message
         else if statusCode =? HTTP_STATUS.NOT_FOUND then notFoundResponse message
         else if statusCode =? HTTP_STATUS.CONFLICT then conflictResponse message
         else internalServerErrorResponse message |} in
  if je_has_statusCode error then respond error
  else
    match je_class error with
    | ZodError issues =>
        {| eo_logged := None;
           eo_response := validationErrorResponse (formatZodErrors issues)
                            "Errores de validación en los datos" |}
    | PrismaClientKnownRequestError code =>
        respond (handlePrismaError isDevelopment code (je_message error))
    | PrismaClientValidationError =>
        respond (handlePrismaValidationError isDevelopment (je_message error))
    | GenericError =>
        respond (createAppError3
                   (if isDevelopment then je_message error else "Error interno del servidor")
                   HTTP_STATUS.INTERNAL_SERVER_ERROR false)
    end.

(** [notFoundHandler]: the error passed to [next] for an unmatched route. *)
Definition notFoundHandler (method originalUrl : string) : JsError :=
  createAppError3 ("Ruta " +:+ method +:+ " " +:+ originalUrl +:+ " no encontrada")
    HTTP_STATUS.NOT_FOUND true.

(** [asyncHandler(fn)] in the application, where [errorHandler] is the last
    middleware: a rejection of [fn] goes through [next] to the handler. *)
Definition asyncHandler (isDevelopment : bool) (fn : M Response) : M Response :=
  try_catch fn
    (fun error => ret (eo_response (errorHandler isDevelopment (thrown_error error)))).

(** ** shared/utils/password.ts: hashing and temporary passwords *)

(** bcryptjs: [genSalt] draws 16 random bytes, [hash] is a function of the
    password, the cost and the salt. *)
Definition hashPassword (bcrypt_hash : string -> Z -> list Z -> string) (saltRounds : Z)
    (password : string) : M string :=
  try_catch
    (if Z.of_nat (String.length password) <? Password.HASH_CONFIG.minPasswordLength then
       throw (plainError "La contraseña debe tener al menos 8 caracteres")
     else if Password.HASH_CONFIG.maxPasswordLength <? Z.of_nat (String.length password) then
       throw (plainError "La contraseña no puede tener más de 128 caracteres")
     else
       let* salt := crypto_randomBytes 16 in
       ret (bcrypt_hash password saltRounds salt))
    (fun error => throw (plainError "Error al procesar la contraseña")).

Definition lowercase : Password.jsstring := Password.lit "abcdefghijklmnopqrstuvwxyz".
Definition uppercase : Password.jsstring := Password.lit "ABCDEFGHIJKLMNOPQRSTUVWXYZ".
Definition numbers : Password.jsstring := Password.lit "0123456789".
Definition specialChars : Password.jsstring := Password.lit "@$!%*?&".

(** [s[Math.floor(Math.random() * s.length)]]: [random k] stands for the
    index the [k]-th call of [Math.random] leads to, taken within the
    length of [s]. *)
Definition random_char (random : nat -> nat) (k : nat) (s : Password.jsstring) : Z :=
  nth (random k mod length s) s 0.

(** [generateTemporaryPassword(length = 12, includeSpecialChars = true)].
    The final [sort] with a random comparator is a rearrangement of the
    characters, given as [shuffle]. *)
Definition generateTemporaryPassword (random : nat -> nat)
    (shuffle : Password.jsstring -> Password.jsstring)
    (length_ : Z) (includeSpecialChars : bool) : Password.jsstring :=
  let charset :=
    (lowercase ++ uppercase ++ numbers
     ++ (if includeSpecialChars then specialChars else []))%list in
  let password :=
    ([random_char random 0 lowercase; random_char random 1 uppercase;
      random_char random 2 numbers]
     ++ (if includeSpecialChars then [random_char random 3 specialChars] else []))%list in
  let remainingLength := length_ - Z.of_nat (length password) in
  let rest :=
    map (fun i => random_char random (length password + i) charset)
        (seq 0 (Z.to_nat remainingLength)) in
  shuffle (password ++ rest)%list.

(** ** modules/auth/validators/auth.validator.ts *)

Definition validateAuthHeader (req : Request) : Handled :=
  if Jwt.falsy_string (req_authorization req) then
    Send (validationErrorResponse
            [{| ve_field := "authorization";
                ve_message := "Header de autorización es requerido";
                ve_code := None |}]
            "Errores de validación")
  else if negb (String.prefix "Bearer " (default "" (req_authorization req))) then
    Send (validationErrorResponse
            [{| ve_field := "authorization";
                ve_message :=
                  "Formato de header de autorización inválido. Use: Bearer <token>";
                ve_code := None |}]
            "Errores de validación")
  else CallNext req.

(** ** The parts that need the platform *)

(** [Array.prototype.join(', ')] *)
Fixpoint join_comma (l : list string) : string :=
  match l with
  | [] => ""
  | [x] => x
  | x :: rest => x +:+ ", " +:+ join_comma rest
  end.

Definition set_password (hash : string) (u : User) : User :=
  {| user_id := user_id u; user_institutionId := user_institutionId u;
     user_email := user_email u; user_password := Some hash;
     user_fullName := user_fullName u; user_isActive := user_isActive u;
     user_attributes := user_attributes u; user_lastLogin := user_lastLogin u |}.

Record ChangePasswordData := {
  cp_userId : string;
  cp_currentPassword : string;
  cp_newPassword : string
}.

Section More.
Context `{P : Platform}.

(** [env.NODE_ENV], [env.BCRYPT_ROUNDS] and [bcrypt.hash]. *)
Variable NODE_ENV : string.
Variable BCRYPT_ROUNDS : Z.
Variable bcrypt_hash : string -> Z -> list Z -> string.

Definition isDevelopment : bool := String.eqb NODE_ENV "development".

(** The array built by [requireABACPermission]; the feature check is pushed
    when a non-empty feature name is given. *)
Definition requireABACPermission (resourceType action : string)
    (allowedRoles : list string) (requiredFeature : option string)
    : list (Request -> M Handled) :=
  ([ setupABACContext;
     checkRolePermissions allowedRoles;
     checkPlanLimits resourceType action ]
   ++ (if Jwt.falsy_string requiredFeature then []
       else [fun req => ret (checkPlanFeature (default "" requiredFeature) req)]))%list.

(** *** The auth service: change of password *)

(** The passwords of the service are read as Latin-1 text, one code unit
    per character, when they are handed to [validatePassword]. *)
Definition changePassword (data : ChangePasswordData) : M bool :=
  try_catch
    (let* db := getDb in
     match find_by user_id (cp_userId data) (users db) with
     | None => throw (createAppError "Usuario no encontrado" 404)
     | Some user =>
         if Jwt.falsy_string (user_password user) then
           throw (createAppError "Usuario no encontrado" 404)
         else
           let isCurrentPasswordValid :=
             verifyPassword (cp_currentPassword data) (default "" (user_password user)) in
           if negb isCurrentPasswordValid then
             logAuthEvent "password_change_failed" (Some (user_id user)) ;;
             throw (createAppError "Contraseña actual incorrecta" 400)
           else
             let passwordValidation :=
               Password.validatePassword (Password.lit (cp_newPassword data)) true in
             if negb (Password.isValid passwordValidation) then
               throw (createAppError
                        ("Nueva contraseña inválida: "
                         +:+ join_comma (Password.errors passwordValidation)) 400)
             else
               let* hashedNewPassword :=
                 hashPassword bcrypt_hash BCRYPT_ROUNDS (cp_newPassword data) in
               prisma_user_update (cp_userId data) (set_password hashedNewPassword) ;;
               logAuthEvent "password_changed" (Some (user_id user)) ;;
               ret true
     end)
    (rethrow_or "Error cambiando contraseña").

(** *** modules/auth/controllers/auth.controller.ts *)

Definition login (data : LoginData) : M Response :=
  asyncHandler isDevelopment
    (loginUser data ;; ret (successResponse "Login exitoso")).

Definition refresh (refreshToken : string) : M Response :=
  asyncHandler isDevelopment
    (refreshTokens refreshToken ;;
     ret (successResponse "Tokens actualizados exitosamente")).

Definition getCurrentUser (req : Request) : M Response :=
  asyncHandler isDevelopment
    (match req_user req with
     | None => ret (badRequestResponse "Usuario no autenticado")
     | Some _ => ret (successResponse "Información del usuario obtenida exitosamente")
     end).

Definition changeUserPassword (req : Request) (currentPassword newPassword : string)
    : M Response :=
  asyncHandler isDevelopment
    (match req_user req with
     | None => ret (badRequestResponse "Usuario no autenticado")
     | Some user =>
         changePassword {| cp_userId := au_id user;
                           cp_currentPassword := currentPassword;
                           cp_newPassword := newPassword |} ;;
         ret (successResponse "Contraseña cambiada exitosamente")
     end).

(** A route: the middleware of the chain, then the controller. *)
Definition route (chain : list (Request -> M Handled)) (controller : Request -> M Response)
    (req : Request) : M Response :=
  let* r := run_chain chain req in
  match r with
  | CallNext req' => controller req'
  | Send res => ret res
  end.

(** [router.get('/me', authenticate, setTenantContext, getCurrentUser)] *)
Definition route_me : Request -> M Response :=
  route [authenticate; setTenantContext] getCurrentUser.

End More.

(** ** More sample data *)

Module MoreSample.
Import Sample.

(** A toy hash in the format of the test double's [bcrypt.compare]. *)
Definition toy_hash (password : string) (rounds : Z) (salt : list Z) : string :=
  "bcrypt:" +:+ password.

Definition toy_decode (token : string) : option DecodedToken :=
  if String.eqb token "soon" then Some {| dt_userId := "u-teacher"; dt_exp := Some 1700000600 |}
  else if String.eqb token "later" then Some {| dt_userId := "u-teacher"; dt_exp := Some 1700086400 |}
  else if String.eqb token "no-exp" then Some {| dt_userId := "u-teacher"; dt_exp := None |}
  else None.

Definition admin : AuthUser :=
  {| au_id := "u-admin"; au_email := "admin@a.edu";
     au_institutionId := Some "inst-A"; au_roleId := "r-admin";
     au_roleName := "ADMIN"; au_isActive := true; au_attributes := None |}.

Definition tenant_A (planId : option string) : Tenant :=
  {| tn_id := "inst-A"; tn_name := "A"; tn_slug := "a"; tn_status := "active";
     tn_planId := planId |}.

(** A request of the given principal after the tenant stages. *)
Definition tenant_request (user : AuthUser) (params : gmap string string)
    (planId : option string) : Request :=
  {| req_authorization := None; req_params := params; req_user := Some user;
     req_token := None; req_institutionId := au_institutionId user;
     req_tenant := Some (tenant_A planId); req_abac := None |}.

(** A request of the given principal right after [authenticate]. *)
Definition authenticated (user : AuthUser) (params : gmap string string) : Request :=
  {| req_authorization := None; req_params := params; req_user := Some user;
     req_token := None; req_institutionId := None; req_tenant := None;
     req_abac := None |}.

(** The platform of the test double with one more token: the access
    token of the active user [u-teacher]. *)
Definition verify_plus (token secret iss aud : string) (now : Z) : VerifyResult :=
  if String.eqb token "access-of-u-teacher" && String.eqb secret (JWT_SECRET sample_env)
  then Verified (AccessClaims {| jp_userId := "u-teacher"; jp_institutionId := Some "inst-A";
                                 jp_roleId := "r-teacher"; jp_roleName := "TEACHER";
                                 jp_email := "teacher@a.edu" |})
  else verify token secret iss aud now.

Definition platform_plus : Platform :=
  {| env := sample_env;
     jwt_sign := sign;
     jwt_verify := verify_plus;
     bcrypt_compare := fun password hash => String.eqb ("bcrypt:" +:+ password) hash;
     startOfMonth := fun now => now - now mod 2592000000;
     toISOString := fun ms => pretty ms |}.

Definition sample_world : World := world (db five false).

(** A [ZodError] with the given message and issues, and an issue to put in it. *)
Definition zod_error (message : string) (issues : list ZodIssue) : JsError :=
  {| je_message := message; je_statusCode := None; je_isOperational := false;
     je_class := ZodError issues |}.

Definition email_issue : ZodIssue :=
  {| zi_path := ["body"; "email"]; zi_message := "Email inválido";
     zi_code := "invalid_string" |}.

Definition teacher_header : Request := with_header "Bearer access-of-u-teacher".

(** [teacher_header] after [authenticate]. *)
Definition teacher_authenticated : Request :=
  set_auth teacher_header
    {| au_id := "u-teacher"; au_email := "teacher@a.edu";
       au_institutionId := Some "inst-A"; au_roleId := "r-teacher";
       au_roleName := "TEACHER"; au_isActive := true; au_attributes := None |}
    "access-of-u-teacher".

End MoreSample.

(** * Properties *)

(** ** Bearer extraction *)

Module JwtFacts.
Import Jwt.

Lemma split_space_nonempty (s : string) : split_space s <> [].
Proof.
  destruct s as [|c s]; simpl; [discriminate|].
  destruct (Ascii.eqb c " "); [discriminate|].
  destruct (split_space s); discriminate.
Qed.

Lemma join_split (s : string) : join_space (split_space s) = s.
Proof.
  induction s as [|c s IH]; simpl; [reflexivity|].
  destruct (Ascii.eqb c " ") eqn:E.
  - apply Ascii.eqb_eq in E. subst c.
    pose proof (split_space_nonempty s) as Hne.
    destruct (split_space s) as [|p ps]; [congruence|].
    simpl in *. now rewrite IH.
  - pose proof (split_space_nonempty s) as Hne.
    destruct (split_space s) as [|p ps]; [congruence|].
    destruct ps as [|q qs]; simpl in *; now rewrite <- IH.
Qed.

Lemma split_pieces_no_space (s : string) :
  Forall (fun p => no_space p = true) (split_space s).
Proof.
  induction s as [|c s IH]; simpl.
  - repeat constructor.
  - destruct (Ascii.eqb c " ") eqn:E.
    + constructor; [reflexivity | exact IH].
    + destruct (split_space s) as [|p ps].
      * repeat constructor. simpl. now rewrite E.
      * inversion IH; subst. constructor; [|assumption].
        simpl. rewrite E. assumption.
Qed.

Lemma split_no_space (t : string) : no_space t = true -> split_space t = [t].
Proof.
  induction t as [|c t IH]; simpl; [reflexivity|].
  intros Hn. apply andb_true_iff in Hn as [Hc Ht].
  apply negb_true_iff in Hc. rewrite Hc, (IH Ht). reflexivity.
Qed.

Lemma split_bearer (t : string) :
  no_space t = true -> split_space ("Bearer " +:+ t) = ["Bearer"; t].
Proof.
  intros Hn. unfold String.append. simpl.
  now rewrite (split_no_space t Hn).
Qed.

(** C8. [extractTokenFromHeader] returns a token [t] exactly when the header
    is the scheme [Bearer] in this casing, one space, and [t] without any
    further space; on every other header, and on a missing one, the result
    is null.  The function is total: no header makes it fail. *)
Theorem extractTokenFromHeader_bearer_only (authHeader : option string) (t : string) :
  (extractTokenFromHeader authHeader = Some t
     <-> authHeader = Some ("Bearer " +:+ t) /\ no_space t = true)
  /\ (extractTokenFromHeader authHeader = None
        <-> ~ exists t', authHeader = Some ("Bearer " +:+ t') /\ no_space t' = true).
Proof.
  assert (Hfwd : forall t0, extractTokenFromHeader authHeader = Some t0 ->
                   authHeader = Some ("Bearer " +:+ t0) /\ no_space t0 = true).
  { intros t0. unfold extractTokenFromHeader.
    destruct authHeader as [h|]; simpl; [|discriminate].
    destruct (String.eqb h ""); [discriminate|].
    pose proof (join_split h) as Hj.
    pose proof (split_pieces_no_space h) as Hp.
    destruct (split_space h) as [|p0 [|p1 [|p2 ps]]]; simpl; try discriminate.
    case_bool_decide as Hb; simpl; [|discriminate].
    intros Ht. inversion Ht; subst t0. inversion Hb; subst p0.
    simpl in Hj. subst h. split; [reflexivity|].
    inversion Hp as [|? ? _ Hp']. inversion Hp'. assumption. }
  assert (Hbwd : forall t0, authHeader = Some ("Bearer " +:+ t0) -> no_space t0 = true ->
                   extractTokenFromHeader authHeader = Some t0).
  { intros t0 -> Hn. unfold extractTokenFromHeader.
    unfold falsy_string, default.
    replace (String.eqb ("Bearer " +:+ t0) "") with false by reflexivity.
    cbv zeta. unfold id. rewrite (split_bearer t0 Hn). reflexivity. }
  split.
  - split; [apply Hfwd | intros [? ?]; now apply Hbwd].
  - split.
    + intros Hnone [t' [Hh Hn]]. rewrite (Hbwd t' Hh Hn) in Hnone. discriminate.
    + intros Hno. destruct (extractTokenFromHeader authHeader) as [t0|] eqn:E; [|reflexivity].
      exfalso. apply Hno. exists t0. now apply Hfwd.
Qed.

End JwtFacts.

(** ** Password validation *)

Module PasswordFacts.
Import Password PasswordSpec.

Lemma char_match (ignoreCase : bool) (p c : Z) :
  pattern_char ignoreCase p = true ->
  (canonicalize ignoreCase p =? canonicalize ignoreCase c) = true <-> to_lower c = p.
Proof.
  unfold pattern_char, canonicalize, to_lower, is_lower, is_digit, is_upper.
  intros Hp. rewrite Z.eqb_eq.
  destruct ignoreCase; simpl in *;
    destruct (97 <=? p) eqn:E1, (p <=? 122) eqn:E2, (48 <=? p) eqn:E3, (p <=? 57) eqn:E4,
             (97 <=? c) eqn:E5, (c <=? 122) eqn:E6, (65 <=? c) eqn:E7, (c <=? 90) eqn:E8;
    simpl in *; try discriminate; lia.
Qed.

Lemma match_here_spec (ignoreCase : bool) (pat s : jsstring) :
  forallb (pattern_char ignoreCase) pat = true ->
  match_here ignoreCase pat s = true
  <-> exists mid post, s = (mid ++ post)%list /\ map to_lower mid = pat.
Proof.
  revert s. induction pat as [|p pat IH]; intros s Hpat; simpl.
  - split; [|reflexivity]. intros _. exists [], s. split; reflexivity.
  - simpl in Hpat. apply andb_true_iff in Hpat as [Hp Hpat].
    destruct s as [|c s].
    + split; [discriminate|]. intros (mid & post & Hs & Hm).
      destruct mid; simpl in *; discriminate.
    + rewrite andb_true_iff, (char_match _ _ _ Hp), (IH s Hpat). split.
      * intros [Hc (mid & post & Hs & Hm)]. exists (c :: mid), post.
        simpl. rewrite Hs, Hc, Hm. split; reflexivity.
      * intros (mid & post & Hs & Hm). destruct mid as [|m mid]; simpl in *; [discriminate|].
        inversion Hs; subst. inversion Hm; subst. split; [reflexivity|].
        exists mid, post. split; reflexivity.
Qed.

Lemma test_literal_spec (ignoreCase : bool) (pat s : jsstring) :
  forallb (pattern_char ignoreCase) pat = true ->
  test_literal ignoreCase pat s = true <-> contains_ci pat s.
Proof.
  intros Hpat. unfold contains_ci. induction s as [|c s IH]; simpl.
  - rewrite orb_false_r, (match_here_spec _ _ _ Hpat). split.
    + intros (mid & post & Hs & Hm). exists [], mid, post. split; assumption.
    + intros (pre & mid & post & Hs & Hm).
      destruct pre; simpl in Hs; [|discriminate]. exists mid, post. split; assumption.
  - rewrite orb_true_iff, (match_here_spec _ _ _ Hpat), IH. split.
    + intros [(mid & post & Hs & Hm) | (pre & mid & post & Hs & Hm)].
      * exists [], mid, post. split; assumption.
      * exists (c :: pre), mid, post. simpl. rewrite Hs. split; [reflexivity | assumption].
    + intros (pre & mid & post & Hs & Hm). destruct pre as [|x pre]; simpl in Hs.
      * left. exists mid, post. split; assumption.
      * right. inversion Hs; subst. exists pre, mid, post. split; reflexivity.
Qed.

Lemma test_class_has (cls : Z -> bool) (s : jsstring) :
  test_class cls s = true <-> has cls s.
Proof. unfold test_class, has. apply existsb_exists. Qed.

(** The deny-list test of the loop: some pattern matches exactly when some
    deny-listed word occurs, case ignored. *)
Lemma commonPatterns_spec (s : jsstring) :
  existsb (fun p => test_literal p.1 p.2 s) commonPatterns = false
  <-> forall d, In d deny_list -> ~ contains_ci d s.
Proof.
  unfold commonPatterns, deny_list. simpl existsb.
  rewrite !orb_false_iff.
  assert (H0 : test_literal false (lit "123456") s = true <-> contains_ci (lit "123456") s)
    by (apply test_literal_spec; reflexivity).
  assert (H1 : test_literal true (lit "password") s = true <-> contains_ci (lit "password") s)
    by (apply test_literal_spec; reflexivity).
  assert (H2 : test_literal true (lit "qwerty") s = true <-> contains_ci (lit "qwerty") s)
    by (apply test_literal_spec; reflexivity).
  assert (H3 : test_literal true (lit "admin") s = true <-> contains_ci (lit "admin") s)
    by (apply test_literal_spec; reflexivity).
  assert (H4 : test_literal true (lit "letmein") s = true <-> contains_ci (lit "letmein") s)
    by (apply test_literal_spec; reflexivity).
  cbn [fst snd].
  split.
  - intros (N0 & N1 & N2 & N3 & N4 & _) d Hd Hc.
    simpl in Hd. destruct Hd as [<-|[<-|[<-|[<-|[<-|[]]]]]].
    + apply H0 in Hc. congruence.
    + apply H1 in Hc. congruence.
    + apply H2 in Hc. congruence.
    + apply H3 in Hc. congruence.
    + apply H4 in Hc. congruence.
  - intros Hall.
    repeat split; try reflexivity; apply not_true_is_false; intros Ht.
    + apply H0 in Ht. apply (Hall _ (or_introl eq_refl) Ht).
    + apply H1 in Ht. apply (Hall _ (or_intror (or_introl eq_refl)) Ht).
    + apply H2 in Ht. apply (Hall _ (or_intror (or_intror (or_introl eq_refl))) Ht).
    + apply H3 in Ht.
      apply (Hall _ (or_intror (or_intror (or_intror (or_introl eq_refl)))) Ht).
    + apply H4 in Ht.
      apply (Hall _ (or_intror (or_intror (or_intror (or_intror (or_introl eq_refl))))) Ht).
Qed.

Lemma push_if_none (cond : bool) (e : string) (s : list string)
    (acc : list string * list string) :
  length (push_if cond [e] s acc).1 = 0%nat <-> cond = false /\ length acc.1 = 0%nat.
Proof.
  unfold push_if. destruct cond; simpl.
  - rewrite length_app. simpl. split; [lia | intros [? _]; discriminate].
  - split; [intros ?; split; [reflexivity | assumption] | intros [_ ?]; assumption].
Qed.

(** C9. [validatePassword] answers [isValid = true] exactly for the passwords
    the rule accepts: length within [8,128], an upper-case letter, a
    lower-case letter and a digit, a special character (one of [@$!%*?&])
    when strong mode is required, and none of the deny-listed words
    123456, password, qwerty, admin, letmein as a substring, case ignored. *)
Theorem validatePassword_isValid_iff (password : jsstring) (requireStrong : bool) :
  isValid (validatePassword password requireStrong) = true
  <-> valid_password password requireStrong.
Proof.
  unfold valid_password.
  destruct password as [|c0 rest].
  - simpl. split; [discriminate|]. unfold js_length. simpl. lia.
  - unfold validatePassword. cbv beta iota zeta.
    generalize (c0 :: rest) as pw. intros pw. cbn [isValid].
    rewrite Nat.eqb_eq.
    rewrite !push_if_none.
    rewrite commonPatterns_spec.
    rewrite <- !test_class_has.
    unfold HASH_CONFIG.minPasswordLength, HASH_CONFIG.maxPasswordLength.
    rewrite !Z.ltb_ge, !negb_false_iff.
    cbn [fst length].
    split.
    + intros (Hd & Hs & Hn & Hl & Hu & Hmax & Hmin & _).
      repeat split; try assumption.
      intros ->. simpl in Hs. now apply negb_false_iff in Hs.
    + intros ([Hmin Hmax] & Hu & Hl & Hn & Hs & Hd).
      repeat split; try assumption.
      destruct requireStrong; [|reflexivity]. simpl. apply negb_false_iff. now apply Hs.
Qed.

End PasswordFacts.

(** ** The middleware and the auth service *)

Section CoreFacts.
Context `{P : Platform}.

(** Unfolds the monad so that a run on a world computes. *)
Ltac run :=
  unfold try_catch, bind, ret, throw, logAuthEvent, getDb, putDb, Date_now, sleep;
  simpl.

(** *** Plan limits *)

Lemma quota_kind_names (resourceType : string) :
  quota_kind resourceType <> None
  <-> In resourceType ["student"; "teacher"; "course"; "virtualClassroom"; "certificate"].
Proof.
  unfold quota_kind. simpl.
  destruct (String.eqb_spec resourceType "student"); [split; [auto | discriminate]|].
  destruct (String.eqb_spec resourceType "teacher"); [split; [auto | discriminate]|].
  destruct (String.eqb_spec resourceType "course"); [split; [auto | discriminate]|].
  destruct (String.eqb_spec resourceType "virtualClassroom"); [split; [auto 6 | discriminate]|].
  destruct (String.eqb_spec resourceType "certificate"); [split; [auto 6 | discriminate]|].
  split; [congruence|]. intros [?|[?|[?|[?|[?|[]]]]]]; congruence.
Qed.

Lemma currentCount_of_run (k : QuotaKind) (institutionId : string) (w : World) :
  currentCount_of k institutionId w
  = (Ok (scoped_count k (w_db w) institutionId (w_now w)), w).
Proof. destruct k; reflexivity. Qed.

(** The decision of [checkPlanLimits] on a create request with a plan and a
    quota-gated kind, as a function of the count and the limit. *)
Lemma checkPlanLimits_create_run (resourceType : string) (k : QuotaKind)
    (req : Request) (abac : ABACContext) (plan : Plan) (w : World) :
  quota_kind resourceType = Some k ->
  req_abac req = Some abac ->
  abac_plan abac = Some plan ->
  fst (checkPlanLimits resourceType "create" req w)
  = let currentCount :=
      scoped_count k (w_db w) (abi_id (abac_institution abac)) (w_now w) in
    let limit := limit_of k plan in
    if negb (limit =? -1) && (limit <=? currentCount)
    then Ok (Send (forbiddenResponse
           ("Límite del plan excedido para " +:+ resourceType +:+ " ("
            +:+ pretty currentCount +:+ "/" +:+ pretty limit +:+ ")")))
    else Ok (CallNext req).
Proof.
  intros Hk Habac Hplan. unfold checkPlanLimits.
  rewrite Habac. cbn [mbind option_bind]. rewrite Hplan. cbn [fmap option_fmap option_map].
  rewrite Hk. unfold try_catch, bind at 1. cbn [String.eqb Ascii.eqb Bool.eqb negb].
  rewrite currentCount_of_run. cbv zeta.
  destruct (negb (limit_of k plan =? -1) && _); reflexivity.
Qed.



(** C5 (as amended). [checkPlanLimits] calls the next handler, whatever
    the plan and the counts, when the action is not create; on a create
    request whose context carries a plan it calls the next handler for every
    resource type outside student, teacher, course, virtualClassroom and
    certificate.  (A create request without a plan is refused before the
    resource type is looked at.) *)
Theorem checkPlanLimits_ungated (resourceType action : string) (req : Request) (w : World) :
  (action <> "create" ->
     checkPlanLimits resourceType action req w = (Ok (CallNext req), w))
  /\ (forall abac plan,
        action = "create" ->
        quota_kind resourceType = None ->
        req_abac req = Some abac ->
        abac_plan abac = Some plan ->
        checkPlanLimits resourceType action req w = (Ok (CallNext req), w)).
Proof.
  split.
  - intros Ha. unfold checkPlanLimits, try_catch.
    destruct (String.eqb_spec action "create") as [E|E]; [contradiction|].
    reflexivity.
  - intros abac plan -> Hk Habac Hplan. unfold checkPlanLimits, try_catch.
    rewrite Habac. cbn [mbind option_bind]. rewrite Hplan.
    cbn [fmap option_fmap option_map]. rewrite Hk. reflexivity.
Qed.

(** Without a plan every create request is refused, also for a resource
    type the switch does not know. *)
Lemma checkPlanLimits_create_without_plan (resourceType : string) (req : Request) (w : World) :
  req_abac req ≫= abac_plan = None ->
  checkPlanLimits resourceType "create" req w
  = (Ok (Send (forbiddenResponse "Plan requerido para esta operación")), w).
Proof.
  intros Hnone. unfold checkPlanLimits, try_catch.
  destruct (req_abac req) as [abac|]; [|reflexivity].
  simpl in Hnone. cbn [mbind option_bind]. rewrite Hnone. reflexivity.
Qed.

(** An institution without a plan gets an ABAC context without a plan, and
    with it every create request is refused. *)
Lemma setupABACContext_without_plan (resourceType : string) (req : Request) (w : World)
    (user : AuthUser) (tenant : Tenant) :
  req_user req = Some user ->
  req_tenant req = Some tenant ->
  tn_planId tenant = None ->
  exists req',
    setupABACContext req w = (Ok (CallNext req'), w)
    /\ fst (checkPlanLimits resourceType "create" req' w)
       = Ok (Send (forbiddenResponse "Plan requerido para esta operación")).
Proof.
  intros Hu Ht Hp. unfold setupABACContext. rewrite Hu, Ht, Hp. run.
  eexists. split; [reflexivity|].
  rewrite checkPlanLimits_create_without_plan; reflexivity.
Qed.

(** *** Plan features *)

(** The three numeric gates let a request through exactly for a positive
    monthly allowance. *)
Lemma checkPlanFeature_numeric (req : Request) (abac : ABACContext) (plan : Plan) :
  req_abac req = Some abac ->
  abac_plan abac = Some plan ->
  (checkPlanFeature "ai_teacher" req = CallNext req <-> 0 < aiTeacherCallsMonthly plan)
  /\ (checkPlanFeature "ai_student" req = CallNext req <-> 0 < aiStudentMinutesMonthly plan)
  /\ (checkPlanFeature "certificates" req = CallNext req <-> 0 < certificateMonthly plan).
Proof.
  intros Habac Hplan. unfold checkPlanFeature. rewrite Habac.
  cbn [mbind option_bind]. rewrite Hplan. cbn [String.eqb Ascii.eqb Bool.eqb].
  repeat split; intros Hx.
  - destruct (Z.leb_spec (aiTeacherCallsMonthly plan) 0); [discriminate | assumption].
  - destruct (Z.leb_spec (aiTeacherCallsMonthly plan) 0); [lia | reflexivity].
  - destruct (Z.leb_spec (aiStudentMinutesMonthly plan) 0); [discriminate | assumption].
  - destruct (Z.leb_spec (aiStudentMinutesMonthly plan) 0); [lia | reflexivity].
  - destruct (Z.leb_spec (certificateMonthly plan) 0); [discriminate | assumption].
  - destruct (Z.leb_spec (certificateMonthly plan) 0); [lia | reflexivity].
Qed.

(** C10. A plan whose [certificateMonthly] is -1, the value that means
    unlimited in the quota check, is refused by the feature gate
    [certificates] with Forbidden, as a plan with 0 is; likewise [ai_teacher]
    with [aiTeacherCallsMonthly = -1] and [ai_student] with
    [aiStudentMinutesMonthly = -1]. *)
Theorem checkPlanFeature_unlimited_is_denied (req : Request) (abac : ABACContext)
    (plan : Plan) :
  req_abac req = Some abac ->
  abac_plan abac = Some plan ->
  (certificateMonthly plan = -1 ->
     checkPlanFeature "certificates" req
     = Send (forbiddenResponse "Generación de certificados no disponible en su plan"))
  /\ (aiTeacherCallsMonthly plan = -1 ->
       checkPlanFeature "ai_teacher" req
       = Send (forbiddenResponse
                 "Funcionalidad de IA para docentes no disponible en su plan"))
  /\ (aiStudentMinutesMonthly plan = -1 ->
       checkPlanFeature "ai_student" req
       = Send (forbiddenResponse
                 "Funcionalidad de IA para estudiantes no disponible en su plan")).
Proof.
  intros Habac Hplan. unfold checkPlanFeature. rewrite Habac.
  cbn [mbind option_bind]. rewrite Hplan. cbn [String.eqb Ascii.eqb Bool.eqb].
  repeat split; intros ->; reflexivity.
Qed.

(** *** Resource ownership *)

(** On the two models that have an [institutionId] column the middleware
    is the tenant boundary: a missing row is a bad request, a row of another
    institution is forbidden, a row of the own institution passes. *)
Lemma validateResourceOwnership_with_column (resourceModel resourceIdParam : string)
    (req : Request) (w : World) (model : PrismaModel) (principal : AuthUser)
    (institutionId resourceId : string) :
  modelMap resourceModel = Some model ->
  model = student_model \/ model = career_model ->
  req_user req = Some principal ->
  req_institutionId req = Some institutionId -> institutionId <> "" ->
  req_params req !! resourceIdParam = Some resourceId -> resourceId <> "" ->
  match fst (model_findUnique model resourceId w) with
  | Ok None =>
      fst (validateResourceOwnership resourceModel resourceIdParam req w)
      = Ok (Send (badRequestResponse "Recurso no encontrado"))
  | Ok (Some row) =>
      (row_institutionId row = institutionId ->
         fst (validateResourceOwnership resourceModel resourceIdParam req w)
         = Ok (CallNext req))
      /\ (row_institutionId row <> institutionId ->
           fst (validateResourceOwnership resourceModel resourceIdParam req w)
           = Ok (Send (forbiddenResponse "Acceso denegado a este recurso")))
  | Thrown _ => False
  end.
Proof.
  intros Hmodel Hcol Huser Hinst Hne Hparam Hid.
  unfold validateResourceOwnership, try_catch.
  rewrite Huser, Hinst, Hparam, Hmodel. simpl.
  destruct (String.eqb_spec institutionId ""); [contradiction|].
  destruct (String.eqb_spec resourceId ""); [contradiction|].
  unfold bind at 1 2. 
  destruct Hcol as [-> | ->]; unfold model_findUnique; run.
  - destruct (find_by student_id resourceId (students (w_db w))) as [s|]; simpl; [|reflexivity].
    unfold eqb_opt. split; intros Hr.
    + rewrite bool_decide_eq_true_2 by congruence. reflexivity.
    + rewrite bool_decide_eq_false_2 by congruence. reflexivity.
  - destruct (find_by career_id resourceId (careers (w_db w))) as [s|]; simpl; [|reflexivity].
    unfold eqb_opt. split; intros Hr.
    + rewrite bool_decide_eq_true_2 by congruence. reflexivity.
    + rewrite bool_decide_eq_false_2 by congruence. reflexivity.
Qed.

(** On the four models without the column the lookup itself fails, so the
    catch block answers Forbidden whatever the row and the institutions. *)
Lemma validateResourceOwnership_without_column (resourceModel resourceIdParam : string)
    (req : Request) (w : World) (model : PrismaModel) (principal : AuthUser)
    (institutionId resourceId : string) :
  modelMap resourceModel = Some model ->
  model <> student_model -> model <> career_model ->
  req_user req = Some principal ->
  req_institutionId req = Some institutionId -> institutionId <> "" ->
  req_params req !! resourceIdParam = Some resourceId -> resourceId <> "" ->
  fst (validateResourceOwnership resourceModel resourceIdParam req w)
  = Ok (Send (forbiddenResponse "Error validando propiedad del recurso")).
Proof.
  intros Hmodel Hs Hc Huser Hinst Hne Hparam Hid.
  unfold validateResourceOwnership, try_catch.
  rewrite Huser, Hinst, Hparam, Hmodel. simpl.
  destruct (String.eqb_spec institutionId ""); [contradiction|].
  destruct (String.eqb_spec resourceId ""); [contradiction|].
  destruct model; try contradiction; reflexivity.
Qed.

(** *** Authentication *)

(** [authenticate] settles every failure itself: it never rejects. *)
Lemma authenticate_never_throws (req : Request) (w : World) :
  exists h w', authenticate req w = (Ok h, w').
Proof.
  unfold authenticate, try_catch.
  match goal with |- context [match ?m w with _ => _ end] => destruct (m w) as [[h|e] w'] end.
  - eauto.
  - unfold bind, logAuthEvent, ret. eauto.
Qed.

Lemma optionalAuthenticate_without_token (req : Request) (w : World) :
  Jwt.falsy_string (Jwt.extractTokenFromHeader (req_authorization req)) = true ->
  optionalAuthenticate req w = (Ok (CallNext req), w).
Proof. intros Hno. unfold optionalAuthenticate, try_catch. rewrite Hno. reflexivity. Qed.

(** With a token in the header the optional variant is [authenticate]: its
    own catch block is never entered. *)
Lemma optionalAuthenticate_with_token (req : Request) (w : World) :
  Jwt.falsy_string (Jwt.extractTokenFromHeader (req_authorization req)) = false ->
  optionalAuthenticate req w = authenticate req w.
Proof.
  intros Htok. unfold optionalAuthenticate, try_catch. rewrite Htok.
  destruct (authenticate_never_throws req w) as (h & w' & ->). reflexivity.
Qed.

(** A token that does not verify is answered with 401 by both variants. *)
Lemma optionalAuthenticate_rejects_bad_token (req : Request) (w : World) (token : string) :
  Jwt.extractTokenFromHeader (req_authorization req) = Some token ->
  token <> "" ->
  (forall c, jwt_verify token (JWT_SECRET env) issuer audience (w_now w) <> Verified c) ->
  exists message,
    fst (optionalAuthenticate req w) = Ok (Send (unauthorizedResponse message)).
Proof.
  intros Hext Hne Hbad.
  assert (Hf : Jwt.falsy_string (Jwt.extractTokenFromHeader (req_authorization req)) = false).
  { rewrite Hext. simpl. now destruct (String.eqb_spec token ""). }
  rewrite (optionalAuthenticate_with_token req w Hf).
  unfold authenticate. rewrite Hf, Hext. unfold verifyAccessToken. run.
  destruct (jwt_verify token (JWT_SECRET env) issuer audience (w_now w)) as [c| | |] eqn:E;
    [exfalso; eapply Hbad; first [eassumption | reflexivity] | | |];
    simpl; eexists; reflexivity.
Qed.

(** *** Login *)

(** C4 (as amended). A login attempt fails with the one generic error,
    status 401 and message [Credenciales inválidas], when no user has the
    e-mail and, for an active user of an active institution, when no
    password is set and when the password does not verify, so the caller
    cannot tell these three apart; an inactive user and an inactive
    institution are reported before the password is looked at, whether or
    not a password is set or verifies, each with a reason of its own,
    different from the generic one. *)
Theorem loginUser_failure_reasons (data : LoginData) (w : World) :
  let found := find_by user_email (ld_email data) (users (w_db w)) in
  let result := fst (loginUser data w) in
  let generic := createAppError "Credenciales inválidas" 401 in
  let inactiveUser := createAppError "Usuario inactivo" 401 in
  let inactiveInstitution := createAppError "Institución inactiva" 403 in
  (found = None -> result = Thrown generic)
  /\ (forall u, found = Some u ->
        user_isActive u = true ->
        institution_not_active (institution_of (w_db w) u) = false ->
        Jwt.falsy_string (user_password u) = true ->
        result = Thrown generic)
  /\ (forall u hash, found = Some u ->
        user_isActive u = true ->
        institution_not_active (institution_of (w_db w) u) = false ->
        user_password u = Some hash -> hash <> "" ->
        verifyPassword (ld_password data) hash = false ->
        result = Thrown generic)
  /\ (forall u, found = Some u ->
        user_isActive u = false ->
        result = Thrown inactiveUser)
  /\ (forall u, found = Some u ->
        user_isActive u = true ->
        institution_not_active (institution_of (w_db w) u) = true ->
        result = Thrown inactiveInstitution)
  /\ generic <> inactiveUser
  /\ generic <> inactiveInstitution
  /\ inactiveUser <> inactiveInstitution.
Proof.
  intros found result generic inactiveUser inactiveInstitution.
  subst found result generic inactiveUser inactiveInstitution.
  unfold loginUser, prisma_user_findUnique_email. run.
  repeat split; try discriminate.
  - intros ->. reflexivity.
  - intros u -> Ha Hi Hp. simpl. rewrite Ha, Hi, orb_false_r. simpl.
    destruct (bool_decide (institution_of (w_db w) u = None)) eqn:En.
    + apply bool_decide_eq_true in En. unfold institution_not_active in Hi.
      rewrite En in Hi. discriminate.
    + rewrite Hp. reflexivity.
  - intros u hash -> Ha Hi Hp Hne Hv. simpl. rewrite Ha, Hi, orb_false_r. simpl.
    destruct (bool_decide (institution_of (w_db w) u = None)) eqn:En.
    + apply bool_decide_eq_true in En. unfold institution_not_active in Hi.
      rewrite En in Hi. discriminate.
    + rewrite Hp. simpl.
      destruct (String.eqb_spec hash ""); [contradiction|]. rewrite Hv. reflexivity.
  - intros u -> Ha. simpl. rewrite Ha. reflexivity.
  - intros u -> Ha Hi. simpl. rewrite Ha, Hi, orb_true_r. reflexivity.
Qed.

(** *** Refresh *)

(** The active role: the first assignment marked primary, else the first
    assignment; none exactly when there is no assignment. *)
Lemma primaryRole_of_spec (assignments : list UserRoleWithRole) :
  match primaryRole_of assignments with
  | Some r =>
      In r assignments
      /\ (urr_isPrimary r = true
          \/ (Forall (fun a => urr_isPrimary a = false) assignments
              /\ head assignments = Some r))
  | None => assignments = []
  end.
Proof.
  unfold primaryRole_of.
  destruct (List.find urr_isPrimary assignments) as [r|] eqn:E.
  - apply List.find_some in E as [Hin Hp]. split; [assumption | left; assumption].
  - destruct assignments as [|a l]; [reflexivity|]. simpl. split; [left; reflexivity|].
    right. split; [|reflexivity].
    apply List.Forall_forall. intros x Hx.
    apply not_true_is_false. intros Hp.
    pose proof (List.find_none _ _ E x Hx) as Hn. congruence.
Qed.

Lemma generateTokenPair_access (payload : JwtPayload) :
  accessToken (generateTokenPair payload)
  = jwt_sign (AccessClaims payload) (JWT_SECRET env)
      {| so_expiresIn := JWT_EXPIRES_IN env; so_issuer := issuer; so_audience := audience |}.
Proof. reflexivity. Qed.

(** C6 (as amended). With a refresh token that verifies: the refresh fails
    with 401 when the principal no longer exists or the principal or the
    institution is inactive; otherwise, when the principal has a role
    assignment, a new pair of tokens is issued whose claims are read from
    the database now, with the role of the primary assignment, else of the
    first one, so a role changed after the refresh token was issued is the
    [roleName] of the new access token; a principal without any assignment
    is refused with 403. *)
Theorem refreshTokens_current_role (token : string) (w : World) (decoded : Claims) :
  jwt_verify token (JWT_REFRESH_SECRET env) issuer audience (w_now w) = Verified decoded ->
  let found := find_by user_id (claims_userId decoded) (users (w_db w)) in
  let result := fst (refreshTokens token w) in
  let unauthorized := createAppError "Token de refresh inválido" 401 in
  (found = None -> result = Thrown unauthorized)
  /\ (forall u, found = Some u ->
        user_isActive u = false
        \/ institution_not_active (institution_of (w_db w) u) = true ->
        result = Thrown unauthorized)
  /\ (forall u role, found = Some u ->
        user_isActive u = true ->
        institution_not_active (institution_of (w_db w) u) = false ->
        primaryRole_of (userRoles_of (w_db w) (user_id u)) = Some role ->
        result = Ok (generateTokenPair
                       {| jp_userId := user_id u;
                          jp_institutionId := user_institutionId u;
                          jp_roleId := urr_roleId role;
                          jp_roleName := role_name (urr_role role);
                          jp_email := user_email u |}))
  /\ (forall u, found = Some u ->
        user_isActive u = true ->
        institution_not_active (institution_of (w_db w) u) = false ->
        userRoles_of (w_db w) (user_id u) = [] ->
        result = Thrown (createAppError "Usuario sin roles asignados" 403)).
Proof.
  intros Hv found result unauthorized. subst found result unauthorized.
  unfold refreshTokens, verifyRefreshToken, prisma_user_findUnique_id. run.
  rewrite Hv.
  repeat split.
  - intros ->. reflexivity.
  - intros u -> Hin. simpl. destruct Hin as [Ha | Hi].
    + rewrite Ha. reflexivity.
    + rewrite Hi, orb_true_r. reflexivity.
  - intros u role -> Ha Hi Hr. simpl. rewrite Ha, Hi, Hr. reflexivity.
  - intros u -> Ha Hi Hr. simpl. rewrite Ha, Hi, Hr. reflexivity.
Qed.

(** *** Password reset request *)

Lemma find_by_some {A} (key : A -> string) (id : string) (rows : list A) (r : A) :
  find_by key id rows = Some r -> In r rows /\ key r = id.
Proof.
  unfold find_by. intros Hf. apply List.find_some in Hf as [Hin Hk].
  split; [assumption | now apply String.eqb_eq].
Qed.

Lemma find_by_in {A} (key : A -> string) (rows : list A) (r : A) :
  In r rows -> exists r', find_by key (key r) rows = Some r'.
Proof.
  unfold find_by. intros Hin.
  destruct (List.find (fun r0 => String.eqb (key r0) (key r)) rows) as [r'|] eqn:E; [eauto|].
  pose proof (List.find_none _ _ E r Hin) as Hn. simpl in Hn.
  rewrite String.eqb_refl in Hn. discriminate.
Qed.

(** The row read back after [prisma.user.update] is the updated one. *)
Lemma find_by_updated (id : string) (data : User -> User) (rows : list User) :
  (forall u, user_id (data u) = user_id u) ->
  find_by user_id id
    (map (fun u => if String.eqb (user_id u) id then data u else u) rows)
  = data <$> find_by user_id id rows.
Proof.
  intros Hid. unfold find_by. induction rows as [|r rows IH]; simpl; [reflexivity|].
  destruct (String.eqb (user_id r) id) eqn:E.
  - rewrite Hid, E. reflexivity.
  - rewrite E. exact IH.
Qed.

(** A reset token is 64 hexadecimal characters. *)
Lemma toString_hex_length (bytes : list Z) :
  String.length (toString_hex bytes) = (2 * length bytes)%nat.
Proof. induction bytes as [|b bs IH]; simpl; [reflexivity | rewrite IH; lia]. Qed.

(** C7. When the e-mail does not resolve to an active user,
    [requestPasswordReset] waits one second (a timer of 1000 ms), leaves the
    database as it is and returns the dummy token with an expiry, a result of
    the same shape as the real one; when it resolves to an active user, it
    draws a token of 32 random bytes in hexadecimal, sets the expiry 15
    minutes ahead, stores both as the attributes [passwordResetToken] and
    [passwordResetExpires] of the user and returns them, without waiting. *)
Theorem requestPasswordReset_anti_enumeration (email : string) (w : World) :
  let found := find_by user_email email (users (w_db w)) in
  let out := requestPasswordReset email w in
  ((forall u, found = Some u -> user_isActive u = false) ->
     fst out = Ok {| resetToken := "dummy-token";
                     expiresAt := w_now w + 1000 + 15 * 60 * 1000 |}
     /\ w_timers (snd out) = (w_timers w ++ [1000])%list
     /\ w_db (snd out) = w_db w)
  /\ (forall u, found = Some u -> user_isActive u = true ->
        let token :=
          toString_hex (map (fun i => w_entropy w (w_drawn w + i)%nat mod 256) (seq 0 32)) in
        let expires := w_now w + 15 * 60 * 1000 in
        fst out = Ok {| resetToken := token; expiresAt := expires |}
        /\ w_timers (snd out) = w_timers w
        /\ user_attributes <$> find_by user_id (user_id u) (users (w_db (snd out)))
           = Some (Some (<["passwordResetToken" := token]>
                           (<["passwordResetExpires" := toISOString expires]> ∅)))).
Proof.
  intros found out. subst out.
  unfold requestPasswordReset, generatePasswordResetToken, crypto_randomBytes,
    prisma_user_update, reset_lifetime.
  unfold try_catch, bind, ret, throw, logAuthEvent, getDb, putDb, Date_now, sleep.
  cbn beta iota. fold found.
  split.
  - intros Hnone. destruct found as [u|] eqn:Hf.
    + rewrite (Hnone u eq_refl). cbn. repeat split.
    + cbn. repeat split.
  - intros u Hf Ha. rewrite Hf, Ha.
    cbn beta iota delta [negb fst snd w_db w_now w_timers w_entropy w_drawn users].
    repeat split.
    rewrite find_by_updated by reflexivity.
    apply find_by_some in Hf as [Hin _].
    destruct (find_by_in user_id _ _ Hin) as [u' ->]. reflexivity.
Qed.

End CoreFacts.

(** ** The properties on the sample data *)

Section Examples.
Import Sample.


(** A create request for a resource type outside the switch, from an
    institution without a plan, is refused: the pass-through of unknown
    types does not hold for every create request. *)
Lemma checkPlanLimits_unknown_kind_needs_plan :
  ~ (forall (P : Platform) (resourceType : string) (req : Request) (w : World),
       quota_kind resourceType = None ->
       fst (checkPlanLimits resourceType "create" req w) = Ok (CallNext req)).
Proof.
  intros Hall.
  specialize (Hall platform "grade" (request ∅ None) (world (db [] false)) eq_refl).
  vm_compute in Hall. discriminate.
Qed.

Lemma checkPlanLimits_ungated_example :
  checkPlanLimits "student" "update" (request ∅ None) (world (db five false))
  = (Ok (CallNext (request ∅ None)), world (db five false))
  /\ checkPlanLimits "grade" "create" (request ∅ (Some plan_basic)) (world (db five false))
     = (Ok (CallNext (request ∅ (Some plan_basic))), world (db five false)).
Proof.
  split.
  - apply (proj1 (checkPlanLimits_ungated "student" "update" (request ∅ None)
                    (world (db five false)))).
    discriminate.
  - apply (proj2 (checkPlanLimits_ungated "grade" "create" (request ∅ (Some plan_basic))
                    (world (db five false))) (context (Some plan_basic)) plan_basic);
      reflexivity.
Defined.

(** The enterprise plan of the seeds, unlimited everywhere, is refused the
    three features. *)
Lemma checkPlanFeature_unlimited_is_denied_example :
  checkPlanFeature "certificates" (request ∅ (Some plan_enterprise))
    = Send (forbiddenResponse "Generación de certificados no disponible en su plan")
  /\ checkPlanFeature "ai_teacher" (request ∅ (Some plan_enterprise))
     = Send (forbiddenResponse "Funcionalidad de IA para docentes no disponible en su plan")
  /\ checkPlanFeature "ai_student" (request ∅ (Some plan_enterprise))
     = Send (forbiddenResponse
               "Funcionalidad de IA para estudiantes no disponible en su plan").
Proof.
  pose proof (checkPlanFeature_unlimited_is_denied (request ∅ (Some plan_enterprise))
                (context (Some plan_enterprise)) plan_enterprise eq_refl eq_refl)
    as (Hcert & Hteacher & Hstudent).
  split; [|split].
  - apply Hcert. reflexivity.
  - apply Hteacher. reflexivity.
  - apply Hstudent. reflexivity.
Defined.

(** C2 (the code on a teacher of the principal's own institution).  The
    teacher [t-1] is the user [u-teacher] of institution A and the principal
    belongs to institution A, yet [validateResourceOwnership] on the model
    [teacher] answers Forbidden: the model has no [institutionId] column,
    the lookup is rejected and the catch block denies. *)
Theorem validateResourceOwnership_denies_own_teacher :
  let w := world (db [] false) in
  let req := request {[ "id" := "t-1" ]} (Some plan_basic) in
  req_institutionId req = Some "inst-A"
  /\ (teacher_userId <$> find_by teacher_id "t-1" (teachers (w_db w))) = Some "u-teacher"
  /\ user_in (w_db w) "inst-A" "u-teacher" = true
  /\ fst (validateResourceOwnership "teacher" "id" req w)
     = Ok (Send (forbiddenResponse "Error validando propiedad del recurso")).
Proof. repeat split. Qed.

(** The same request for a student of the own institution passes, for a
    missing student it is a bad request. *)
Lemma validateResourceOwnership_student_example :
  fst (validateResourceOwnership "student" "id" (request {[ "id" := "s1" ]} None)
         (world (db five false)))
  = Ok (CallNext (request {[ "id" := "s1" ]} None))
  /\ fst (validateResourceOwnership "student" "id" (request {[ "id" := "s9" ]} None)
            (world (db five false)))
     = Ok (Send (badRequestResponse "Recurso no encontrado")).
Proof. split; reflexivity. Qed.

(** C3 (the code on a token that does not verify).  The optional variant
    proceeds unauthenticated without a token, but a malformed token, an
    expired token, the token of a deleted user and the token of an inactive
    user are each answered with 401 instead of being passed on. *)
Theorem optionalAuthenticate_answers_failures :
  let w := world (db [] false) in
  fst (optionalAuthenticate (with_header "Basic dXNlcjpwYXNz") w)
    = Ok (CallNext (with_header "Basic dXNlcjpwYXNz"))
  /\ fst (optionalAuthenticate (with_header "Bearer garbage") w)
     = Ok (Send (unauthorizedResponse "Token inválido"))
  /\ fst (optionalAuthenticate (with_header "Bearer expired-token") w)
     = Ok (Send (unauthorizedResponse "Token expirado"))
  /\ fst (optionalAuthenticate (with_header "Bearer access-of-u-deleted") w)
     = Ok (Send (unauthorizedResponse "Usuario no encontrado"))
  /\ fst (optionalAuthenticate (with_header "Bearer access-of-u-inactive") w)
     = Ok (Send (unauthorizedResponse "Usuario inactivo")).
Proof. repeat split. Qed.

Lemma loginUser_failure_reasons_example :
  let w := world (db [] false) in
  let generic := Thrown (createAppError "Credenciales inválidas" 401) in
  fst (loginUser {| ld_email := "nobody@a.edu"; ld_password := "Secret1!" |} w) = generic
  /\ fst (loginUser {| ld_email := "nopass@a.edu"; ld_password := "Secret1!" |} w) = generic
  /\ fst (loginUser {| ld_email := "teacher@a.edu"; ld_password := "Wrong1!" |} w) = generic
  /\ fst (loginUser {| ld_email := "inactive@a.edu"; ld_password := "Secret1!" |} w)
     = Thrown (createAppError "Usuario inactivo" 401)
  /\ fst (loginUser {| ld_email := "b@b.edu"; ld_password := "Secret1!" |} w)
     = Thrown (createAppError "Institución inactiva" 403).
Proof.
  intros w generic. split; [|split; [|split; [|split]]].
  - apply (proj1 (loginUser_failure_reasons
                    {| ld_email := "nobody@a.edu"; ld_password := "Secret1!" |} w)).
    reflexivity.
  - apply (proj1 (proj2 (loginUser_failure_reasons
                    {| ld_email := "nopass@a.edu"; ld_password := "Secret1!" |} w))
             (mkUser "u-nopass" "nopass@a.edu" None true)); reflexivity.
  - apply (proj1 (proj2 (proj2 (loginUser_failure_reasons
                    {| ld_email := "teacher@a.edu"; ld_password := "Wrong1!" |} w)))
             (mkUser "u-teacher" "teacher@a.edu" (Some "bcrypt:Secret1!") true)
             "bcrypt:Secret1!"); try reflexivity.
    discriminate.
  - apply (proj1 (proj2 (proj2 (proj2 (loginUser_failure_reasons
                    {| ld_email := "inactive@a.edu"; ld_password := "Secret1!" |} w))))
             (mkUser "u-inactive" "inactive@a.edu" None false)); reflexivity.
  - eapply (proj1 (proj2 (proj2 (proj2 (proj2 (loginUser_failure_reasons
                    {| ld_email := "b@b.edu"; ld_password := "Secret1!" |} w))))));
      reflexivity.
Defined.

(** A user without a password is not always answered with the generic
    error: [u-inactive] has no password set and is inactive, and the attempt
    is answered [Usuario inactivo], so the caller learns that the e-mail
    exists.  The activity checks come before the password is looked at. *)
Lemma loginUser_inactive_without_password :
  ~ (forall (P : Platform) (data : LoginData) (w : World) (u : User),
       find_by user_email (ld_email data) (users (w_db w)) = Some u ->
       user_password u = None ->
       fst (loginUser data w) = Thrown (createAppError "Credenciales inválidas" 401)).
Proof.
  intros Hall.
  specialize (Hall platform {| ld_email := "inactive@a.edu"; ld_password := "Secret1!" |}
                (world (db [] false)) (mkUser "u-inactive" "inactive@a.edu" None false)
                eq_refl eq_refl).
  vm_compute in Hall. discriminate.
Qed.

(** A principal without any role assignment holds a refresh token that
    verifies, is active in an active institution, and still gets no tokens. *)
Lemma refreshTokens_without_role_issues_nothing :
  ~ (forall (P : Platform) (token : string) (w : World) (decoded : Claims) (u : User),
       jwt_verify token (JWT_REFRESH_SECRET env) issuer audience (w_now w)
         = Verified decoded ->
       find_by user_id (claims_userId decoded) (users (w_db w)) = Some u ->
       user_isActive u = true ->
       institution_not_active (institution_of (w_db w) u) = false ->
       exists tokens, fst (refreshTokens token w) = Ok tokens).
Proof.
  intros Hall.
  destruct (Hall platform "refresh-of-u-norole" (world (db [] false))
              (RefreshClaims {| rp_userId := "u-norole"; rp_institutionId := Some "inst-A" |})
              (mkUser "u-norole" "norole@a.edu" (Some "bcrypt:Secret1!") true)
              eq_refl eq_refl eq_refl eq_refl) as [tokens Ht].
  vm_compute in Ht. discriminate.
Qed.

(** Refresh after a role change: the refresh token of [u-teacher] yields an
    access token for TEACHER while that assignment is primary, and for
    DIRECTOR once the primary assignment has been moved. *)
Lemma refreshTokens_current_role_example :
  (accessToken <$> match fst (refreshTokens "refresh-of-u-teacher" (world (db [] false))) with
                   | Ok t => Some t
                   | Thrown _ => None
                   end)
  = Some "access-secret-of-at-least-32-characters|access|u-teacher|TEACHER"
  /\ (accessToken <$> match fst (refreshTokens "refresh-of-u-teacher" (world (db [] true))) with
                      | Ok t => Some t
                      | Thrown _ => None
                      end)
     = Some "access-secret-of-at-least-32-characters|access|u-teacher|DIRECTOR".
Proof.
  split.
  - rewrite (proj1 (proj2 (proj2 (refreshTokens_current_role (P := platform) "refresh-of-u-teacher"
               (world (db [] false))
               (RefreshClaims {| rp_userId := "u-teacher"; rp_institutionId := Some "inst-A" |})
               eq_refl)))
             (mkUser "u-teacher" "teacher@a.edu" (Some "bcrypt:Secret1!") true)
             {| urr_roleId := "r-teacher"; urr_isPrimary := true;
                urr_role := {| role_id := "r-teacher"; role_name := "TEACHER" |} |}
             eq_refl eq_refl eq_refl eq_refl).
    reflexivity.
  - rewrite (proj1 (proj2 (proj2 (refreshTokens_current_role (P := platform) "refresh-of-u-teacher"
               (world (db [] true))
               (RefreshClaims {| rp_userId := "u-teacher"; rp_institutionId := Some "inst-A" |})
               eq_refl)))
             (mkUser "u-teacher" "teacher@a.edu" (Some "bcrypt:Secret1!") true)
             {| urr_roleId := "r-director"; urr_isPrimary := true;
                urr_role := {| role_id := "r-director"; role_name := "DIRECTOR" |} |}
             eq_refl eq_refl eq_refl eq_refl).
    reflexivity.
Defined.

(** An unknown e-mail and the e-mail of an inactive user get the same
    answer after the same wait; an active user gets a fresh token that is
    stored with its expiry. *)
Lemma requestPasswordReset_anti_enumeration_example :
  let w := world (db [] false) in
  fst (requestPasswordReset "nobody@a.edu" w)
    = Ok {| resetToken := "dummy-token"; expiresAt := 1700000901000 |}
  /\ fst (requestPasswordReset "inactive@a.edu" w)
     = fst (requestPasswordReset "nobody@a.edu" w)
  /\ w_timers (snd (requestPasswordReset "inactive@a.edu" w)) = [1000]
  /\ fst (requestPasswordReset "teacher@a.edu" w)
     = Ok {| resetToken := "0b30557a9fc4e90e33587da2c7ec11365b80a5caef14395e83a8cdf2173c6186";
             expiresAt := 1700000900000 |}
  /\ w_timers (snd (requestPasswordReset "teacher@a.edu" w)) = [].
Proof.
  intros w.
  pose proof (proj1 (requestPasswordReset_anti_enumeration (P := platform) "nobody@a.edu" w))
    as Hnobody.
  pose proof (proj1 (requestPasswordReset_anti_enumeration (P := platform) "inactive@a.edu" w))
    as Hinactive.
  pose proof (proj2 (requestPasswordReset_anti_enumeration (P := platform) "teacher@a.edu" w)
                (mkUser "u-teacher" "teacher@a.edu" (Some "bcrypt:Secret1!") true)
                eq_refl eq_refl) as Hteacher.
  cbv zeta in Hnobody, Hinactive, Hteacher.
  destruct Hnobody as (Hn1 & Hn2 & _); [intros u Hu; discriminate Hu|].
  destruct Hinactive as (Hi1 & Hi2 & _).
  { intros u Hu. vm_compute in Hu. injection Hu as <-. reflexivity. }
  destruct Hteacher as (Ht1 & Ht2 & _).
  split; [exact Hn1|]. split; [rewrite Hi1, Hn1; reflexivity|].
  split; [exact Hi2|]. split; [exact Ht1 | exact Ht2].
Defined.

Lemma extractTokenFromHeader_bearer_only_example :
  Jwt.extractTokenFromHeader (Some "Bearer eyJhbGciOi.eyJ1c2VyIjoi.c2lnbmF0dXJl")
    = Some "eyJhbGciOi.eyJ1c2VyIjoi.c2lnbmF0dXJl"
  /\ Jwt.extractTokenFromHeader (Some "bearer eyJhbGciOi") = None.
Proof.
  split.
  - apply (proj1 (JwtFacts.extractTokenFromHeader_bearer_only
                    (Some "Bearer eyJhbGciOi.eyJ1c2VyIjoi.c2lnbmF0dXJl")
                    "eyJhbGciOi.eyJ1c2VyIjoi.c2lnbmF0dXJl")).
    split; reflexivity.
  - apply (proj2 (JwtFacts.extractTokenFromHeader_bearer_only
                    (Some "bearer eyJhbGciOi") "")).
    intros [t' [Hh _]]. unfold String.append in Hh. discriminate Hh.
Defined.

Lemma validatePassword_isValid_iff_example :
  PasswordSpec.valid_password (Password.lit "Abcd1234!") true
  /\ PasswordSpec.valid_password (Password.lit "Abcd1234") false
  /\ ~ PasswordSpec.valid_password (Password.lit "Abcd1234") true
  /\ ~ PasswordSpec.valid_password (Password.lit "MyPassWord1!") true.
Proof.
  split; [|split; [|split]].
  - apply (proj1 (PasswordFacts.validatePassword_isValid_iff
                    (Password.lit "Abcd1234!") true)). reflexivity.
  - apply (proj1 (PasswordFacts.validatePassword_isValid_iff
                    (Password.lit "Abcd1234") false)). reflexivity.
  - intros Hv.
    apply (proj2 (PasswordFacts.validatePassword_isValid_iff
                    (Password.lit "Abcd1234") true)) in Hv.
    discriminate Hv.
  - intros Hv.
    apply (proj2 (PasswordFacts.validatePassword_isValid_iff
                    (Password.lit "MyPassWord1!") true)) in Hv.
    discriminate Hv.
Defined.

End Examples.

(** * Properties of the rest of the pipeline *)

Section MoreFacts.
Context `{P : Platform}.
Variable NODE_ENV : string.
Variable BCRYPT_ROUNDS : Z.
Variable bcrypt_hash : string -> Z -> list Z -> string.

Ltac run :=
  unfold try_catch, bind, ret, throw, logAuthEvent, getDb, putDb, Date_now, sleep;
  simpl.

Ltac run_in H :=
  unfold try_catch, bind, ret, throw, logAuthEvent, getDb, putDb, Date_now, sleep in H;
  simpl in H.

Lemma includes_In (l : list string) (x : string) : includes l x = true <-> In x l.
Proof.
  unfold includes. rewrite existsb_exists. split.
  - intros (y & Hy & He). apply String.eqb_eq in He. now subst.
  - intros Hin. exists x. split; [assumption | apply String.eqb_refl].
Qed.

Lemma falsy_string_false (o : option string) :
  Jwt.falsy_string o = false <-> exists s, o = Some s /\ s <> "".
Proof.
  destruct o as [s|]; simpl.
  - destruct (String.eqb_spec s ""); split.
    + discriminate.
    + intros (s' & Hs & Hne). congruence.
    + intros _. eauto.
    + reflexivity.
  - split; [discriminate | intros (s & Hs & _); discriminate].
Qed.

(** *** Authentication *)

(** What a run of [authenticate] that reaches the next handler went through. *)
Lemma authenticate_next_inv (req req' : Request) (w : World) :
  fst (authenticate req w) = Ok (CallNext req') ->
  exists token decoded u role,
    Jwt.extractTokenFromHeader (req_authorization req) = Some token
    /\ token <> ""
    /\ jwt_verify token (JWT_SECRET env) issuer audience (w_now w) = Verified decoded
    /\ find_by user_id (claims_userId decoded) (users (w_db w)) = Some u
    /\ user_isActive u = true
    /\ institution_of (w_db w) u ≫= inst_status = Some "active"
    /\ primaryRole_of (userRoles_of (w_db w) (user_id u)) = Some role
    /\ req' = set_auth req
               {| au_id := user_id u; au_email := user_email u;
                  au_institutionId := user_institutionId u;
                  au_roleId := urr_roleId role;
                  au_roleName := role_name (urr_role role);
                  au_isActive := user_isActive u;
                  au_attributes := user_attributes u |} token.
Proof.
  intros H. unfold authenticate in H.
  destruct (Jwt.falsy_string (Jwt.extractTokenFromHeader (req_authorization req))) eqn:Ef.
  { run_in H. discriminate. }
  apply falsy_string_false in Ef as (token & Etok & Hne).
  rewrite Etok in H. unfold verifyAccessToken, prisma_user_findUnique_id in H. run_in H.
  destruct (jwt_verify token (JWT_SECRET env) issuer audience (w_now w)) as [decoded| | |] eqn:Ev;
    simpl in H; try discriminate.
  destruct (find_by user_id (claims_userId decoded) (users (w_db w))) as [u|] eqn:Eu;
    simpl in H; try discriminate.
  destruct (user_isActive u) eqn:Ea; simpl in H; try discriminate.
  destruct (institution_not_active (institution_of (w_db w) u)) eqn:Ei;
    simpl in H; try discriminate.
  destruct (primaryRole_of (userRoles_of (w_db w) (user_id u))) as [role|] eqn:Er;
    simpl in H; try discriminate.
  injection H as <-.
  exists token, decoded, u, role.
  unfold institution_not_active in Ei. apply negb_false_iff in Ei.
  apply bool_decide_eq_true in Ei.
  repeat (split; [assumption|]). rewrite Ea. reflexivity.
Qed.

(** X1. [authenticate] hands the request on only for a live principal: the
    header carried a token that verifies, the user it names exists and is
    active, the institution of the user has status active, the user has a
    role assignment, and the principal attached to the request is that user
    with the role of the primary (else first) assignment. *)
Theorem authenticate_next_sound (req req' : Request) (w : World) :
  fst (authenticate req w) = Ok (CallNext req') ->
  exists token decoded u role,
    Jwt.extractTokenFromHeader (req_authorization req) = Some token
    /\ jwt_verify token (JWT_SECRET env) issuer audience (w_now w) = Verified decoded
    /\ find_by user_id (claims_userId decoded) (users (w_db w)) = Some u
    /\ user_isActive u = true
    /\ institution_of (w_db w) u ≫= inst_status = Some "active"
    /\ primaryRole_of (userRoles_of (w_db w) (user_id u)) = Some role
    /\ req_token req' = Some token
    /\ req_user req'
       = Some {| au_id := user_id u; au_email := user_email u;
                 au_institutionId := user_institutionId u;
                 au_roleId := urr_roleId role;
                 au_roleName := role_name (urr_role role);
                 au_isActive := true;
                 au_attributes := user_attributes u |}.
Proof.
  intros H. apply authenticate_next_inv in H
    as (token & decoded & u & role & Ht & _ & Hv & Hu & Ha & Hi & Hr & ->).
  exists token, decoded, u, role. simpl. rewrite Ha. repeat split; assumption.
Qed.

(** X2. A run of [authenticate] never rejects, reads the database without
    changing it, leaves the clock alone and writes exactly one audit event,
    whatever the outcome. *)
Theorem authenticate_one_audit_event (req : Request) (w : World) :
  exists outcome event,
    authenticate req w
    = (Ok outcome,
       {| w_db := w_db w; w_now := w_now w; w_entropy := w_entropy w;
          w_drawn := w_drawn w; w_audit := (w_audit w ++ [event])%list;
          w_timers := w_timers w |}).
Proof.
  unfold authenticate.
  destruct (Jwt.falsy_string (Jwt.extractTokenFromHeader (req_authorization req))) eqn:Ef.
  { run. eauto. }
  unfold verifyAccessToken, prisma_user_findUnique_id. run.
  destruct (jwt_verify _ (JWT_SECRET env) issuer audience (w_now w)) as [decoded| | |];
    simpl; eauto.
  destruct (find_by user_id (claims_userId decoded) (users (w_db w))) as [u|]; simpl; eauto.
  destruct (user_isActive u); simpl; eauto.
  destruct (institution_not_active (institution_of (w_db w) u)); simpl; eauto.
  destruct (primaryRole_of (userRoles_of (w_db w) (user_id u))); simpl; eauto.
Qed.

(** X3. A route guarded by [authenticate] and then [requireRole] is passed
    only when [authenticate] passes, and then by the user that the verified
    token names, attached as principal, exactly when the role of that user's
    primary (else first) assignment is one of the allowed roles; otherwise
    the authenticated user is answered 403: roles held through other
    assignments do not count. *)
Theorem authenticate_requireRole_primary_only (allowedRoles : list string)
    (req : Request) (w : World) :
  let result := fst (run_chain [authenticate; requireRole allowedRoles] req w) in
  (forall req', result = Ok (CallNext req') ->
     fst (authenticate req w) = Ok (CallNext req'))
  /\ (forall req1, fst (authenticate req w) = Ok (CallNext req1) ->
        exists token decoded u role,
          Jwt.extractTokenFromHeader (req_authorization req) = Some token
          /\ jwt_verify token (JWT_SECRET env) issuer audience (w_now w) = Verified decoded
          /\ find_by user_id (claims_userId decoded) (users (w_db w)) = Some u
          /\ primaryRole_of (userRoles_of (w_db w) (user_id u)) = Some role
          /\ req_user req1
             = Some {| au_id := user_id u; au_email := user_email u;
                       au_institutionId := user_institutionId u;
                       au_roleId := urr_roleId role;
                       au_roleName := role_name (urr_role role);
                       au_isActive := true;
                       au_attributes := user_attributes u |}
          /\ (result = Ok (CallNext req1) <-> In (role_name (urr_role role)) allowedRoles)
          /\ (~ In (role_name (urr_role role)) allowedRoles ->
                result = Ok (Send (forbiddenResponse "Permisos insuficientes")))).
Proof.
  intros result.
  assert (Hres :
    result = match authenticate req w with
             | (Ok (CallNext req1), w1) =>
                 fst (run_chain [requireRole allowedRoles] req1 w1)
             | (Ok (Send res), _) => Ok (Send res)
             | (Thrown e, _) => Thrown e
             end).
  { subst result. simpl run_chain. unfold bind at 1.
    destruct (authenticate req w) as [[[req1|res]|e] w1]; reflexivity. }
  clearbody result.
  destruct (authenticate req w) as [[[req1|res]|e] w1] eqn:Ea.
  - assert (Ha : fst (authenticate req w) = Ok (CallNext req1)) by now rewrite Ea.
    apply authenticate_next_inv in Ha
      as (token & decoded & u & role & Ht & _ & Hv & Hu & Hact & _ & Hr & Hreq).
    assert (Hrun :
      result = if includes allowedRoles (role_name (urr_role role))
               then Ok (CallNext req1)
               else Ok (Send (forbiddenResponse "Permisos insuficientes"))).
    { rewrite Hres, Hreq. unfold requireRole. simpl.
      destruct (includes allowedRoles (role_name (urr_role role))); run; reflexivity. }
    clear Hres. simpl fst. split.
    + intros req' H. rewrite Hrun in H.
      destruct (includes allowedRoles (role_name (urr_role role))); [|discriminate].
      exact H.
    + intros req2 E. injection E as <-.
      exists token, decoded, u, role.
      split; [exact Ht|]. split; [exact Hv|]. split; [exact Hu|]. split; [exact Hr|].
      split; [rewrite Hreq, Hact; reflexivity|].
      rewrite Hrun.
      destruct (includes allowedRoles (role_name (urr_role role))) eqn:Ei.
      * apply includes_In in Ei. split; [split; auto | intros Hn; contradiction].
      * assert (Hn : ~ In (role_name (urr_role role)) allowedRoles).
        { intros Hin. apply includes_In in Hin. congruence. }
        split; [split; [discriminate | intros Hin; contradiction] | auto].
  - subst result. simpl. split; discriminate.
  - subst result. simpl. split; discriminate.
Qed.

(** X4. [requireInstitution] checks nothing when it is given no institution
    and the route has no [institutionId] parameter (or an empty one): every
    authenticated request passes.  With a required institution the request
    passes exactly when it is the principal's. *)
Theorem requireInstitution_decision (institutionId : option string) (req : Request)
    (w : World) (user : AuthUser) :
  req_user req = Some user ->
  let required := js_or institutionId (req_params req !! "institutionId") in
  (Jwt.falsy_string required = true ->
     requireInstitution institutionId req w = (Ok (CallNext req), w))
  /\ (forall r, required = Some r -> r <> "" ->
        (fst (requireInstitution institutionId req w) = Ok (CallNext req)
           <-> au_institutionId user = Some r)
        /\ (au_institutionId user <> Some r ->
              fst (requireInstitution institutionId req w)
              = Ok (Send (forbiddenResponse "Acceso denegado a esta institución")))).
Proof.
  intros Hu required. unfold requireInstitution. rewrite Hu. fold required. split.
  - intros ->. reflexivity.
  - intros r Hr Hne. rewrite Hr. simpl.
    destruct (String.eqb_spec r ""); [contradiction|]. simpl.
    destruct (decide (au_institutionId user = Some r)) as [Heq|Hneq].
    + rewrite bool_decide_eq_true_2 by assumption. simpl.
      split; [split; [intros _; assumption | reflexivity] | contradiction].
    + rewrite bool_decide_eq_false_2 by assumption. run.
      split; [split; [discriminate | contradiction] | reflexivity].
Qed.

(** *** Tenant stages *)

(** X5. [validateTenantAccess] hands the request on only inside the
    principal's own institution: the route names no institution or names the
    principal's, that institution exists with status active, and the request
    leaves with this institution as [institutionId] and as tenant. *)
Theorem validateTenantAccess_next_sound (req req' : Request) (w : World) :
  fst (validateTenantAccess req w) = Ok (CallNext req') ->
  exists user i institution,
    req_user req = Some user
    /\ au_institutionId user = Some i /\ i <> ""
    /\ (Jwt.falsy_string (req_params req !! "institutionId") = true
        \/ req_params req !! "institutionId" = Some i)
    /\ find_by inst_id i (institutions (w_db w)) = Some institution
    /\ inst_id institution = i
    /\ inst_status institution = Some "active"
    /\ req_institutionId req' = Some i
    /\ req_tenant req'
       = Some {| tn_id := i; tn_name := inst_name institution;
                 tn_slug := inst_slug institution; tn_status := "active";
                 tn_planId := inst_planId institution |}.
Proof.
  intros H. unfold validateTenantAccess in H.
  destruct (req_user req) as [user|] eqn:Eu; [|run_in H; discriminate].
  set (requested := js_or (req_params req !! "institutionId") (au_institutionId user)) in *.
  destruct (Jwt.falsy_string requested) eqn:Ef; [run_in H; discriminate|].
  apply falsy_string_false in Ef as (r & Er & Hne). rewrite Er in H.
  destruct (bool_decide (au_institutionId user = Some r)) eqn:Eown;
    [|run_in H; discriminate].
  apply bool_decide_eq_true in Eown.
  unfold prisma_institution_findUnique in H. run_in H.
  destruct (find_by inst_id r (institutions (w_db w))) as [institution|] eqn:Ei;
    simpl in H; [|discriminate].
  destruct (bool_decide (inst_status institution = Some "active")) eqn:Es;
    simpl in H; [|discriminate].
  apply bool_decide_eq_true in Es. injection H as <-.
  pose proof (find_by_some _ _ _ _ Ei) as [_ Hid].
  exists user, r, institution. simpl. rewrite Es, Hid. simpl.
  split; [reflexivity|]. split; [assumption|]. split; [assumption|].
  split.
  { subst requested. unfold js_or in Er.
    destruct (Jwt.falsy_string (req_params req !! "institutionId"));
      [left; reflexivity | right; assumption]. }
  repeat (split; [first [assumption | reflexivity]|]). reflexivity.
Qed.

(** X6. A request that names another institution in the route is refused
    with 403 before any institution is read, whatever its role. *)
Theorem validateTenantAccess_cross_tenant (req : Request) (w : World) (user : AuthUser)
    (other : string) :
  req_user req = Some user ->
  req_params req !! "institutionId" = Some other -> other <> "" ->
  au_institutionId user <> Some other ->
  fst (validateTenantAccess req w)
  = Ok (Send (forbiddenResponse "Acceso denegado a esta institución")).
Proof.
  intros Hu Hp Hne Hother. unfold validateTenantAccess, js_or. rewrite Hu, Hp. simpl.
  destruct (String.eqb_spec other ""); [contradiction|]. simpl.
  destruct (String.eqb_spec other ""); [contradiction|].
  rewrite bool_decide_eq_false_2 by assumption. reflexivity.
Qed.

(** X7. [applyTenantFilter] never sends the client's own [institutionId]
    query parameter away: a non-empty value is kept as it was sent, also when
    it names another institution; only a missing or empty one is replaced by
    the institution of the context.  Every other parameter is untouched. *)
Theorem applyTenantFilter_keeps_client_value (req : Request) (query : gmap string string)
    (i : string) :
  req_institutionId req = Some i -> i <> "" ->
  fst (applyTenantFilter req query) = CallNext req
  /\ (forall k, k <> "institutionId" ->
        snd (applyTenantFilter req query) !! k = query !! k)
  /\ (forall sent, query !! "institutionId" = Some sent -> sent <> "" ->
        snd (applyTenantFilter req query) !! "institutionId" = Some sent)
  /\ (Jwt.falsy_string (query !! "institutionId") = true ->
        snd (applyTenantFilter req query) !! "institutionId" = Some i).
Proof.
  intros Hi Hne. unfold applyTenantFilter. rewrite Hi. simpl.
  destruct (String.eqb_spec i ""); [contradiction|].
  destruct (Jwt.falsy_string (query !! "institutionId")) eqn:Ef; simpl.
  - split; [reflexivity|]. split; [|split].
    + intros k Hk. now rewrite lookup_insert_ne.
    + intros sent Hs Hsne. rewrite Hs in Ef. simpl in Ef.
      destruct (String.eqb_spec sent ""); [contradiction | discriminate].
    + intros _. now rewrite lookup_insert_eq.
  - split; [reflexivity|]. split; [|split].
    + reflexivity.
    + intros sent Hs _. assumption.
    + discriminate.
Qed.

(** X8. Behind [setTenantContext], [validateResourceOwnership] on the models
    student and career is the tenant boundary: the chain is passed exactly
    when the row exists and belongs to the principal's institution; a row of
    another institution is answered 403, a missing row 400. *)
Theorem tenant_chain_isolation (resourceModel : string) (model : PrismaModel)
    (req : Request) (w : World) (user : AuthUser) (i id : string) :
  modelMap resourceModel = Some model ->
  model = student_model \/ model = career_model ->
  req_user req = Some user ->
  au_institutionId user = Some i -> i <> "" ->
  req_params req !! "id" = Some id -> id <> "" ->
  let result :=
    fst (run_chain [setTenantContext; validateResourceOwnership resourceModel "id"] req w) in
  let found := fst (model_findUnique model id w) in
  (result = Ok (CallNext (set_institutionId req (Some i)))
     <-> exists row, found = Ok (Some row) /\ row_institutionId row = i)
  /\ (forall row, found = Ok (Some row) -> row_institutionId row <> i ->
        result = Ok (Send (forbiddenResponse "Acceso denegado a este recurso")))
  /\ (found = Ok None ->
        result = Ok (Send (badRequestResponse "Recurso no encontrado"))).
Proof.
  intros Hm Hcol Hu Hi Hne Hp Hid result found. subst result found.
  assert (Hchain :
    fst (run_chain [setTenantContext; validateResourceOwnership resourceModel "id"] req w)
    = fst (validateResourceOwnership resourceModel "id" (set_institutionId req (Some i)) w)).
  { simpl. unfold bind at 1, setTenantContext. rewrite Hu, Hi. unfold ret at 1.
    unfold bind, ret.
    destruct (validateResourceOwnership resourceModel "id" (set_institutionId req (Some i)) w)
      as [[[?|?]|?] ?]; reflexivity. }
  rewrite Hchain.
  pose proof (validateResourceOwnership_with_column resourceModel "id"
                (set_institutionId req (Some i)) w model user i id
                Hm Hcol Hu eq_refl Hne Hp Hid) as Hown.
  destruct (fst (model_findUnique model id w)) as [[row|]|e'] eqn:Ef; [| |contradiction].
  - destruct Hown as [Hsame Hdiff]. split; [|split].
    + split.
      * intros Hr. exists row. split; [reflexivity|].
        destruct (String.eqb_spec (row_institutionId row) i) as [|Hneq]; [assumption|].
        rewrite (Hdiff Hneq) in Hr. discriminate.
      * intros (row' & Hr & Hri). injection Hr as <-. exact (Hsame Hri).
    + intros row' Hr Hri. injection Hr as <-. exact (Hdiff Hri).
    + discriminate.
  - split; [|split].
    + split; [rewrite Hown; discriminate | intros (row' & Hr & _); discriminate].
    + discriminate.
    + intros _. exact Hown.
Qed.

(** *** Bulk ownership *)

Lemma key_unique {A} (key : A -> string) (rows : list A) (r r' : A) :
  List.NoDup (map key rows) -> In r rows -> In r' rows -> key r = key r' -> r = r'.
Proof.
  induction rows as [|x rows IH]; simpl; [contradiction|].
  intros Hnd Hr Hr' Hk. inversion Hnd as [|? ? Hnotin Hnd']; subst.
  destruct Hr as [<-|Hr], Hr' as [<-|Hr'].
  - reflexivity.
  - exfalso. apply Hnotin. rewrite Hk. now apply List.in_map.
  - exfalso. apply Hnotin. rewrite <- Hk. now apply List.in_map.
  - now apply IH.
Qed.

Lemma NoDup_map_filter {A} (key : A -> string) (f : A -> bool) (rows : list A) :
  List.NoDup (map key rows) -> List.NoDup (map key (List.filter f rows)).
Proof.
  induction rows as [|x rows IH]; simpl; [constructor|].
  intros Hnd. inversion Hnd as [|? ? Hnotin Hnd']; subst.
  destruct (f x); simpl; [|now apply IH].
  constructor; [|now apply IH].
  intros Hin. apply Hnotin. apply List.in_map_iff in Hin as (y & Hy & Hyin).
  apply List.filter_In in Hyin as [Hyin _]. rewrite <- Hy. now apply List.in_map.
Qed.

(** The count of the rows whose key is in the batch and that belong to the
    institution, against the size of the batch. *)
Lemma count_owned {A} (key inst : A -> string) (rows : list A) (ids : list string)
    (i : string) :
  List.NoDup (map key rows) ->
  let n := count (fun r => includes ids (key r) && String.eqb (inst r) i) rows in
  (List.NoDup ids ->
     (n = Z.of_nat (length ids)
        <-> forall id, In id ids -> exists r, find_by key id rows = Some r /\ inst r = i))
  /\ (~ List.NoDup ids -> n <> Z.of_nat (length ids)).
Proof.
  intros Hkeys n.
  set (f := fun r => includes ids (key r) && String.eqb (inst r) i) in *.
  set (owned := map key (List.filter f rows)).
  assert (Hn : n = Z.of_nat (length owned)).
  { subst n owned. unfold count. now rewrite length_map. }
  assert (Hnd : List.NoDup owned) by (apply NoDup_map_filter; assumption).
  assert (Hincl : incl owned ids).
  { intros id Hid. apply List.in_map_iff in Hid as (r & <- & Hr).
    apply List.filter_In in Hr as [_ Hf]. apply andb_true_iff in Hf as [Hf _].
    now apply includes_In. }
  assert (Hle : (length owned <= length ids)%nat) by (apply List.NoDup_incl_length; assumption).
  split.
  - intros Hids. rewrite Hn. split.
    + intros Hlen id Hid.
      assert (Hback : incl ids owned).
      { apply List.NoDup_length_incl; [assumption | lia | assumption]. }
      apply Hback in Hid. apply List.in_map_iff in Hid as (r & Hk & Hr).
      apply List.filter_In in Hr as [Hr Hf]. apply andb_true_iff in Hf as [_ Hi].
      apply String.eqb_eq in Hi.
      rewrite <- Hk. destruct (find_by_in key rows r Hr) as [r' Hr'].
      exists r'. split; [assumption|].
      apply find_by_some in Hr' as [Hin' Hk'].
      now rewrite (key_unique key rows r' r Hkeys Hin' Hr Hk').
    + intros Hall.
      assert (Hback : incl ids owned).
      { intros id Hid. destruct (Hall id Hid) as (r & Hr & Hi).
        apply find_by_some in Hr as [Hin Hk]. subst owned.
        apply List.in_map_iff. exists r. split; [assumption|].
        apply List.filter_In. split; [assumption|]. subst f. simpl.
        apply andb_true_iff. split; [apply includes_In; now rewrite Hk|].
        now apply String.eqb_eq. }
      pose proof (List.NoDup_incl_length Hids Hback). lia.
  - intros Hdup Hlen. apply Hdup. rewrite Hn in Hlen.
    apply (List.NoDup_incl_NoDup Hnd); [lia | assumption].
Qed.

(** X9. On the models student and career, whose keys are unique,
    [validateBulkOwnership] answers true for a batch without repetitions
    exactly when every id of the batch is a row of the institution. *)
Theorem validateBulkOwnership_all_owned (model : PrismaModel) (ids : list string)
    (institutionId : string) (w : World) :
  model = student_model \/ model = career_model ->
  List.NoDup (map student_id (students (w_db w))) ->
  List.NoDup (map career_id (careers (w_db w))) ->
  List.NoDup ids ->
  (fst (validateBulkOwnership model ids institutionId w) = Ok true
     <-> forall id, In id ids ->
           exists row, fst (model_findUnique model id w) = Ok (Some row)
                       /\ row_institutionId row = institutionId).
Proof.
  intros Hmodel Hs Hc Hids. unfold validateBulkOwnership, model_count_owned, model_findUnique.
  destruct Hmodel as [-> | ->]; run.
  - destruct (count_owned student_id student_institutionId (students (w_db w)) ids
                institutionId Hs) as [Hiff _].
    specialize (Hiff Hids). rewrite <- Z.eqb_eq in Hiff. split.
    + intros Ht. injection Ht as Ht. intros id Hid.
      destruct (proj1 Hiff Ht id Hid) as (r & -> & Hi). simpl. eexists. split; [reflexivity | assumption].
    + intros Hall. f_equal. apply (proj2 Hiff). intros id Hid.
      destruct (Hall id Hid) as (row & Hr & Hi).
      destruct (find_by student_id id (students (w_db w))) as [r|]; [|discriminate].
      simpl in Hr. injection Hr as <-. exists r. split; [reflexivity | assumption].
  - destruct (count_owned career_id career_institutionId (careers (w_db w)) ids
                institutionId Hc) as [Hiff _].
    specialize (Hiff Hids). rewrite <- Z.eqb_eq in Hiff. split.
    + intros Ht. injection Ht as Ht. intros id Hid.
      destruct (proj1 Hiff Ht id Hid) as (r & -> & Hi). simpl. eexists. split; [reflexivity | assumption].
    + intros Hall. f_equal. apply (proj2 Hiff). intros id Hid.
      destruct (Hall id Hid) as (row & Hr & Hi).
      destruct (find_by career_id id (careers (w_db w))) as [r|]; [|discriminate].
      simpl in Hr. injection Hr as <-. exists r. split; [reflexivity | assumption].
Qed.

(** X10. A batch that repeats an id is never accepted, also when every id
    in it belongs to the institution: the rows are counted once each and the
    count is compared with the length of the batch. *)
Theorem validateBulkOwnership_repeated_id (model : PrismaModel) (ids : list string)
    (institutionId : string) (w : World) :
  List.NoDup (map student_id (students (w_db w))) ->
  List.NoDup (map career_id (careers (w_db w))) ->
  ~ List.NoDup ids ->
  validateBulkOwnership model ids institutionId w = (Ok false, w).
Proof.
  intros Hs Hc Hdup. unfold validateBulkOwnership, model_count_owned.
  destruct model; run; try reflexivity.
  - destruct (count_owned student_id student_institutionId (students (w_db w)) ids
                institutionId Hs) as [_ Hneq].
    apply Hneq in Hdup. apply Z.eqb_neq in Hdup. now rewrite Hdup.
  - destruct (count_owned career_id career_institutionId (careers (w_db w)) ids
                institutionId Hc) as [_ Hneq].
    apply Hneq in Hdup. apply Z.eqb_neq in Hdup. now rewrite Hdup.
Qed.

(** X11. For the models teacher, course, virtualClassroom and subject, which
    have no [institutionId] column, [validateBulkOwnership] answers false
    for every batch, the empty one included, while on student and career the
    empty batch is accepted. *)
Theorem validateBulkOwnership_without_column (model : PrismaModel) (ids : list string)
    (institutionId : string) (w : World) :
  (model <> student_model -> model <> career_model ->
     validateBulkOwnership model ids institutionId w = (Ok false, w))
  /\ (model = student_model \/ model = career_model ->
       validateBulkOwnership model [] institutionId w = (Ok true, w)).
Proof.
  split.
  - intros Hs Hc. destruct model; try contradiction; reflexivity.
  - intros [-> | ->]; unfold validateBulkOwnership, model_count_owned; run.
    + induction (students (w_db w)) as [|s l IH]; [reflexivity | simpl; exact IH].
    + induction (careers (w_db w)) as [|s l IH]; [reflexivity | simpl; exact IH].
Qed.

(** *** The composite ABAC guard *)

Lemma setupABACContext_run (req : Request) (w : World) (user : AuthUser) (tenant : Tenant) :
  req_user req = Some user ->
  req_tenant req = Some tenant ->
  setupABACContext req w
  = (Ok (CallNext (set_abac req
       {| abac_user := {| abu_id := au_id user; abu_roleId := au_roleId user;
                          abu_roleName := au_roleName user;
                          abu_institutionId := au_institutionId user;
                          abu_attributes := default ∅ (au_attributes user) |};
          abac_institution := {| abi_id := tn_id tenant; abi_planId := tn_planId tenant;
                                 abi_status := tn_status tenant |};
          abac_plan := if Jwt.falsy_string (tn_planId tenant) then None
                       else find_by plan_id (default "" (tn_planId tenant))
                              (plans (w_db w)) |})), w).
Proof.
  intros Hu Ht. unfold setupABACContext, prisma_plan_findUnique. rewrite Hu, Ht.
  destruct (Jwt.falsy_string (tn_planId tenant)); reflexivity.
Qed.

(** What a request that passes the composite guard has gone through. *)
Lemma requireABACPermission_inv (resourceType action : string) (allowedRoles : list string)
    (requiredFeature : option string) (req req' : Request) (w : World) :
  fst (run_chain (requireABACPermission resourceType action allowedRoles requiredFeature)
         req w) = Ok (CallNext req') ->
  exists user tenant context,
    req_user req = Some user
    /\ req_tenant req = Some tenant
    /\ req' = set_abac req context
    /\ abi_id (abac_institution context) = tn_id tenant
    /\ abac_plan context
       = (if Jwt.falsy_string (tn_planId tenant) then None
          else find_by plan_id (default "" (tn_planId tenant)) (plans (w_db w)))
    /\ In (au_roleName user) allowedRoles
    /\ fst (checkPlanLimits resourceType action req' w) = Ok (CallNext req')
    /\ (forall feature, requiredFeature = Some feature -> feature <> "" ->
          checkPlanFeature feature req' = CallNext req').
Proof.
  intros H. unfold requireABACPermission in H.
  destruct (req_user req) as [user|] eqn:Hu;
    [|simpl in H; unfold bind at 1, setupABACContext in H; rewrite Hu in H;
      run_in H; discriminate].
  destruct (req_tenant req) as [tenant|] eqn:Ht;
    [|simpl in H; unfold bind at 1, setupABACContext in H; rewrite Hu, Ht in H;
      run_in H; discriminate].
  simpl app in H. cbn [run_chain] in H. unfold bind at 1 in H.
  rewrite (setupABACContext_run req w user tenant Hu Ht) in H.
  match type of H with context [set_abac req ?c] => set (context := c) in * end.
  unfold bind at 1 in H. unfold checkRolePermissions at 1 in H. cbn [req_abac set_abac] in H.
  cbn [abac_user abu_roleName context] in H.
  destruct (includes allowedRoles (au_roleName user)) eqn:Hrole;
    [|run_in H; discriminate].
  cbn [negb] in H. unfold ret at 1 in H. unfold bind at 1 in H.
  destruct (checkPlanLimits resourceType action (set_abac req context) w)
    as [[[req2|res]|e] w2] eqn:Hlim; [| run_in H; discriminate | run_in H; discriminate].
  assert (Hreq2 : req2 = set_abac req context /\ w2 = w).
  { clear H. unfold checkPlanLimits, try_catch in Hlim.
    destruct (negb (String.eqb action "create")); [run_in Hlim; now inversion Hlim|].
    cbn [req_abac set_abac] in Hlim.
    destruct (Some context ≫= (fun abac => pair abac <$> abac_plan abac)) as [[a p]|];
      [|run_in Hlim; discriminate].
    destruct (quota_kind resourceType) as [k|]; [|run_in Hlim; now inversion Hlim].
    unfold bind at 1 in Hlim. rewrite currentCount_of_run in Hlim.
    destruct (negb (limit_of k p =? -1) && _); run_in Hlim; [discriminate|].
    now inversion Hlim. }
  destruct Hreq2 as [-> ->].
  exists user, tenant, context.
  assert (Hfeat : forall feature, requiredFeature = Some feature -> feature <> "" ->
            checkPlanFeature feature (set_abac req context) = CallNext req'
            /\ req' = set_abac req context).
  { intros feature -> Hne. simpl in H. destruct (String.eqb_spec feature ""); [contradiction|].
    simpl in H. run_in H.
    destruct (checkPlanFeature feature (set_abac req context)) as [r|r] eqn:Hf;
      simpl in H; [|discriminate].
    injection H as <-.
    unfold checkPlanFeature in Hf.
    destruct (req_abac (set_abac req context) ≫= abac_plan); [|discriminate].
    repeat match type of Hf with
           | (if ?c then _ else _) = _ => destruct c; try discriminate
           end; injection Hf as <-; split; reflexivity. }
  assert (Hreq' : req' = set_abac req context).
  { destruct (Jwt.falsy_string requiredFeature) eqn:Ef.
    - simpl in H. run_in H. now injection H as <-.
    - apply falsy_string_false in Ef as (feature & Hfe & Hne).
      exact (proj2 (Hfeat feature Hfe Hne)). }
  subst req'.
  split; [reflexivity|]. split; [reflexivity|]. split; [reflexivity|].
  split; [reflexivity|]. split; [reflexivity|].
  split; [now apply includes_In|]. split; [now rewrite Hlim|].
  intros feature Hfe Hne. exact (proj1 (Hfeat feature Hfe Hne)).
Qed.

(** A run of the quota test that ends in the next handler has room left. *)
Lemma quota_room (req : Request) (message : string) (limit currentCount : Z) :
  (if negb (limit =? -1) && (limit <=? currentCount)
   then Ok (Send (forbiddenResponse message)) else Ok (CallNext req))
  = Ok (CallNext req) ->
  limit = -1 \/ currentCount < limit.
Proof.
  destruct (negb (limit =? -1) && (limit <=? currentCount)) eqn:E; [discriminate|].
  intros _. apply andb_false_iff in E as [E|E].
  - left. now apply negb_false_iff, Z.eqb_eq in E.
  - right. now apply Z.leb_gt in E.
Qed.

(** X12. A request passes [requireABACPermission] only when the principal
    and the tenant are set and the principal's role is one of the allowed
    roles; the context it leaves with holds the plan of the tenant; for a
    create action that plan exists and, for each of the five quota-gated
    resource types, its limit for the type is -1 or above the count of the
    institution; and a required feature needs the plan too: a positive
    monthly allowance for [ai_teacher], [ai_student] and [certificates], and
    for any other name a truthy property of that name in the plan's
    features. *)
Theorem requireABACPermission_sound (resourceType action : string)
    (allowedRoles : list string) (requiredFeature : option string)
    (req req' : Request) (w : World) :
  fst (run_chain (requireABACPermission resourceType action allowedRoles requiredFeature)
         req w) = Ok (CallNext req') ->
  exists user tenant,
    let db := w_db w in
    let planOfTenant :=
      if Jwt.falsy_string (tn_planId tenant) then None
      else find_by plan_id (default "" (tn_planId tenant)) (plans db) in
    let room (type : string) (limit currentCount : Z) : Prop :=
      resourceType = type -> limit = -1 \/ currentCount < limit in
    req_user req = Some user
    /\ req_tenant req = Some tenant
    /\ In (au_roleName user) allowedRoles
    /\ (abac_plan <$> req_abac req') = Some planOfTenant
    /\ (action = "create" ->
          exists plan,
            planOfTenant = Some plan
            /\ room "student" (studentLimit plan)
                 (Z.of_nat (length (List.filter
                    (fun s => String.eqb (student_institutionId s) (tn_id tenant))
                    (students db))))
            /\ room "teacher" (teacherLimit plan)
                 (Z.of_nat (length (List.filter
                    (fun t => user_in db (tn_id tenant) (teacher_userId t))
                    (teachers db))))
            /\ room "course" (courseLimit plan)
                 (Z.of_nat (length (List.filter
                    (fun c => career_in db (tn_id tenant) (course_careerId c))
                    (courses db))))
            /\ room "virtualClassroom" (virtualClassroomLimit plan)
                 (Z.of_nat (length (List.filter
                    (fun v => subject_in db (tn_id tenant) (vc_subjectId v))
                    (virtualClassrooms db))))
            /\ room "certificate" (certificateMonthly plan)
                 (Z.of_nat (length (List.filter
                    (fun c => student_in db (tn_id tenant) (cert_studentId c)
                              && (startOfMonth (w_now w) <=? cert_issuedAt c))
                    (certificates db)))))
    /\ (forall feature, requiredFeature = Some feature -> feature <> "" ->
          exists plan,
            planOfTenant = Some plan
            /\ (feature = "ai_teacher" -> 0 < aiTeacherCallsMonthly plan)
            /\ (feature = "ai_student" -> 0 < aiStudentMinutesMonthly plan)
            /\ (feature = "certificates" -> 0 < certificateMonthly plan)
            /\ (feature <> "ai_teacher" -> feature <> "ai_student" ->
                feature <> "certificates" -> plan_features plan feature = true)).
Proof.
  intros H. apply requireABACPermission_inv in H
    as (user & tenant & context & Hu & Ht & -> & Hid & Hp & Hr & Hl & Hf).
  exists user, tenant. cbv zeta.
  split; [exact Hu|]. split; [exact Ht|]. split; [exact Hr|].
  split; [simpl; now rewrite Hp|]. rewrite <- Hp. rewrite <- Hid. split.
  - intros ->.
    destruct (abac_plan context) as [plan|] eqn:Hplan.
    + exists plan. split; [reflexivity|].
      split; [|split; [|split; [|split]]]; intros ->.
      * rewrite (checkPlanLimits_create_run "student" student_kind
                   (set_abac req context) context plan w eq_refl eq_refl Hplan) in Hl.
        exact (quota_room _ _ _ _ Hl).
      * rewrite (checkPlanLimits_create_run "teacher" teacher_kind
                   (set_abac req context) context plan w eq_refl eq_refl Hplan) in Hl.
        exact (quota_room _ _ _ _ Hl).
      * rewrite (checkPlanLimits_create_run "course" course_kind
                   (set_abac req context) context plan w eq_refl eq_refl Hplan) in Hl.
        exact (quota_room _ _ _ _ Hl).
      * rewrite (checkPlanLimits_create_run "virtualClassroom" virtualClassroom_kind
                   (set_abac req context) context plan w eq_refl eq_refl Hplan) in Hl.
        exact (quota_room _ _ _ _ Hl).
      * rewrite (checkPlanLimits_create_run "certificate" certificate_kind
                   (set_abac req context) context plan w eq_refl eq_refl Hplan) in Hl.
        exact (quota_room _ _ _ _ Hl).
    + rewrite (checkPlanLimits_create_without_plan resourceType (set_abac req context) w)
        in Hl; [discriminate|].
      simpl. exact Hplan.
  - intros feature Hfe Hne. specialize (Hf feature Hfe Hne).
    unfold checkPlanFeature in Hf. cbn [req_abac set_abac mbind option_bind] in Hf.
    destruct (abac_plan context) as [plan|] eqn:Hplan; [|discriminate].
    exists plan. split; [reflexivity|].
    destruct (String.eqb_spec feature "ai_teacher") as [E1|N1].
    { destruct (Z.leb_spec (aiTeacherCallsMonthly plan) 0) as [|Hpos]; [discriminate|].
      rewrite E1.
      split; [intros _; exact Hpos|]. split; [discriminate|]. split; [discriminate|].
      intros N; contradiction. }
    destruct (String.eqb_spec feature "ai_student") as [E2|N2].
    { destruct (Z.leb_spec (aiStudentMinutesMonthly plan) 0) as [|Hpos]; [discriminate|].
      rewrite E2.
      split; [discriminate|]. split; [intros _; exact Hpos|]. split; [discriminate|].
      intros _ N; contradiction. }
    destruct (String.eqb_spec feature "certificates") as [E3|N3].
    { destruct (Z.leb_spec (certificateMonthly plan) 0) as [|Hpos]; [discriminate|].
      rewrite E3.
      split; [discriminate|]. split; [discriminate|]. split; [intros _; exact Hpos|].
      intros _ _ N; contradiction. }
    unfold feature_enabled in Hf.
    destruct (plan_features plan feature); [|discriminate].
    split; [intros E; contradiction|]. split; [intros E; contradiction|].
    split; [intros E; contradiction|]. intros _ _ _. reflexivity.
Qed.

(** X13. Creating a certificate behind the guard
    [requireABACPermission('certificate', 'create', roles, 'certificates')]
    needs a plan with a positive monthly allowance that is not used up: a
    plan with [certificateMonthly] 0 and the unlimited plan, -1, never pass. *)
Theorem requireABACPermission_certificate (allowedRoles : list string)
    (req req' : Request) (w : World) :
  fst (run_chain (requireABACPermission "certificate" "create" allowedRoles
                    (Some "certificates")) req w) = Ok (CallNext req') ->
  exists tenant plan,
    req_tenant req = Some tenant
    /\ (abac_plan <$> req_abac req') = Some (Some plan)
    /\ 0 < certificateMonthly plan
    /\ scoped_count certificate_kind (w_db w) (tn_id tenant) (w_now w)
       < certificateMonthly plan.
Proof.
  intros H. apply requireABACPermission_inv in H
    as (user & tenant & context & Hu & Ht & -> & Hid & Hp & Hr & Hl & Hf).
  specialize (Hf "certificates" eq_refl ltac:(discriminate)).
  unfold checkPlanFeature in Hf. cbn [req_abac set_abac mbind option_bind] in Hf.
  destruct (abac_plan context) as [plan|] eqn:Hplan; [|discriminate].
  cbn [String.eqb Ascii.eqb Bool.eqb] in Hf.
  destruct (Z.leb_spec (certificateMonthly plan) 0) as [|Hpos]; [discriminate|].
  exists tenant, plan. split; [assumption|]. split; [simpl; now rewrite Hplan|].
  split; [assumption|].
  rewrite (checkPlanLimits_create_run "certificate" certificate_kind
             (set_abac req context) context plan w eq_refl eq_refl Hplan) in Hl.
  cbv zeta in Hl. rewrite Hid in Hl. simpl limit_of in Hl.
  destruct (negb (certificateMonthly plan =? -1)
            && (certificateMonthly plan
                <=? scoped_count certificate_kind (w_db w) (tn_id tenant) (w_now w)))
    eqn:E; [discriminate|].
  apply andb_false_iff in E as [E|E].
  - apply negb_false_iff, Z.eqb_eq in E. lia.
  - apply Z.leb_gt in E. assumption.
Qed.

(** X14. The role is checked before the plan: a principal whose role is
    not allowed is told so with 403 also where the institution has no plan or
    the quota is used up. *)
Theorem requireABACPermission_role_first (resourceType action : string)
    (allowedRoles : list string) (requiredFeature : option string)
    (req : Request) (w : World) (user : AuthUser) (tenant : Tenant) :
  req_user req = Some user ->
  req_tenant req = Some tenant ->
  ~ In (au_roleName user) allowedRoles ->
  fst (run_chain (requireABACPermission resourceType action allowedRoles requiredFeature)
         req w) = Ok (Send (forbiddenResponse "Permisos de rol insuficientes")).
Proof.
  intros Hu Ht Hrole. unfold requireABACPermission. simpl app. cbn [run_chain].
  unfold bind at 1. rewrite (setupABACContext_run req w user tenant Hu Ht).
  unfold bind at 1. unfold checkRolePermissions at 1. cbn [req_abac set_abac abac_user abu_roleName].
  destruct (includes allowedRoles (au_roleName user)) eqn:E.
  - apply includes_In in E. contradiction.
  - reflexivity.
Qed.

(** X15. The decision table of [evaluateAccess]: an ADMIN is always
    granted; a create action with a plan is granted to every role on every
    resource type, also an unknown one; otherwise students are open to
    SECRETARY and DIRECTOR, teachers to DIRECTOR, grades to DIRECTOR and
    TEACHER, and nothing else is granted. *)
Theorem evaluateAccess_table (context : ABACContext) (resourceType action : string) :
  let role := abu_roleName (abac_user context) in
  evaluateAccess context resourceType action = true
  <-> role = "ADMIN"
      \/ (action = "create" /\ abac_plan context <> None)
      \/ (resourceType = "student" /\ (role = "SECRETARY" \/ role = "DIRECTOR"))
      \/ (resourceType = "teacher" /\ role = "DIRECTOR")
      \/ (resourceType = "grade" /\ (role = "DIRECTOR" \/ role = "TEACHER")).
Proof.
  clear NODE_ENV BCRYPT_ROUNDS bcrypt_hash.
  intros role. unfold evaluateAccess, includes. fold role. simpl existsb.
  destruct (String.eqb_spec role "ADMIN"), (String.eqb_spec role "SECRETARY"),
    (String.eqb_spec role "DIRECTOR"), (String.eqb_spec role "TEACHER");
    try congruence;
  destruct (String.eqb_spec action "create"),
    (String.eqb_spec resourceType "student"), (String.eqb_spec resourceType "teacher"),
    (String.eqb_spec resourceType "grade");
    try congruence;
  try case_bool_decide; simpl;
  (split; [intros Hb; try discriminate Hb; tauto | intros Hp; try reflexivity]);
  intuition congruence.
Qed.

(** *** The auth service *)

(** The two ways a login ends. *)
Lemma loginUser_outcome (data : LoginData) (w : World) :
  (exists e user,
     loginUser data w
     = (Thrown e, add_event w {| ev_name := "login_failed"; ev_userId := user |})
     /\ (err_statusCode e = Some 401 \/ err_statusCode e = Some 403)
     /\ err_message e <> "")
  \/ (exists u hash role,
        find_by user_email (ld_email data) (users (w_db w)) = Some u
        /\ user_isActive u = true
        /\ institution_of (w_db w) u ≫= inst_status = Some "active"
        /\ user_password u = Some hash
        /\ verifyPassword (ld_password data) hash = true
        /\ primaryRole_of (userRoles_of (w_db w) (user_id u)) = Some role
        /\ fst (loginUser data w)
           = Ok {| ar_user :=
                     {| aru_id := user_id u; aru_email := user_email u;
                        aru_fullName := user_fullName u;
                        aru_institutionId := user_institutionId u;
                        aru_roleName := role_name (urr_role role);
                        aru_isActive := true |};
                   ar_tokens :=
                     generateTokenPair
                       {| jp_userId := user_id u;
                          jp_institutionId := user_institutionId u;
                          jp_roleId := urr_roleId role;
                          jp_roleName := role_name (urr_role role);
                          jp_email := user_email u |} |}
        /\ users (w_db (snd (loginUser data w)))
           = map (fun x => if String.eqb (user_id x) (user_id u)
                           then set_lastLogin (w_now w) x else x)
                 (users (w_db w))).
Proof.
  unfold loginUser, prisma_user_findUnique_email, prisma_user_update, rethrow_or. run.
  destruct (find_by user_email (ld_email data) (users (w_db w))) as [u|] eqn:Eu; simpl.
  2: { left. eexists _, _. split; [reflexivity|]. split; [now left | discriminate]. }
  destruct (user_isActive u) eqn:Ea; simpl.
  2: { left. eexists _, _. split; [reflexivity|]. split; [now left | discriminate]. }
  destruct (bool_decide (institution_of (w_db w) u = None)
            || institution_not_active (institution_of (w_db w) u)) eqn:Ei; simpl.
  { left. eexists _, _. split; [reflexivity|]. split; [now right | discriminate]. }
  apply orb_false_iff in Ei as [_ Ei]. unfold institution_not_active in Ei.
  apply negb_false_iff, bool_decide_eq_true in Ei.
  destruct (Jwt.falsy_string (user_password u)) eqn:Ep; simpl.
  { left. eexists _, _. split; [reflexivity|]. split; [now left | discriminate]. }
  apply falsy_string_false in Ep as (hash & Eh & Hne). rewrite Eh. simpl.
  destruct (verifyPassword (ld_password data) hash) eqn:Ev; simpl.
  2: { left. eexists _, _. split; [reflexivity|]. split; [now left | discriminate]. }
  destruct (primaryRole_of (userRoles_of (w_db w) (user_id u))) as [role|] eqn:Er; simpl.
  2: { left. eexists _, _. split; [reflexivity|]. split; [now right | discriminate]. }
  right. exists u, hash, role. repeat (split; [first [assumption | reflexivity]|]).
  reflexivity.
Qed.

(** X16. A login that fails has not written to the database: the last
    login of the user is untouched and one [login_failed] audit event is
    the only trace.  The error carries status
    401 or 403. *)
Theorem loginUser_failure_leaves_no_trace (data : LoginData) (w : World) (e : AppError) :
  fst (loginUser data w) = Thrown e ->
  w_db (snd (loginUser data w)) = w_db w
  /\ (exists user,
        w_audit (snd (loginUser data w))
        = (w_audit w ++ [{| ev_name := "login_failed"; ev_userId := user |}])%list)
  /\ (err_statusCode e = Some 401 \/ err_statusCode e = Some 403).
Proof.
  intros H. destruct (loginUser_outcome data w)
    as [(e' & user & Hrun & Hs & _) | (u & hash & role & _ & _ & _ & _ & _ & _ & Hok & _)].
  - rewrite Hrun in *. simpl in *. injection H as <-.
    split; [reflexivity|]. split; [eauto | assumption].
  - rewrite Hok in H. discriminate.
Qed.

(** X17. A login succeeds only for an active user of an active institution
    whose stored password verifies and who has a role assignment; the
    response and the token carry the role of the primary (else first)
    assignment, and the only change to the users is the last login of users
    with that id, set to the current time. *)
Theorem loginUser_success_sound (data : LoginData) (w : World) (response : AuthResponse) :
  fst (loginUser data w) = Ok response ->
  exists u hash role,
    find_by user_email (ld_email data) (users (w_db w)) = Some u
    /\ user_isActive u = true
    /\ institution_of (w_db w) u ≫= inst_status = Some "active"
    /\ user_password u = Some hash
    /\ bcrypt_compare (ld_password data) hash = true
    /\ primaryRole_of (userRoles_of (w_db w) (user_id u)) = Some role
    /\ aru_roleName (ar_user response) = role_name (urr_role role)
    /\ accessToken (ar_tokens response)
       = generateAccessToken
           {| jp_userId := user_id u; jp_institutionId := user_institutionId u;
              jp_roleId := urr_roleId role; jp_roleName := role_name (urr_role role);
              jp_email := user_email u |}
    /\ users (w_db (snd (loginUser data w)))
       = map (fun x => if String.eqb (user_id x) (user_id u)
                       then set_lastLogin (w_now w) x else x)
             (users (w_db w)).
Proof.
  intros H. destruct (loginUser_outcome data w)
    as [(e' & user & Hrun & _) | (u & hash & role & Hu & Ha & Hi & Hp & Hv & Hr & Hok & Hdb)].
  - rewrite Hrun in H. discriminate.
  - rewrite Hok in H. injection H as <-.
    exists u, hash, role.
    split; [assumption|]. split; [assumption|]. split; [assumption|].
    split; [assumption|]. split.
    { unfold verifyPassword in Hv.
      destruct (String.eqb (ld_password data) "" || String.eqb hash ""); [discriminate|].
      assumption. }
    split; [assumption|]. split; [reflexivity|]. split; [reflexivity | assumption].
Qed.

(** X18. A refresh token that does not verify (expired, malformed, signed
    with another secret) makes [refreshTokens] fail with status 500 and the
    message of an internal error, not with 401: the error of the verification
    carries no status code and the catch block replaces it.  Nothing is
    logged or written. *)
Theorem refreshTokens_invalid_token_is_500 (token : string) (w : World) :
  (forall c, jwt_verify token (JWT_REFRESH_SECRET env) issuer audience (w_now w)
             <> Verified c) ->
  refreshTokens token w = (Thrown (createAppError "Error refrescando tokens" 500), w).
Proof.
  intros Hbad. unfold refreshTokens, verifyRefreshToken, rethrow_or. run.
  destruct (jwt_verify token (JWT_REFRESH_SECRET env) issuer audience (w_now w))
    as [c| | |] eqn:E; [exfalso; eapply Hbad; first [eassumption | reflexivity] | | |];
    reflexivity.
Qed.

(** *** The error handler and the controllers *)

(** X19. The error handler answers with 400, 404 or 409 for an error that
    carries that status code and with 500 for every other status code, 401
    and 403 included; the message of the error is sent as it is.  Whatever
    the error, the status of the response is one of 400, 404, 409, 422, 500. *)
Theorem errorHandler_status (isDev : bool) (error : JsError) :
  (forall c, je_statusCode error = Some c -> c <> 0 ->
     res_status (eo_response (errorHandler isDev error))
     = (if (c =? 400) || (c =? 404) || (c =? 409) then c else 500)
     /\ (je_message error <> "" ->
         res_message (eo_response (errorHandler isDev error)) = je_message error))
  /\ In (res_status (eo_response (errorHandler isDev error))) [400; 404; 409; 422; 500].
Proof.
  split.
  - intros c Hc Hne. unfold errorHandler, je_has_statusCode. rewrite Hc.
    apply Z.eqb_neq in Hne. rewrite Hne. cbn [negb default from_option id].
    cbn [eo_response]. unfold HTTP_STATUS.BAD_REQUEST, HTTP_STATUS.NOT_FOUND,
      HTTP_STATUS.CONFLICT.
    split.
    + destruct (Z.eqb_spec c 400); [subst; reflexivity|].
      destruct (Z.eqb_spec c 404); [subst; reflexivity|].
      destruct (Z.eqb_spec c 409); [subst; reflexivity|]. reflexivity.
    + intros Hm. destruct (String.eqb_spec (je_message error) ""); [contradiction|].
      destruct (c =? 400), (c =? 404), (c =? 409); reflexivity.
  - unfold errorHandler. cbv zeta.
    destruct (je_has_statusCode error); [|destruct (je_class error)]; cbn [eo_response];
      repeat match goal with
             | |- context [if ?b then _ else _] => destruct b
             end; simpl; auto 6.
Qed.

(** X20. The login endpoint never answers 401 or 403: every failure of
    [loginUser], the generic invalid-credentials error included, reaches the
    error handler with a status it does not map and leaves as a 500 response
    that carries the message of the error; a success is a 200. *)
Theorem login_failure_is_500 (data : LoginData) (w : World) :
  (forall e, fst (loginUser data w) = Thrown e ->
     fst (login NODE_ENV data w) = Ok (internalServerErrorResponse (err_message e)))
  /\ (forall response, fst (loginUser data w) = Ok response ->
        fst (login NODE_ENV data w) = Ok (successResponse "Login exitoso")).
Proof.
  unfold login, asyncHandler, try_catch, bind, ret.
  destruct (loginUser_outcome data w)
    as [(e' & user & Hrun & Hs & Hm) | (u & hash & role & _ & _ & _ & _ & _ & _ & Hok & _)].
  - rewrite Hrun. simpl. split; [|discriminate].
    intros e He. injection He as <-.
    unfold errorHandler, thrown_error, je_has_statusCode. cbn [je_statusCode je_message].
    destruct (String.eqb_spec (err_message e') ""); [contradiction|].
    destruct Hs as [-> | ->]; reflexivity.
  - destruct (loginUser data w) as [[r|e] w']; simpl in *; [|discriminate].
    split; [discriminate | reflexivity].
Qed.

(** X21. In production an error without a status code never shows its own
    message: the response and the log decision depend only on its class,
    which for a Prisma error includes its code and for a Zod error the
    issues that the response lists. *)
Theorem errorHandler_production_hides_message (e1 e2 : JsError) :
  je_has_statusCode e1 = false ->
  je_has_statusCode e2 = false ->
  je_class e1 = je_class e2 ->
  errorHandler false e1 = errorHandler false e2.
Proof.
  intros H1 H2 Hc. unfold errorHandler. rewrite H1, H2, Hc.
  destruct (je_class e2); reflexivity.
Qed.

(** X22. An operational error of the services with a status below 500 is
    not logged by the handler, also when the response it gets is a 500
    (status 401 or 403); an error with status 500 or more, and an error
    without status code, is logged at level error. *)
Theorem errorHandler_logging (isDev : bool) (message : string) (c : Z) :
  (0 < c < 500 ->
     eo_logged (errorHandler isDev (thrown_error (createAppError message c))) = None)
  /\ (500 <= c ->
       eo_logged (errorHandler isDev (thrown_error (createAppError message c)))
       = Some "error")
  /\ eo_logged (errorHandler isDev (thrown_error (plainError message))) = Some "error".
Proof.
  unfold errorHandler, thrown_error, createAppError, plainError, shouldLogError,
    logError_level, je_has_statusCode.
  cbn [je_statusCode je_isOperational je_class je_message err_statusCode err_message
       default from_option id eo_logged createAppError3].
  split; [|split].
  - intros [H0 H500]. destruct (Z.eqb_spec c 0); [lia|]. cbn [negb].
    rewrite bool_decide_eq_true_2 by discriminate. cbn [andb eo_logged].
    destruct (Z.ltb_spec c 500); [reflexivity | lia].
  - intros H500. destruct (Z.eqb_spec c 0); [lia|]. cbn [negb].
    rewrite bool_decide_eq_true_2 by discriminate. cbn [andb eo_logged].
    destruct (Z.ltb_spec c 500); [lia|]. destruct (Z.leb_spec 500 c); [reflexivity | lia].
  - destruct isDev; reflexivity.
Qed.

(** *** Password utilities *)

(** What a password that [validatePassword] accepts has passed. *)
Lemma validatePassword_checks (password : Password.jsstring) (requireStrong : bool) :
  Password.isValid (Password.validatePassword password requireStrong) = true ->
  8 <= Password.js_length password <= 128
  /\ Password.test_class Password.is_upper password = true
  /\ Password.test_class Password.is_lower password = true
  /\ Password.test_class Password.is_digit password = true
  /\ (requireStrong = true ->
      Password.test_class Password.is_special password = true).
Proof.
  destruct password as [|c0 rest]; [discriminate|].
  unfold Password.validatePassword. cbv beta iota zeta.
  generalize (c0 :: rest) as pw. intros pw. cbn [Password.isValid].
  rewrite Nat.eqb_eq, !PasswordFacts.push_if_none.
  unfold Password.HASH_CONFIG.minPasswordLength, Password.HASH_CONFIG.maxPasswordLength.
  rewrite !Z.ltb_ge, !negb_false_iff.
  intros (_ & Hs & Hn & Hl & Hu & Hmax & Hmin & _).
  repeat (split; [first [assumption | lia]|]).
  intros ->. simpl in Hs. now apply negb_false_iff in Hs.
Qed.

(** X23. [evaluatePasswordStrength] rates a password WEAK exactly when it
    misses one of the basic criteria: eight characters, an upper-case
    letter, a lower-case letter, a digit. *)
Theorem evaluatePasswordStrength_weak_iff (password : Password.jsstring) :
  Password.evaluatePasswordStrength password <> Password.WEAK
  <-> 8 <= Password.js_length password
      /\ PasswordSpec.has Password.is_upper password
      /\ PasswordSpec.has Password.is_lower password
      /\ PasswordSpec.has Password.is_digit password.
Proof.
  rewrite <- !PasswordFacts.test_class_has.
  destruct password as [|c0 rest].
  - simpl. split; [congruence | intros [Hl _]; unfold Password.js_length in Hl; simpl in Hl; lia].
  - unfold Password.evaluatePasswordStrength, Password.PASSWORD_PATTERNS_veryStrong,
      Password.PASSWORD_PATTERNS_strong, Password.HASH_CONFIG.minPasswordLength.
    cbv beta iota zeta. generalize (c0 :: rest) as pw. intros pw.
    destruct (Password.test_class Password.is_lower pw),
      (Password.test_class Password.is_upper pw),
      (Password.test_class Password.is_digit pw),
      (Password.test_class Password.is_special pw),
      (forallb Password.allowed_char pw),
      (Z.leb_spec 8 (Password.js_length pw)); simpl;
      split; try congruence; try (intros _; repeat split; first [reflexivity | assumption]);
      intros (? & ? & ? & ?); try discriminate; lia.
Qed.

(** X24. A password that [validatePassword] accepts is never rated WEAK; in
    strong mode it is rated VERY_STRONG when all its characters are letters,
    digits or one of [@$!%*?&], and MEDIUM as soon as it holds any other
    character, never STRONG. *)
Theorem valid_password_strength (password : Password.jsstring) (requireStrong : bool) :
  Password.isValid (Password.validatePassword password requireStrong) = true ->
  Password.evaluatePasswordStrength password <> Password.WEAK
  /\ (requireStrong = true ->
      Password.evaluatePasswordStrength password
      = if forallb Password.allowed_char password
        then Password.VERY_STRONG else Password.MEDIUM).
Proof.
  intros Hv. pose proof (validatePassword_checks _ _ Hv) as ([Hmin _] & Hu & Hl & Hd & Hs).
  destruct password as [|c0 rest]; [discriminate|].
  unfold Password.evaluatePasswordStrength, Password.PASSWORD_PATTERNS_veryStrong,
    Password.PASSWORD_PATTERNS_strong, Password.HASH_CONFIG.minPasswordLength.
  cbv beta iota zeta. revert Hmin Hu Hl Hd Hs. generalize (c0 :: rest) as pw.
  intros pw Hmin Hu Hl Hd Hs. rewrite Hu, Hl, Hd.
  destruct (Z.leb_spec 8 (Password.js_length pw)); [|lia]. simpl.
  split.
  - destruct (Password.test_class Password.is_special pw),
      (forallb Password.allowed_char pw); simpl; discriminate.
  - intros Hr. rewrite (Hs Hr). simpl.
    destruct (forallb Password.allowed_char pw); reflexivity.
Qed.

(** X25. [hashPassword] hashes exactly the passwords of 8 to 128
    characters, drawing 16 bytes of salt; outside these bounds it fails, and
    its own message about the length is replaced by the general one. *)
Theorem hashPassword_length_gate (password : string) (w : World) :
  let n := Z.of_nat (String.length password) in
  (8 <= n <= 128 ->
     fst (hashPassword bcrypt_hash BCRYPT_ROUNDS password w)
     = Ok (bcrypt_hash password BCRYPT_ROUNDS
             (map (fun i => w_entropy w (w_drawn w + i)%nat mod 256) (seq 0 16)))
     /\ w_drawn (snd (hashPassword bcrypt_hash BCRYPT_ROUNDS password w))
        = (w_drawn w + 16)%nat)
  /\ (~ 8 <= n <= 128 ->
       hashPassword bcrypt_hash BCRYPT_ROUNDS password w
       = (Thrown (plainError "Error al procesar la contraseña"), w)).
Proof.
  intros n. unfold hashPassword, crypto_randomBytes,
    Password.HASH_CONFIG.minPasswordLength, Password.HASH_CONFIG.maxPasswordLength.
  fold n. unfold try_catch, bind, ret, throw.
  destruct (Z.ltb_spec n 8), (Z.ltb_spec 128 n); split; intros Hn; try lia;
    try reflexivity; split; reflexivity.
Qed.

(** *** Change of password *)

Lemma lit_length (s : string) :
  Password.js_length (Password.lit s) = Z.of_nat (String.length s).
Proof.
  unfold Password.js_length, Password.lit. rewrite length_map. f_equal.
  induction s as [|c s IH]; simpl; [reflexivity | now rewrite IH].
Qed.

Lemma hashPassword_ok (password : string) (w : World) :
  8 <= Z.of_nat (String.length password) <= 128 ->
  hashPassword bcrypt_hash BCRYPT_ROUNDS password w
  = (Ok (bcrypt_hash password BCRYPT_ROUNDS
           (map (fun i => w_entropy w (w_drawn w + i)%nat mod 256) (seq 0 16))),
     {| w_db := w_db w; w_now := w_now w; w_entropy := w_entropy w;
        w_drawn := (w_drawn w + 16)%nat; w_audit := w_audit w;
        w_timers := w_timers w |}).
Proof.
  intros Hn. unfold hashPassword, crypto_randomBytes,
    Password.HASH_CONFIG.minPasswordLength, Password.HASH_CONFIG.maxPasswordLength.
  unfold try_catch, bind, ret, throw.
  destruct (Z.ltb_spec (Z.of_nat (String.length password)) 8); [lia|].
  destruct (Z.ltb_spec 128 (Z.of_nat (String.length password))); [lia|]. reflexivity.
Qed.

(** The two ways a change of password ends. *)
Lemma changePassword_outcome (data : ChangePasswordData) (w : World) :
  (exists e w',
     changePassword BCRYPT_ROUNDS bcrypt_hash data w = (Thrown e, w')
     /\ w_db w' = w_db w /\ w_drawn w' = w_drawn w
     /\ (err_statusCode e = Some 404 \/ err_statusCode e = Some 400))
  \/ (exists u current,
        find_by user_id (cp_userId data) (users (w_db w)) = Some u
        /\ user_password u = Some current
        /\ verifyPassword (cp_currentPassword data) current = true
        /\ Password.isValid
             (Password.validatePassword (Password.lit (cp_newPassword data)) true) = true
        /\ fst (changePassword BCRYPT_ROUNDS bcrypt_hash data w) = Ok true
        /\ users (w_db (snd (changePassword BCRYPT_ROUNDS bcrypt_hash data w)))
           = map (fun x =>
                    if String.eqb (user_id x) (cp_userId data)
                    then set_password
                           (bcrypt_hash (cp_newPassword data) BCRYPT_ROUNDS
                              (map (fun i => w_entropy w (w_drawn w + i)%nat mod 256)
                                   (seq 0 16))) x
                    else x)
                 (users (w_db w))).
Proof.
  unfold changePassword, rethrow_or, prisma_user_update.
  unfold try_catch, bind, ret, throw, logAuthEvent, getDb, putDb. cbn beta.
  destruct (find_by user_id (cp_userId data) (users (w_db w))) as [u|] eqn:Eu.
  2: { left. eexists _, _. split; [reflexivity|]. repeat split. now left. }
  destruct (Jwt.falsy_string (user_password u)) eqn:Ep.
  { left. eexists _, _. split; [reflexivity|]. repeat split. now left. }
  apply falsy_string_false in Ep as (current & Ec & Hne). rewrite Ec.
  cbn [default from_option id].
  destruct (verifyPassword (cp_currentPassword data) current) eqn:Ev.
  2: { left. eexists _, _. split; [reflexivity|]. repeat split. now right. }
  destruct (Password.isValid
              (Password.validatePassword (Password.lit (cp_newPassword data)) true)) eqn:Evalid.
  2: { left. eexists _, _. split; [reflexivity|]. repeat split. now right. }
  right. exists u, current.
  pose proof (validatePassword_checks _ _ Evalid) as (Hlen & _).
  rewrite lit_length in Hlen.
  cbn [negb]. rewrite (hashPassword_ok _ w Hlen). cbn.
  repeat (split; [first [assumption | reflexivity]|]). reflexivity.
Qed.

(** X26. [changePassword] succeeds only when the user exists with a
    password, the current password verifies and the new one passes
    [validatePassword] in strong mode; then the password of the users with
    that id is replaced by the hash of the new one, and nothing else in the
    users changes. *)
Theorem changePassword_success_sound (data : ChangePasswordData) (w : World) (b : bool) :
  fst (changePassword BCRYPT_ROUNDS bcrypt_hash data w) = Ok b ->
  b = true
  /\ exists u current salt,
       find_by user_id (cp_userId data) (users (w_db w)) = Some u
       /\ user_password u = Some current
       /\ bcrypt_compare (cp_currentPassword data) current = true
       /\ Password.isValid
            (Password.validatePassword (Password.lit (cp_newPassword data)) true) = true
       /\ users (w_db (snd (changePassword BCRYPT_ROUNDS bcrypt_hash data w)))
          = map (fun x =>
                   if String.eqb (user_id x) (cp_userId data)
                   then set_password
                          (bcrypt_hash (cp_newPassword data) BCRYPT_ROUNDS salt) x
                   else x)
                (users (w_db w)).
Proof.
  intros H. destruct (changePassword_outcome data w)
    as [(e & w' & Hrun & _) | (u & current & Hu & Hp & Hv & Hvalid & Hok & Hdb)].
  - rewrite Hrun in H. discriminate.
  - rewrite Hok in H. injection H as <-. split; [reflexivity|].
    exists u, current. eexists. split; [assumption|]. split; [assumption|].
    split.
    { unfold verifyPassword in Hv.
      destruct (String.eqb (cp_currentPassword data) "" || String.eqb current "");
        [discriminate | assumption]. }
    split; [assumption | exact Hdb].
Qed.

(** X27. A change of password that fails has written nothing and drawn
    no salt, and its error is a 404 (no such user, or no password set) or a
    400 (wrong current password, or a new password that is not valid): after
    the new password is validated the hashing cannot fail on its length. *)
Theorem changePassword_failure_writes_nothing (data : ChangePasswordData) (w : World)
    (e : AppError) :
  fst (changePassword BCRYPT_ROUNDS bcrypt_hash data w) = Thrown e ->
  w_db (snd (changePassword BCRYPT_ROUNDS bcrypt_hash data w)) = w_db w
  /\ w_drawn (snd (changePassword BCRYPT_ROUNDS bcrypt_hash data w)) = w_drawn w
  /\ (err_statusCode e = Some 404 \/ err_statusCode e = Some 400).
Proof.
  intros H. destruct (changePassword_outcome data w)
    as [(e' & w' & Hrun & Hdb & Hdr & Hs) | (u & current & _ & _ & _ & _ & Hok & _)].
  - rewrite Hrun in *. simpl in *. injection H as <-. repeat split; assumption.
  - rewrite Hok in H. discriminate.
Qed.

(** *** Temporary passwords *)

Lemma random_char_in (random : nat -> nat) (k : nat) (s : Password.jsstring) :
  s <> [] -> In (random_char random k s) s.
Proof.
  intros Hs. unfold random_char. apply List.nth_In.
  apply Nat.mod_upper_bound. destruct s; [contradiction | discriminate].
Qed.

Lemma class_of_charset (cls : Z -> bool) (s : Password.jsstring) (random : nat -> nat)
    (k : nat) :
  s <> [] -> forallb cls s = true -> cls (random_char random k s) = true.
Proof.
  intros Hs Hall. rewrite List.forallb_forall in Hall. apply Hall.
  now apply random_char_in.
Qed.

(** X28. A temporary password has as many characters as asked for, but
    never fewer than one per required class (3, or 4 with special
    characters); it holds a lower-case letter, an upper-case letter and a
    digit, a special character when asked for, and no character outside
    these classes.  Asked for eight characters or more, it is rated
    VERY_STRONG with special characters and STRONG without. *)
Theorem generateTemporaryPassword_shape (random : nat -> nat)
    (shuffle : Password.jsstring -> Password.jsstring) (length_ : Z)
    (includeSpecialChars : bool) :
  (forall l, Permutation (shuffle l) l) ->
  let password := generateTemporaryPassword random shuffle length_ includeSpecialChars in
  Password.js_length password = Z.max length_ (if includeSpecialChars then 4 else 3)
  /\ PasswordSpec.has Password.is_lower password
  /\ PasswordSpec.has Password.is_upper password
  /\ PasswordSpec.has Password.is_digit password
  /\ (includeSpecialChars = true -> PasswordSpec.has Password.is_special password)
  /\ forallb Password.allowed_char password = true
  /\ (8 <= length_ ->
      Password.evaluatePasswordStrength password
      = if includeSpecialChars then Password.VERY_STRONG else Password.STRONG).
Proof.
  intros Hperm password.
  set (charset := (lowercase ++ uppercase ++ numbers
                   ++ (if includeSpecialChars then specialChars else []))%list).
  set (base := ([random_char random 0 lowercase; random_char random 1 uppercase;
                 random_char random 2 numbers]
                ++ (if includeSpecialChars then [random_char random 3 specialChars]
                    else []))%list).
  set (rest := map (fun i => random_char random (length base + i) charset)
                   (seq 0 (Z.to_nat (length_ - Z.of_nat (length base))))).
  assert (Hpw : Permutation password (base ++ rest)%list) by apply Hperm.
  assert (Hin : forall c, In c (base ++ rest)%list -> In c password).
  { intros c Hc. eapply Permutation_in; [symmetry; exact Hpw | exact Hc]. }
  assert (Hout : forall c, In c password -> In c (base ++ rest)%list).
  { intros c Hc. eapply Permutation_in; [exact Hpw | exact Hc]. }
  assert (Hlow : Password.is_lower (random_char random 0 lowercase) = true)
    by (apply class_of_charset; [discriminate | reflexivity]).
  assert (Hup : Password.is_upper (random_char random 1 uppercase) = true)
    by (apply class_of_charset; [discriminate | reflexivity]).
  assert (Hdig : Password.is_digit (random_char random 2 numbers) = true)
    by (apply class_of_charset; [discriminate | reflexivity]).
  assert (Hspec : Password.is_special (random_char random 3 specialChars) = true)
    by (apply class_of_charset; [discriminate | reflexivity]).
  assert (Hcharset : charset <> []) by (subst charset; discriminate).
  assert (Hallowed : forall c, In c (base ++ rest)%list ->
            Password.allowed_char c = true
            /\ (includeSpecialChars = false -> Password.is_special c = false)).
  { assert (Hplain : forall k s, s <> [] ->
              forallb (fun c => Password.allowed_char c && negb (Password.is_special c)) s
              = true ->
              Password.allowed_char (random_char random k s) = true
              /\ (includeSpecialChars = false ->
                  Password.is_special (random_char random k s) = false)).
    { intros k s Hs Hall.
      pose proof (class_of_charset _ s random k Hs Hall) as Hc'.
      apply andb_true_iff in Hc' as [H1 H2].
      split; [assumption | intros _; now apply negb_true_iff]. }
    intros c Hc. apply List.in_app_or in Hc as [Hc | Hc].
    - subst base.
      destruct includeSpecialChars; simpl in Hc;
        repeat (destruct Hc as [<- | Hc]); try contradiction;
        try (apply Hplain; [discriminate | reflexivity]).
      split; [apply class_of_charset; [discriminate | reflexivity] | discriminate].
    - subst rest. apply List.in_map_iff in Hc as (i & <- & _).
      split.
      + apply class_of_charset; [assumption|].
        subst charset. destruct includeSpecialChars; reflexivity.
      + intros ->. apply negb_true_iff.
        apply (class_of_charset (fun c => negb (Password.is_special c))); [assumption|].
        reflexivity. }
  assert (Hlen : Password.js_length password
                 = Z.max length_ (if includeSpecialChars then 4 else 3)).
  { unfold Password.js_length. rewrite (Permutation_length Hpw), length_app.
    subst rest. rewrite length_map, length_seq. subst base.
    destruct includeSpecialChars; simpl length; lia. }
  assert (Hl : PasswordSpec.has Password.is_lower password).
  { exists (random_char random 0 lowercase). split; [|assumption].
    apply Hin, List.in_or_app. left. subst base. simpl. auto. }
  assert (Hu : PasswordSpec.has Password.is_upper password).
  { exists (random_char random 1 uppercase). split; [|assumption].
    apply Hin, List.in_or_app. left. subst base. simpl. auto. }
  assert (Hd : PasswordSpec.has Password.is_digit password).
  { exists (random_char random 2 numbers). split; [|assumption].
    apply Hin, List.in_or_app. left. subst base. simpl. auto. }
  assert (Hs : includeSpecialChars = true -> PasswordSpec.has Password.is_special password).
  { intros Hi. exists (random_char random 3 specialChars). split; [|assumption].
    apply Hin, List.in_or_app. left. subst base. rewrite Hi. simpl. auto. }
  assert (Ha : forallb Password.allowed_char password = true).
  { apply List.forallb_forall. intros c Hc. apply Hallowed. now apply Hout. }
  repeat (split; [assumption|]).
  intros H8.
  apply PasswordFacts.test_class_has in Hl, Hu, Hd.
  unfold Password.evaluatePasswordStrength, Password.PASSWORD_PATTERNS_veryStrong,
    Password.PASSWORD_PATTERNS_strong.
  destruct password as [|c0 rest0] eqn:Epw.
  { unfold Password.js_length in Hlen. simpl in Hlen. destruct includeSpecialChars; lia. }
  rewrite <- Epw in *. rewrite Hl, Hu, Hd, Ha.
  destruct (Z.leb_spec 8 (Password.js_length password)); [|destruct includeSpecialChars; lia].
  destruct includeSpecialChars.
  - apply PasswordFacts.test_class_has in Hs; [|reflexivity]. rewrite Hs, Epw. reflexivity.
  - assert (Hns : Password.test_class Password.is_special password = false).
    { apply not_true_is_false. intros Ht. apply PasswordFacts.test_class_has in Ht
        as (c & Hc & Hcs). apply Hout in Hc. apply Hallowed in Hc as [_ Hc].
      rewrite (Hc eq_refl) in Hcs. discriminate. }
    rewrite Hns, Epw. reflexivity.
Qed.

(** *** Expiry look-ahead and the header validator *)

(** X29. [isTokenExpiringSoon] errs on the side of refreshing: a token that
    cannot be decoded or has no expiry counts as expiring; a token that has
    expired counts as expiring for every threshold that is not negative; and
    what expires soon for a threshold does so for every larger one.  The
    bound is inclusive. *)
Theorem isTokenExpiringSoon_fail_safe (jwt_decode : string -> option DecodedToken)
    (token : string) (w : World) :
  ((jwt_decode token = None \/ (jwt_decode token ≫= dt_exp) = None) ->
     forall t, isTokenExpiringSoon jwt_decode token t w = (Ok true, w))
  /\ (forall exp t, (jwt_decode token ≫= dt_exp) = Some exp ->
        exp - w_now w / 1000 <= t * 60 ->
        isTokenExpiringSoon jwt_decode token t w = (Ok true, w))
  /\ (forall exp t, (jwt_decode token ≫= dt_exp) = Some exp ->
        exp <= w_now w / 1000 -> 0 <= t ->
        isTokenExpiringSoon jwt_decode token t w = (Ok true, w))
  /\ (forall t1 t2, t1 <= t2 ->
        fst (isTokenExpiringSoon jwt_decode token t1 w) = Ok true ->
        fst (isTokenExpiringSoon jwt_decode token t2 w) = Ok true).
Proof.
  unfold isTokenExpiringSoon.
  destruct (jwt_decode token) as [d|]; simpl.
  2: { repeat split; intros; try reflexivity; try discriminate; assumption. }
  destruct (dt_exp d) as [exp|]; simpl.
  2: { repeat split; intros; try reflexivity; try discriminate; assumption. }
  assert (Hle : forall t, exp - w_now w / 1000 <= t * 60 ->
            (if exp =? 0 then ret true
             else let* ms := Date_now in ret (exp - ms / 1000 <=? t * 60)) w = (Ok true, w)).
  { intros t Ht. destruct (exp =? 0); [reflexivity|]. run.
    destruct (Z.leb_spec (exp - w_now w / 1000) (t * 60)); [reflexivity | lia]. }
  split; [|split; [|split]].
  - intros [Hn | Hn]; discriminate.
  - intros exp' t Hexp Ht. injection Hexp as <-. now apply Hle.
  - intros exp' t Hexp Hpast Ht. injection Hexp as <-. apply Hle. lia.
  - intros t1 t2 Ht. destruct (exp =? 0); [intros; reflexivity|]. run.
    destruct (Z.leb_spec (exp - w_now w / 1000) (t1 * 60)); [|discriminate].
    intros _. destruct (Z.leb_spec (exp - w_now w / 1000) (t2 * 60)); [reflexivity | lia].
Qed.

Lemma split_space_spaced (t : string) :
  Jwt.no_space t = false -> (2 <= length (Jwt.split_space t))%nat.
Proof.
  induction t as [|c t IH]; simpl; [discriminate|].
  destruct (Ascii.eqb c " ") eqn:E; simpl.
  - intros _. pose proof (JwtFacts.split_space_nonempty t).
    destruct (Jwt.split_space t); [contradiction | simpl; lia].
  - intros Hn. specialize (IH Hn).
    destruct (Jwt.split_space t) as [|p ps]; simpl in *; lia.
Qed.

(** X30. Every header from which [extractTokenFromHeader] gets a token is
    accepted by [validateAuthHeader], but not the other way round: a header
    that starts with the scheme and whose rest contains a space passes the
    validator and yields no token. *)
Theorem validateAuthHeader_weaker_than_extraction (req : Request) :
  (forall t, Jwt.extractTokenFromHeader (req_authorization req) = Some t ->
     validateAuthHeader req = CallNext req)
  /\ (forall rest, req_authorization req = Some ("Bearer " +:+ rest) ->
        Jwt.no_space rest = false ->
        validateAuthHeader req = CallNext req
        /\ Jwt.extractTokenFromHeader (req_authorization req) = None).
Proof.
  split.
  - intros t. unfold Jwt.extractTokenFromHeader, validateAuthHeader.
    destruct (req_authorization req) as [h|]; simpl; [|discriminate].
    destruct (String.eqb h "") eqn:Eh; [discriminate|].
    pose proof (JwtFacts.join_split h) as Hj.
    destruct (Jwt.split_space h) as [|p0 [|p1 [|p2 ps]]]; simpl; try discriminate.
    case_bool_decide as Hb; simpl; [|discriminate].
    intros _. inversion Hb; subst p0. simpl in Hj. subst h.
    unfold String.append. simpl. destruct p1; reflexivity.
  - intros rest Hh Hsp. unfold Jwt.extractTokenFromHeader, validateAuthHeader.
    rewrite Hh. split; [unfold String.append; simpl; destruct rest; reflexivity|].
    unfold Jwt.falsy_string, default, id.
    replace (String.eqb ("Bearer " +:+ rest) "") with false by reflexivity.
    cbv zeta.
    assert (Hs : Jwt.split_space ("Bearer " +:+ rest) = "Bearer" :: Jwt.split_space rest).
    { unfold String.append. simpl. reflexivity. }
    rewrite Hs. pose proof (split_space_spaced rest Hsp) as Hl.
    destruct (Jwt.split_space rest) as [|a [|b l]]; simpl in *; try lia. reflexivity.
Qed.

End MoreFacts.


(** ** The further properties on the sample data *)

Section MoreExamples.
Import Sample MoreSample.

Ltac distinct :=
  repeat (constructor;
          [simpl; intros Hin; repeat (destruct Hin as [Hin|Hin]; try discriminate Hin);
           exact Hin |]);
  constructor.

Ltac calc := vm_compute; reflexivity.

(** The access token of [u-teacher] is let through, and the principal it
    yields is the active user with the primary role. *)
Lemma authenticate_next_sound_example :
  exists u role,
    user_isActive u = true
    /\ institution_of (w_db sample_world) u ≫= inst_status = Some "active"
    /\ primaryRole_of (userRoles_of (w_db sample_world) (user_id u)) = Some role
    /\ role_name (urr_role role) = "TEACHER".
Proof.
  destruct (authenticate_next_sound (P := platform_plus) teacher_header
              teacher_authenticated sample_world eq_refl)
    as (token & decoded & u & role & _ & _ & _ & Ha & Hi & Hr & _ & Hreq).
  exists u, role.
  split; [exact Ha|]. split; [exact Hi|]. split; [exact Hr|].
  injection Hreq as _ _ _ _ Hname. symmetry. exact Hname.
Defined.

(** [u-teacher] holds the roles TEACHER, which is primary, and DIRECTOR: a
    route for teachers lets the user through, a route for directors does
    not. *)
Lemma authenticate_requireRole_primary_only_example :
  fst (run_chain [authenticate (P := platform_plus); requireRole ["TEACHER"]]
         teacher_header sample_world)
  = Ok (CallNext teacher_authenticated)
  /\ In "r-director" (map urr_roleId (userRoles_of (w_db sample_world) "u-teacher"))
  /\ fst (run_chain [authenticate (P := platform_plus); requireRole ["DIRECTOR"]]
            teacher_header sample_world)
     = Ok (Send (forbiddenResponse "Permisos insuficientes")).
Proof.
  split; [|split].
  - destruct (proj2 (authenticate_requireRole_primary_only (P := platform_plus)
                       ["TEACHER"] teacher_header sample_world)
                teacher_authenticated eq_refl)
      as (token & decoded & u & role & _ & _ & _ & _ & Hreq & Hpass & _).
    injection Hreq as _ _ _ _ Hname.
    apply (proj2 Hpass). rewrite <- Hname. left. reflexivity.
  - right. left. reflexivity.
  - destruct (proj2 (authenticate_requireRole_primary_only (P := platform_plus)
                       ["DIRECTOR"] teacher_header sample_world)
                teacher_authenticated eq_refl)
      as (token & decoded & u & role & _ & _ & _ & _ & Hreq & _ & Hdeny).
    injection Hreq as _ _ _ _ Hname.
    apply Hdeny. rewrite <- Hname. intros [Hin|[]]. discriminate Hin.
Defined.

Lemma requireInstitution_decision_example :
  requireInstitution None (authenticated principal ∅) sample_world
  = (Ok (CallNext (authenticated principal ∅)), sample_world)
  /\ fst (requireInstitution (Some "inst-B") (authenticated principal ∅) sample_world)
     = Ok (Send (forbiddenResponse "Acceso denegado a esta institución")).
Proof.
  split.
  - apply (proj1 (requireInstitution_decision None (authenticated principal ∅)
                    sample_world principal eq_refl)).
    reflexivity.
  - apply (proj2 (requireInstitution_decision (Some "inst-B") (authenticated principal ∅)
                    sample_world principal eq_refl) "inst-B" eq_refl).
    + discriminate.
    + discriminate.
Defined.

Lemma validateTenantAccess_next_sound_example :
  exists i institution,
    au_institutionId principal = Some i
    /\ find_by inst_id i (institutions (w_db sample_world)) = Some institution
    /\ inst_status institution = Some "active".
Proof.
  assert (Hnext : fst (validateTenantAccess (authenticated principal ∅) sample_world)
                  = Ok (CallNext (tenant_request principal ∅ (Some "plan-basic"))))
    by (vm_compute; reflexivity).
  destruct (validateTenantAccess_next_sound (authenticated principal ∅)
              (tenant_request principal ∅ (Some "plan-basic")) sample_world Hnext)
    as (user & i & institution & Hu & Hi & _ & _ & Hf & _ & Hs & _).
  injection Hu as <-. exists i, institution.
  split; [exact Hi|]. split; [exact Hf | exact Hs].
Defined.

Lemma validateTenantAccess_cross_tenant_example :
  fst (validateTenantAccess (authenticated admin {[ "institutionId" := "inst-B" ]})
         sample_world)
  = Ok (Send (forbiddenResponse "Acceso denegado a esta institución")).
Proof.
  assert (Hparam : req_params (authenticated admin {[ "institutionId" := "inst-B" ]})
                     !! "institutionId" = Some "inst-B") by calc.
  apply (validateTenantAccess_cross_tenant
           (authenticated admin {[ "institutionId" := "inst-B" ]}) sample_world
           admin "inst-B" eq_refl Hparam).
  - discriminate.
  - discriminate.
Defined.

Lemma applyTenantFilter_keeps_client_value_example :
  snd (applyTenantFilter (request ∅ None) {[ "institutionId" := "inst-B" ]})
    !! "institutionId" = Some "inst-B"
  /\ snd (applyTenantFilter (request ∅ None) {[ "page" := "2" ]})
       !! "institutionId" = Some "inst-A".
Proof.
  assert (Hctx : "inst-A" <> "") by discriminate.
  assert (Hsent : ({[ "institutionId" := "inst-B" ]} : gmap string string)
                    !! "institutionId" = Some "inst-B") by calc.
  assert (Hnone : Jwt.falsy_string (({[ "page" := "2" ]} : gmap string string)
                                      !! "institutionId") = true) by calc.
  split.
  - apply (proj1 (proj2 (proj2 (applyTenantFilter_keeps_client_value (request ∅ None)
             {[ "institutionId" := "inst-B" ]} "inst-A" eq_refl Hctx)))
             "inst-B" Hsent).
    discriminate.
  - apply (proj2 (proj2 (proj2 (applyTenantFilter_keeps_client_value (request ∅ None)
             {[ "page" := "2" ]} "inst-A" eq_refl Hctx))) Hnone).
Defined.

Lemma tenant_chain_isolation_example :
  fst (run_chain [setTenantContext; validateResourceOwnership "student" "id"]
         (authenticated principal {[ "id" := "s1" ]}) sample_world)
  = Ok (CallNext (set_institutionId (authenticated principal {[ "id" := "s1" ]})
                    (Some "inst-A")))
  /\ fst (run_chain [setTenantContext; validateResourceOwnership "student" "id"]
            (authenticated principal {[ "id" := "s9" ]}) sample_world)
     = Ok (Send (badRequestResponse "Recurso no encontrado")).
Proof.
  assert (Hinst : "inst-A" <> "") by discriminate.
  assert (H1 : req_params (authenticated principal {[ "id" := "s1" ]}) !! "id"
               = Some "s1") by calc.
  assert (H9 : req_params (authenticated principal {[ "id" := "s9" ]}) !! "id"
               = Some "s9") by calc.
  assert (Hs1 : "s1" <> "") by discriminate.
  assert (Hs9 : "s9" <> "") by discriminate.
  split.
  - apply (proj1 (tenant_chain_isolation "student" student_model
                    (authenticated principal {[ "id" := "s1" ]}) sample_world
                    principal "inst-A" "s1" eq_refl (or_introl eq_refl) eq_refl eq_refl
                    Hinst H1 Hs1)).
    eexists. split; reflexivity.
  - apply (proj2 (proj2 (tenant_chain_isolation "student" student_model
                    (authenticated principal {[ "id" := "s9" ]}) sample_world
                    principal "inst-A" "s9" eq_refl (or_introl eq_refl) eq_refl eq_refl
                    Hinst H9 Hs9))).
    reflexivity.
Defined.

Lemma validateBulkOwnership_all_owned_example :
  fst (validateBulkOwnership student_model ["s1"; "s3"] "inst-A" sample_world) = Ok true
  /\ fst (validateBulkOwnership student_model ["s1"; "s9"] "inst-A" sample_world)
     <> Ok true.
Proof.
  split.
  - apply (proj2 (validateBulkOwnership_all_owned student_model ["s1"; "s3"] "inst-A"
                    sample_world (or_introl eq_refl) ltac:(distinct) ltac:(distinct)
                    ltac:(distinct))).
    intros id [<-|[<-|[]]]; eexists; split; reflexivity.
  - intros Hok.
    destruct (proj1 (validateBulkOwnership_all_owned student_model ["s1"; "s9"] "inst-A"
                       sample_world (or_introl eq_refl) ltac:(distinct) ltac:(distinct)
                       ltac:(distinct)) Hok "s9" (or_intror (or_introl eq_refl)))
      as (row & Hrow & _).
    discriminate Hrow.
Defined.

Lemma validateBulkOwnership_repeated_id_example :
  validateBulkOwnership student_model ["s1"; "s1"] "inst-A" sample_world
  = (Ok false, sample_world).
Proof.
  apply (validateBulkOwnership_repeated_id student_model ["s1"; "s1"] "inst-A"
           sample_world ltac:(distinct) ltac:(distinct)).
  intros Hd. inversion Hd as [|x l Hin _]. apply Hin. left. reflexivity.
Defined.

Lemma validateBulkOwnership_without_column_example :
  validateBulkOwnership teacher_model ["t-1"] "inst-A" sample_world
  = (Ok false, sample_world)
  /\ validateBulkOwnership career_model [] "inst-A" sample_world = (Ok true, sample_world).
Proof.
  split.
  - apply (proj1 (validateBulkOwnership_without_column teacher_model ["t-1"] "inst-A"
                    sample_world)); discriminate.
  - apply (proj2 (validateBulkOwnership_without_column career_model [] "inst-A"
                    sample_world)).
    right. reflexivity.
Defined.

(** A teacher of institution A, on the basic plan with four of five
    students, may create a student on a route that also asks for the
    certificates feature. *)
Lemma requireABACPermission_sound_example :
  In (au_roleName principal) ["TEACHER"; "DIRECTOR"]
  /\ (studentLimit plan_basic = -1 \/ 4 < studentLimit plan_basic)
  /\ 0 < certificateMonthly plan_basic.
Proof.
  assert (Hnext : fst (run_chain (requireABACPermission "student" "create"
                                    ["TEACHER"; "DIRECTOR"] (Some "certificates"))
                         (tenant_request principal ∅ (Some "plan-basic"))
                         (world (db four false)))
                  = Ok (CallNext (set_abac (tenant_request principal ∅ (Some "plan-basic"))
                                    (context (Some plan_basic)))))
    by calc.
  destruct (requireABACPermission_sound (P := platform) "student" "create"
              ["TEACHER"; "DIRECTOR"] (Some "certificates") _ _ _ Hnext)
    as (user & tenant & Hu & Ht & Hin & _ & Hcreate & Hfeature).
  injection Hu as <-. injection Ht as <-.
  destruct (Hcreate eq_refl) as (plan & Hplan & Hstudent & _).
  assert (Hne : "certificates" <> "") by discriminate.
  destruct (Hfeature "certificates" eq_refl Hne) as (plan' & Hplan' & _ & _ & Hcert & _).
  change (Some plan_basic = Some plan) in Hplan. injection Hplan as <-.
  change (Some plan_basic = Some plan') in Hplan'. injection Hplan' as <-.
  split; [exact Hin|]. split; [exact (Hstudent eq_refl) | exact (Hcert eq_refl)].
Defined.

Lemma requireABACPermission_certificate_example :
  exists plan,
    find_by plan_id "plan-basic" (plans (w_db sample_world)) = Some plan
    /\ 0 < certificateMonthly plan
    /\ scoped_count certificate_kind (w_db sample_world) "inst-A" (w_now sample_world)
       < certificateMonthly plan.
Proof.
  assert (Hnext : fst (run_chain (requireABACPermission "certificate" "create"
                                    ["TEACHER"] (Some "certificates"))
                         (tenant_request principal ∅ (Some "plan-basic")) sample_world)
                  = Ok (CallNext (set_abac (tenant_request principal ∅ (Some "plan-basic"))
                                    (context (Some plan_basic)))))
    by calc.
  destruct (requireABACPermission_certificate (P := platform) ["TEACHER"] _ _ _ Hnext)
    as (tenant & plan & Ht & Hplan & Hpos & Hlt).
  injection Ht as <-. injection Hplan as <-.
  exists plan_basic. split; [reflexivity|]. split; [exact Hpos | exact Hlt].
Defined.

Lemma requireABACPermission_role_first_example :
  fst (run_chain (requireABACPermission "student" "create" ["ADMIN"; "DIRECTOR"] None)
         (tenant_request principal ∅ None) sample_world)
  = Ok (Send (forbiddenResponse "Permisos de rol insuficientes")).
Proof.
  apply (requireABACPermission_role_first (P := platform) "student" "create"
           ["ADMIN"; "DIRECTOR"] None (tenant_request principal ∅ None) sample_world
           principal (tenant_A None) eq_refl eq_refl).
  simpl. intros [H|[H|[]]]; discriminate H.
Defined.

Lemma evaluateAccess_table_example :
  evaluateAccess (context None) "grade" "update" = true
  /\ evaluateAccess (context None) "student" "update" <> true.
Proof.
  split.
  - apply (proj2 (evaluateAccess_table (context None) "grade" "update")).
    right. right. right. right. split; [reflexivity | right; reflexivity].
  - intros Hyes.
    destruct (proj1 (evaluateAccess_table (context None) "student" "update") Hyes)
      as [H|[[H _]|[[_ [H|H]]|[[H _]|[H _]]]]]; discriminate H.
Defined.

Lemma loginUser_failure_leaves_no_trace_example :
  w_db (snd (loginUser {| ld_email := "teacher@a.edu"; ld_password := "Wrong1!" |}
               sample_world))
  = w_db sample_world.
Proof.
  apply (proj1 (loginUser_failure_leaves_no_trace (P := platform)
                  {| ld_email := "teacher@a.edu"; ld_password := "Wrong1!" |} sample_world
                  (createAppError "Credenciales inválidas" 401) eq_refl)).
Defined.

Lemma loginUser_success_sound_example :
  exists u role,
    find_by user_email "teacher@a.edu" (users (w_db sample_world)) = Some u
    /\ user_isActive u = true
    /\ primaryRole_of (userRoles_of (w_db sample_world) (user_id u)) = Some role
    /\ users (w_db (snd (loginUser {| ld_email := "teacher@a.edu";
                                      ld_password := "Secret1!" |} sample_world)))
       = map (fun x => if String.eqb (user_id x) (user_id u)
                       then set_lastLogin (w_now sample_world) x else x)
             (users (w_db sample_world)).
Proof.
  destruct (fst (loginUser {| ld_email := "teacher@a.edu"; ld_password := "Secret1!" |}
                   sample_world)) as [response|e] eqn:Hrun; [|discriminate Hrun].
  destruct (loginUser_success_sound (P := platform) _ _ response Hrun)
    as (u & hash & role & Hu & Ha & _ & _ & _ & Hr & _ & _ & Husers).
  exists u, role. split; [exact Hu|]. split; [exact Ha|]. split; [exact Hr | exact Husers].
Defined.

Lemma refreshTokens_invalid_token_is_500_example :
  refreshTokens "expired-token" sample_world
  = (Thrown (createAppError "Error refrescando tokens" 500), sample_world).
Proof.
  apply (refreshTokens_invalid_token_is_500 (P := platform) "expired-token" sample_world).
  intros c Hc. vm_compute in Hc. discriminate Hc.
Defined.

Lemma errorHandler_status_example :
  res_status (eo_response
                (errorHandler false
                   (thrown_error (createAppError "Credenciales inválidas" 401)))) = 500
  /\ res_status (eo_response
                   (errorHandler false
                      (thrown_error (createAppError "Usuario no encontrado" 404)))) = 404.
Proof.
  split.
  - apply (proj1 (proj1 (errorHandler_status false
             (thrown_error (createAppError "Credenciales inválidas" 401))) 401 eq_refl
             ltac:(discriminate))).
  - apply (proj1 (proj1 (errorHandler_status false
             (thrown_error (createAppError "Usuario no encontrado" 404))) 404 eq_refl
             ltac:(discriminate))).
Defined.

Lemma login_failure_is_500_example :
  fst (login "production" {| ld_email := "nobody@a.edu"; ld_password := "Secret1!" |}
         sample_world)
  = Ok (internalServerErrorResponse "Credenciales inválidas").
Proof.
  apply (proj1 (login_failure_is_500 (P := platform) "production"
                  {| ld_email := "nobody@a.edu"; ld_password := "Secret1!" |} sample_world)
           (createAppError "Credenciales inválidas" 401)).
  reflexivity.
Defined.

Lemma errorHandler_production_hides_message_example :
  errorHandler false (thrown_error (plainError "connect ECONNREFUSED 10.0.0.5:5432"))
  = errorHandler false (thrown_error (plainError "Cannot read properties of undefined"))
  /\ errorHandler false (zod_error "first rendering" [email_issue])
     = errorHandler false (zod_error "second rendering" [email_issue]).
Proof.
  split.
  - apply (errorHandler_production_hides_message
             (thrown_error (plainError "connect ECONNREFUSED 10.0.0.5:5432"))
             (thrown_error (plainError "Cannot read properties of undefined")));
      reflexivity.
  - apply (errorHandler_production_hides_message
             (zod_error "first rendering" [email_issue])
             (zod_error "second rendering" [email_issue]));
      reflexivity.
Defined.

Lemma errorHandler_logging_example :
  eo_logged (errorHandler false (thrown_error (createAppError "Credenciales inválidas" 401)))
  = None
  /\ eo_logged (errorHandler false
                  (thrown_error (createAppError "Error refrescando tokens" 500)))
     = Some "error".
Proof.
  split.
  - apply (proj1 (errorHandler_logging false "Credenciales inválidas" 401)). lia.
  - apply (proj1 (proj2 (errorHandler_logging false "Error refrescando tokens" 500))). lia.
Defined.

Lemma evaluatePasswordStrength_weak_iff_example :
  Password.evaluatePasswordStrength (Password.lit "Abcdefg 1") <> Password.WEAK
  /\ ~ PasswordSpec.has Password.is_digit (Password.lit "Abcdefgh")
  /\ ~ Password.evaluatePasswordStrength (Password.lit "Abcdefgh") <> Password.WEAK.
Proof.
  assert (Hnodigit : ~ PasswordSpec.has Password.is_digit (Password.lit "Abcdefgh")).
  { vm_compute. intros (c & Hin & Hc).
    repeat (destruct Hin as [<-|Hin]; [discriminate Hc|]). exact Hin. }
  split; [|split].
  - apply (proj2 (evaluatePasswordStrength_weak_iff (Password.lit "Abcdefg 1"))).
    split; [vm_compute; discriminate|].
    split; [exists 65; split; [vm_compute; tauto | reflexivity]|].
    split; [exists 98; split; [vm_compute; tauto | reflexivity]|].
    exists 49; split; [vm_compute; tauto | reflexivity].
  - exact Hnodigit.
  - intros Hstrong. apply Hnodigit.
    apply (proj1 (evaluatePasswordStrength_weak_iff (Password.lit "Abcdefgh")) Hstrong).
Defined.

Lemma valid_password_strength_example :
  Password.evaluatePasswordStrength (Password.lit "Abcdefg1!") = Password.VERY_STRONG
  /\ Password.evaluatePasswordStrength (Password.lit "Abcdefg 1!") = Password.MEDIUM.
Proof.
  split.
  - apply (proj2 (valid_password_strength (Password.lit "Abcdefg1!") true eq_refl) eq_refl).
  - apply (proj2 (valid_password_strength (Password.lit "Abcdefg 1!") true eq_refl) eq_refl).
Defined.

Lemma hashPassword_length_gate_example :
  hashPassword toy_hash 12 "Short1!" sample_world
  = (Thrown (plainError "Error al procesar la contraseña"), sample_world)
  /\ fst (hashPassword toy_hash 12 "LongEnough1!" sample_world) = Ok "bcrypt:LongEnough1!".
Proof.
  split.
  - apply (proj2 (hashPassword_length_gate 12 toy_hash "Short1!" sample_world)).
    simpl. lia.
  - apply (proj1 (proj1 (hashPassword_length_gate 12 toy_hash "LongEnough1!" sample_world)
                    ltac:(simpl; lia))).
Defined.

Lemma changePassword_success_sound_example :
  exists u,
    find_by user_id "u-teacher" (users (w_db sample_world)) = Some u
    /\ bcrypt_compare "Secret1!" (default "" (user_password u)) = true
    /\ Password.isValid
         (Password.validatePassword (Password.lit "NewSecret9!") true) = true.
Proof.
  destruct (changePassword_success_sound (P := platform) 12 toy_hash
              {| cp_userId := "u-teacher"; cp_currentPassword := "Secret1!";
                 cp_newPassword := "NewSecret9!" |} sample_world true eq_refl)
    as (_ & u & current & salt & Hu & Hp & Hc & Hv & _).
  exists u. split; [exact Hu|]. rewrite Hp. split; [exact Hc | exact Hv].
Defined.

Lemma changePassword_failure_writes_nothing_example :
  w_db (snd (changePassword 12 toy_hash
               {| cp_userId := "u-teacher"; cp_currentPassword := "Secret1!";
                  cp_newPassword := "password1" |} sample_world))
  = w_db sample_world.
Proof.
  eapply (fun e H => proj1 (changePassword_failure_writes_nothing (P := platform) 12
                              toy_hash
                              {| cp_userId := "u-teacher"; cp_currentPassword := "Secret1!";
                                 cp_newPassword := "password1" |} sample_world e H)).
  vm_compute. reflexivity.
Defined.

Lemma generateTemporaryPassword_shape_example :
  Password.js_length (generateTemporaryPassword (fun k => (7 * k + 3)%nat) (@rev Z) 12 true)
  = 12
  /\ Password.evaluatePasswordStrength
       (generateTemporaryPassword (fun k => (7 * k + 3)%nat) (@rev Z) 12 true)
     = Password.VERY_STRONG
  /\ Password.js_length (generateTemporaryPassword (fun k => (7 * k + 3)%nat) (@rev Z) 2 false)
     = 3.
Proof.
  assert (Hperm : forall l : Password.jsstring, Permutation (rev l) l).
  { intros l. symmetry. apply Permutation_rev. }
  split; [|split].
  - apply (proj1 (generateTemporaryPassword_shape (fun k => (7 * k + 3)%nat) (@rev Z) 12
                    true Hperm)).
  - apply (proj2 (proj2 (proj2 (proj2 (proj2 (proj2
             (generateTemporaryPassword_shape (fun k => (7 * k + 3)%nat) (@rev Z) 12
                true Hperm))))))).
    lia.
  - apply (proj1 (generateTemporaryPassword_shape (fun k => (7 * k + 3)%nat) (@rev Z) 2
                    false Hperm)).
Defined.

Lemma isTokenExpiringSoon_fail_safe_example :
  isTokenExpiringSoon toy_decode "garbage" 15 sample_world = (Ok true, sample_world)
  /\ isTokenExpiringSoon toy_decode "soon" 10 sample_world = (Ok true, sample_world).
Proof.
  split.
  - apply (proj1 (isTokenExpiringSoon_fail_safe toy_decode "garbage" sample_world)).
    left. reflexivity.
  - apply (proj1 (proj2 (isTokenExpiringSoon_fail_safe toy_decode "soon" sample_world))
             1700000600 10 eq_refl).
    vm_compute. discriminate.
Defined.

Lemma validateAuthHeader_weaker_than_extraction_example :
  validateAuthHeader (with_header "Bearer abc def") = CallNext (with_header "Bearer abc def")
  /\ Jwt.extractTokenFromHeader (req_authorization (with_header "Bearer abc def")) = None.
Proof.
  apply (proj2 (validateAuthHeader_weaker_than_extraction (with_header "Bearer abc def"))
           "abc def" eq_refl eq_refl).
Defined.

End MoreExamples.
